(** * Printer Monitor: polling and alerting core

    A shallow embedding of the Node.js server of the printer monitor
    (the [server.js] carried by [scripts/rpm-post-install.sh]) and of
    its [storage.js] alert history, with the properties of the
    polling-and-alerting core stated and proved over it.

    Conventions of the embedding:
    - JavaScript strings are [string]s of 8-bit code units (the Latin-1
      range of UTF-16); SNMP values arrive as such strings;
    - integers produced by [parseInt] are mathematical integers [Z]
      ([-0] is [0], magnitudes are taken below 2^53 so that no rounding
      to a double occurs); [NaN] is explicit;
    - the few floating-point computations of the server
      ([Math.round((current / max) * 100)], the downtime in minutes or
      hours) are carried out on binary64 primitive floats;
    - the wall clock is a parameter [clk : Clock] of each synchronous
      evaluation: one reading of [Date.now()] (milliseconds) together
      with its ISO text, the local day of the week and the "HH:MM" time
      of day used by the notification schedule;
    - global mutable objects ([printers], [scanStatus], [config],
      [alertCooldown], [offlineTimestamps], the alert history file) are
      the fields of one explicit [Server] state that is threaded
      through every operation. *)

From Stdlib Require Import ZArith Ascii String PrimFloat FloatOps SpecFloat.
From stdpp Require Import gmap strings list pretty.

Open Scope Z_scope.

(** ** A JavaScript prelude: the string and number primitives used by the server *)

Module JS.

Definition code (c : ascii) : N := N_of_ascii c.

Definition in_range (lo hi : N) (c : ascii) : bool :=
  ((lo <=? code c) && (code c <=? hi))%N.

(** [\d] of a regular expression. *)
Definition is_digit (c : ascii) : bool := in_range 48 57 c.

(** WhiteSpace and LineTerminator code units below 256:
    TAB, LF, VT, FF, CR, SP and NBSP. *)
Definition is_space (c : ascii) : bool :=
  in_range 9 13 c || (code c =? 32)%N || (code c =? 160)%N.

(** [String.prototype.toLowerCase] on one code unit: A-Z, and the
    Latin-1 capitals U+00C0-U+00DE except the multiplication sign. *)
Definition lower (c : ascii) : ascii :=
  if in_range 65 90 c || (in_range 192 222 c && negb (code c =? 215)%N)
  then ascii_of_N (code c + 32)
  else c.

Fixpoint toLowerCase (s : string) : string :=
  match s with
  | EmptyString => EmptyString
  | String c r => String (lower c) (toLowerCase r)
  end.

Fixpoint trimStart (s : string) : string :=
  match s with
  | String c r => if is_space c then trimStart r else s
  | EmptyString => EmptyString
  end.

Fixpoint trimEnd (s : string) : string :=
  match s with
  | EmptyString => EmptyString
  | String c r =>
      match trimEnd r with
      | EmptyString => if is_space c then EmptyString else String c EmptyString
      | r' => String c r'
      end
  end.

Definition trim (s : string) : string := trimEnd (trimStart s).

Fixpoint startsWith (p s : string) : bool :=
  match p, s with
  | EmptyString, _ => true
  | String a p', String b s' => (code a =? code b)%N && startsWith p' s'
  | String _ _, EmptyString => false
  end.

(** [s.includes(p)]. *)
Fixpoint includes (s p : string) : bool :=
  startsWith p s ||
  match s with
  | EmptyString => false
  | String _ r => includes r p
  end.

Fixpoint all_chars (f : ascii -> bool) (s : string) : bool :=
  match s with
  | EmptyString => true
  | String c r => f c && all_chars f r
  end.

Fixpoint any_char (f : ascii -> bool) (s : string) : bool :=
  match s with
  | EmptyString => false
  | String c r => f c || any_char f r
  end.

Definition is_empty (s : string) : bool :=
  match s with EmptyString => true | _ => false end.

(** [/^\d+$/.test(s)]. *)
Definition only_digits (s : string) : bool :=
  negb (is_empty s) && all_chars is_digit s.

(** The longest prefix of [s] whose characters satisfy [f], and the rest. *)
Fixpoint span (f : ascii -> bool) (s : string) : string * string :=
  match s with
  | String c r =>
      if f c then let '(a, b) := span f r in (String c a, b) else (EmptyString, s)
  | EmptyString => (EmptyString, EmptyString)
  end.

(** [s.substring(0, n)]. *)
Fixpoint take (n : nat) (s : string) : string :=
  match n, s with
  | S n', String c r => String c (take n' r)
  | _, _ => EmptyString
  end.

(** Truthiness of a value that is a string or [null]. *)
Definition truthy (v : option string) : bool :=
  match v with
  | Some s => negb (is_empty s)
  | None => false
  end.

(** [v || d] for a string or [null] [v]. *)
Definition or_else (v : option string) (d : string) : string :=
  match v with
  | Some s => if is_empty s then d else s
  | None => d
  end.

(** *** Numbers *)

(** The result of [parseInt]: an integer or [NaN]. *)
Inductive num : Type :=
| Int (z : Z)
| NaN.

Definition digit_value (c : ascii) : Z :=
  if is_digit c then Z.of_N (code c) - 48
  else if in_range 97 102 c then Z.of_N (code c) - 87
  else if in_range 65 70 c then Z.of_N (code c) - 55
  else 0.

Definition is_hex_digit (c : ascii) : bool :=
  is_digit c || in_range 97 102 c || in_range 65 70 c.

Fixpoint digits_value (radix acc : Z) (s : string) : Z :=
  match s with
  | EmptyString => acc
  | String c r => digits_value radix (acc * radix + digit_value c) r
  end.

Definition strip_sign (s : string) : bool * string :=
  match s with
  | String "-" r => (true, r)
  | String "+" r => (false, r)
  | _ => (false, s)
  end.

Definition strip_hex_prefix (s : string) : option string :=
  match s with
  | String "0" (String "x" r) => Some r
  | String "0" (String "X" r) => Some r
  | _ => None
  end.

(** [parseInt(s)] with no radix: leading white space is skipped, a
    sign is accepted, [0x] selects radix 16, the longest prefix of
    digits is read, and no digit at all gives [NaN]. *)
Definition parseInt (s : string) : num :=
  let '(neg, body) := strip_sign (trimStart s) in
  let '(radix, ds) :=
    match strip_hex_prefix body with
    | Some r => (16, fst (span is_hex_digit r))
    | None => (10, fst (span is_digit body))
    end in
  if is_empty ds then NaN
  else let v := digits_value radix 0 ds in Int (if neg then - v else v).

(** [ExponentPart] (or nothing) up to the end of the string. *)
Definition exponent_ok (s : string) : bool :=
  match s with
  | EmptyString => true
  | String c r =>
      ((code c =? 101) || (code c =? 69))%N
      && only_digits (snd (strip_sign r))
  end.

(** [StrUnsignedDecimalLiteral]. *)
Definition unsigned_decimal (s : string) : bool :=
  if String.eqb s "Infinity" then true
  else
    let '(ip, r1) := span is_digit s in
    match r1 with
    | String "." r2 =>
        let '(fp, r3) := span is_digit r2 in
        (negb (is_empty ip) || negb (is_empty fp)) && exponent_ok r3
    | _ => negb (is_empty ip) && exponent_ok r1
    end.

Definition is_octal_digit (c : ascii) : bool := in_range 48 55 c.
Definition is_binary_digit (c : ascii) : bool := in_range 48 49 c.

(** [NonDecimalIntegerLiteral]: [0x], [0o] and [0b] forms, unsigned. *)
Definition non_decimal (s : string) : bool :=
  match s with
  | String "0" (String p r) =>
      negb (is_empty r) &&
      (if ((code p =? 120) || (code p =? 88))%N then all_chars is_hex_digit r
       else if ((code p =? 111) || (code p =? 79))%N then all_chars is_octal_digit r
       else if ((code p =? 98) || (code p =? 66))%N then all_chars is_binary_digit r
       else false)
  | _ => false
  end.

(** [isNaN(s)] for a string [s]: [Number(s)] is [NaN] unless the
    trimmed string is empty or a [StrNumericLiteral]. *)
Definition isNaN (s : string) : bool :=
  let t := trim s in
  negb (is_empty t || non_decimal t || unsigned_decimal (snd (strip_sign t))).

(** [a <= b] on strings: code units compared from the left. *)
Fixpoint str_leb (a b : string) : bool :=
  match a, b with
  | EmptyString, _ => true
  | String _ _, EmptyString => false
  | String x a', String y b' =>
      if (code x <? code y)%N then true
      else if (code y <? code x)%N then false
      else str_leb a' b'
  end.

(** *** Doubles *)

(** The Number value of an integer: the double nearest to it, ties to
    even, and an infinity beyond the largest double. *)
Definition of_Z (z : Z) : float :=
  SF2Prim (binary_normalize prec emax z 0 false).

(** [Math.round]: the nearest integer, ties towards plus infinity;
    [NaN] and the infinities are returned as [NaN]. *)
Definition Math_round (f : float) : num :=
  match Prim2SF f with
  | S754_zero _ => Int 0
  | S754_finite s m e =>
      let mz := if s then Z.neg m else Z.pos m in
      if 0 <=? e then Int (mz * 2 ^ e)
      else Int ((2 * mz + 2 ^ (- e)) / 2 ^ (1 - e))
  | _ => NaN
  end.

(** [`${n}`] for an integer or [NaN]. *)
Definition show (n : num) : string :=
  match n with
  | Int z => pretty z
  | NaN => "NaN"
  end.

End JS.

(** ** Data model *)

(** One reading of the wall clock, in the four forms the server uses:
    [Date.now()], [new Date().toISOString()], [new Date().getDay()]
    (0 is Sunday) and [new Date().toTimeString().slice(0, 5)]. *)
Record Clock : Type := {
  ms : Z;
  iso : string;
  day : Z;
  hhmm : string
}.

Inductive SupplyType : Type :=
| SToner | SDrum | SFuser | STransfer | SMaintenance | SWaste | SOther.

Record Supply : Type := {
  s_name : string;
  s_current : Z;
  s_max : Z;
  s_type : SupplyType
}.

(** [TRAY_STATUS] *)
Inductive TrayStatus : Type :=
| TUnknown | TAvailable | TUnavailable | TEmpty | TPaperJam | TTrayMissing.

Inductive CapacityStatus : Type := HasPaper | Empty.

Record Tray : Type := {
  t_name : string;
  t_maxCapacity : option Z;
  t_currentLevel : option Z;
  t_status : TrayStatus;
  t_mediaName : option string;
  t_capacityStatus : option CapacityStatus
}.

Inductive Severity : Type := Critical | Warning.

Record DeviceError : Type := {
  e_severity : Severity;
  e_description : string;
  e_timestamp : string
}.

(** [DEVICE_STATUS], and the ['offline'] the poller writes itself. *)
Inductive Status : Type :=
| StOther | StUnknown | StIdle | StPrinting | StWarmup | StWaiting | StOffline.

Record Network : Type := {
  sysName : option string;
  sysLocation : option string;
  sysContact : option string
}.

(** The [printerData] object built by [queryPrinter]. *)
Record PrinterData : Type := {
  ip : string;
  name : option string;
  model : option string;
  serial : option string;
  status : Status;
  totalPages : JS.num;
  supplies : list Supply;
  trays : list Tray;
  errors : list DeviceError;
  network : Network;
  lastUpdate : string;
  online : bool
}.

Inductive AlertType : Type :=
| AOffline | ABackOnline | ALowSupply | ACriticalSupply.

(** The [details] object handed to [triggerAlert]; a field that is not
    set is [undefined]. *)
Record Details : Type := {
  d_percentage : option JS.num;
  d_lastSeen : option string;
  d_downtime : option string
}.

(** The argument of [storage.addAlert]. *)
Record AlertInput : Type := {
  i_type : AlertType;
  i_printerIp : string;
  i_printerName : string;
  i_supplyName : option string;
  i_subject : string;
  i_message : string;
  i_details : Details
}.

(** An entry of [alert-history.json]. *)
Record AlertEvent : Type := {
  a_id : string;
  a_alert : AlertInput;
  a_timestamp : string;
  a_acknowledged : bool;
  a_acknowledgedAt : option string;
  a_acknowledgedBy : option string
}.

#[global] Instance AlertType_eq_dec : EqDecision AlertType.
Proof. solve_decision. Defined.

#[global] Instance Status_eq_dec : EqDecision Status.
Proof. solve_decision. Defined.

(** ** storage.js: the alert history file

    The file [data/alert-history.json] is the list it holds ([[]] when
    it does not exist); [writeJSON] is taken to succeed. *)

Module Storage.

Definition max_alerts : nat := 1000.

(** [alerts.slice(-n)] *)
Definition slice_last {A} (n : nat) (l : list A) : list A :=
  drop (length l - n) l.

Definition loadAlertHistory (file : list AlertEvent) : list AlertEvent := file.

(** [saveAlertHistory(alerts)]: the new content of the file. *)
Definition saveAlertHistory (alerts : list AlertEvent) : list AlertEvent :=
  slice_last max_alerts alerts.

Definition new_event (clk : Clock) (alert : AlertInput) : AlertEvent :=
  {| a_id := pretty (ms clk);
     a_alert := alert;
     a_timestamp := iso clk;
     a_acknowledged := false;
     a_acknowledgedAt := None;
     a_acknowledgedBy := None |}.

(** [addAlert(alert)]: the new content of the file and the entry returned. *)
Definition addAlert (clk : Clock) (alert : AlertInput) (file : list AlertEvent)
  : list AlertEvent * AlertEvent :=
  let alerts := loadAlertHistory file ++ [new_event clk alert] in
  (saveAlertHistory alerts, new_event clk alert).

Definition acknowledge_event (clk : Clock) (by_ : string) (a : AlertEvent) : AlertEvent :=
  {| a_id := a_id a;
     a_alert := a_alert a;
     a_timestamp := a_timestamp a;
     a_acknowledged := true;
     a_acknowledgedAt := Some (iso clk);
     a_acknowledgedBy := Some by_ |}.

(** [alerts.findIndex(a => a.id === alertId)] *)
Fixpoint find_index (alertId : string) (alerts : list AlertEvent) : option nat :=
  match alerts with
  | [] => None
  | a :: r =>
      if String.eqb (a_id a) alertId then Some 0%nat
      else S <$> find_index alertId r
  end.

(** [acknowledgeAlert(alertId, acknowledgedBy)]: the first entry with
    that id is updated in place and returned; the file is rewritten
    only when one was found. *)
Definition acknowledgeAlert (clk : Clock) (alertId by_ : string) (file : list AlertEvent)
  : list AlertEvent * option AlertEvent :=
  let alerts := loadAlertHistory file in
  match find_index alertId alerts with
  | Some i =>
      match alerts !! i with
      | Some a =>
          let a' := acknowledge_event clk by_ a in
          (saveAlertHistory (<[i := a']> alerts), Some a')
      | None => (file, None)
      end
  | None => (file, None)
  end.

(** A run of [addAlert] calls, oldest first. *)
Definition addAlerts (entries : list (Clock * AlertInput)) (file : list AlertEvent)
  : list AlertEvent :=
  foldl (fun f e => fst (addAlert e.1 e.2 f)) file entries.

(** [deleteAlert(alertId)]: the first entry with that id is spliced
    out and the file rewritten; [false] and no write when none has it. *)
Definition deleteAlert (alertId : string) (file : list AlertEvent)
  : list AlertEvent * bool :=
  let alerts := loadAlertHistory file in
  match find_index alertId alerts with
  | Some index => (saveAlertHistory (delete index alerts), true)
  | None => (file, false)
  end.

(** [getUnacknowledgedCount()] *)
Definition getUnacknowledgedCount (file : list AlertEvent) : nat :=
  length (filter (fun a => a_acknowledged a = false) (loadAlertHistory file)).

End Storage.

(** ** The device poller: [queryPrinter] *)

(** The keys of [PRINTER_OIDS]. *)
Inductive Oid : Type :=
| oid_description | oid_sysName | oid_sysLocation | oid_sysContact
| oid_serial | oid_serialAlt1 | oid_serialAlt2 | oid_serialAlt3
| oid_status | oid_deviceStatus | oid_statusAlt1
| oid_totalPages | oid_totalPagesAlt1 | oid_totalPagesAlt2 | oid_totalPagesAlt3
| oid_totalPagesAlt4 | oid_totalPagesAlt5 | oid_totalPagesAlt6
| oid_supplyDesc | oid_supplyMax | oid_supplyCurrent
| oid_inputTrayName | oid_inputTrayCapacityMax | oid_inputTrayCapacityCurrent
| oid_inputTrayStatus | oid_inputTrayMediaName
| oid_alertSeverity | oid_alertGroup | oid_alertIndex | oid_alertDescription.

#[global] Instance Oid_eq_dec : EqDecision Oid.
Proof. solve_decision. Defined.

(** What a device answers during one poll. [snmpGet] resolves to
    [null] on any error or time-out and to [value.toString()]
    otherwise; [snmpWalk] resolves to the values collected, [[]] on
    error. *)
Record Agent : Type := {
  snmpGet : Oid -> option string;
  snmpWalk : Oid -> list string
}.

(** A device that answers nothing. *)
Definition unreachable : Agent :=
  {| snmpGet := fun _ => None; snmpWalk := fun _ => [] |}.

Module Poller.

Definition DEVICE_STATUS (code : JS.num) : option Status :=
  match code with
  | JS.Int 1 => Some StOther
  | JS.Int 2 => Some StUnknown
  | JS.Int 3 => Some StIdle
  | JS.Int 4 => Some StPrinting
  | JS.Int 5 => Some StWarmup
  | JS.Int 6 => Some StWaiting
  | _ => None
  end.

Definition TRAY_STATUS (code : JS.num) : option TrayStatus :=
  match code with
  | JS.Int 0 => Some TUnknown
  | JS.Int 1 => Some TAvailable
  | JS.Int 2 => Some TUnavailable
  | JS.Int 3 => Some TEmpty
  | JS.Int 4 => Some TPaperJam
  | JS.Int 5 => Some TTrayMissing
  | _ => None
  end.

(** The [printerData] a poll starts from. *)
Definition initial (clk : Clock) (ip : string) : PrinterData :=
  {| ip := ip; name := None; model := None; serial := None;
     status := StUnknown; totalPages := JS.Int 0;
     supplies := []; trays := []; errors := [];
     network := {| sysName := None; sysLocation := None; sysContact := None |};
     lastUpdate := iso clk; online := false |}.

(** [v = v || get(oid)]-style fallback: the next OID is asked only
    when the value so far is [null] or empty. *)
Definition or_get (a : Agent) (v : option string) (oid : Oid) : option string :=
  if JS.truthy v then v else snmpGet a oid.

(** The serial number chain. *)
Definition query_serial (a : Agent) : option string :=
  let serial := snmpGet a oid_serial in
  let serial := or_get a serial oid_serialAlt1 in
  let serial := or_get a serial oid_serialAlt2 in
  if JS.truthy serial then serial else None.

(** [status && !isNaN(status)], [pages && !isNaN(pages)] *)
Definition numeric (v : option string) : bool :=
  match v with
  | Some s => negb (JS.is_empty s) && negb (JS.isNaN s)
  | None => false
  end.

Definition parse (v : option string) : JS.num :=
  match v with
  | Some s => JS.parseInt s
  | None => JS.NaN
  end.

(** The status chain; [None] leaves [printerData.status] as it is. *)
Definition query_status (a : Agent) : option Status :=
  let status := snmpGet a oid_deviceStatus in
  let status := or_get a status oid_statusAlt1 in
  if numeric status
  then Some (default StUnknown (DEVICE_STATUS (parse status)))
  else None.

(** [if (!pages || isNaN(pages)) pages = get(oid)] *)
Definition or_get_numeric (a : Agent) (v : option string) (oid : Oid) : option string :=
  if numeric v then v else snmpGet a oid.

(** The page count chain; [None] leaves [printerData.totalPages] as it is. *)
Definition query_pages (a : Agent) : option JS.num :=
  let pages := snmpGet a oid_totalPages in
  let pages := or_get_numeric a pages oid_totalPagesAlt1 in
  let pages := or_get_numeric a pages oid_totalPagesAlt2 in
  let pages := or_get_numeric a pages oid_totalPagesAlt3 in
  let pages := or_get_numeric a pages oid_totalPagesAlt4 in
  let pages := or_get_numeric a pages oid_totalPagesAlt5 in
  let pages := or_get_numeric a pages oid_totalPagesAlt6 in
  if numeric pages then Some (parse pages) else None.

(** [x || null] *)
Definition or_null (v : option string) : option string :=
  if JS.truthy v then v else None.

(** *** The supply table *)

(** The type decided from the lower-cased, trimmed name. *)
Definition supply_type (nameLower : string) : SupplyType :=
  if JS.includes nameLower "toner" || JS.includes nameLower "ink"
     || JS.includes nameLower "cartridge"
  then (if JS.includes nameLower "waste" then SWaste else SToner)
  else if JS.includes nameLower "drum" then SDrum
  else if JS.includes nameLower "fuser" || JS.includes nameLower "fixing" then SFuser
  else if JS.includes nameLower "belt" || JS.includes nameLower "transfer" then STransfer
  else if JS.includes nameLower "maintenance" || JS.includes nameLower "kit" then SMaintenance
  else SOther.

(** The body of the supply loop for one index at which the three
    sequences are defined: the supply pushed, if any. *)
Definition supply_row (name maxS curS : string) : option Supply :=
  let maxVal := JS.parseInt maxS in
  let currentVal := JS.parseInt curS in
  let nameLower := JS.trim (JS.toLowerCase name) in
  match maxVal, currentVal with
  | JS.Int m, JS.Int c =>
      if (0 <? m) && negb (JS.is_empty name) then
        if JS.only_digits (JS.trim name) || (String.length (JS.trim name) <? 3)%nat
        then None
        else
          match supply_type nameLower with
          | SOther => None
          | ty => Some {| s_name := JS.trim name; s_current := c; s_max := m; s_type := ty |}
          end
      else None
  | _, _ => None
  end.

(** One iteration of [for (let i = 0; i < supplyNames.length; i++)]. *)
Definition supply_step (names maxs curs : list string) (acc : list Supply) (i : nat)
  : list Supply :=
  match names !! i, maxs !! i, curs !! i with
  | Some n, Some m, Some c =>
      match supply_row n m c with
      | Some s => acc ++ [s]
      | None => acc
      end
  | _, _, _ => acc
  end.

Definition process_supplies (names maxs curs : list string) : list Supply :=
  if (0 <? length names)%nat && (0 <? length maxs)%nat && (0 <? length curs)%nat
  then foldl (supply_step names maxs curs) [] (seq 0 (length names))
  else [].

(** *** The input tray table *)

(** [/^\d+(\.\d+)?$/.test(s)] *)
Definition decimal_only (s : string) : bool :=
  let '(ip, r) := JS.span JS.is_digit s in
  negb (JS.is_empty ip) &&
  match r with
  | EmptyString => true
  | String "." f => JS.only_digits f
  | _ => false
  end.

(** [/[\x00-\x1F\x7F-\x9F]/.test(s)] *)
Definition has_control (s : string) : bool :=
  JS.any_char (fun c => JS.in_range 0 31 c || JS.in_range 127 159 c) s.

(** [/^-?\d+$/.test(s)] *)
Definition signed_digits (s : string) : bool :=
  match s with
  | String "-" r => JS.only_digits r
  | _ => JS.only_digits s
  end.

Definition is_tray (nameLower : string) : bool :=
  JS.includes nameLower "tray" || JS.includes nameLower "drawer"
  || JS.includes nameLower "cassette" || JS.includes nameLower "bypass"
  || JS.includes nameLower "manual feed" || JS.includes nameLower "multi-purpose"
  || JS.includes nameLower "multipurpose" || JS.includes nameLower "mpt".

Definition positive (n : JS.num) : option Z :=
  match n with
  | JS.Int z => if 0 <? z then Some z else None
  | JS.NaN => None
  end.

Definition capacity_status (currentLevel : JS.num) : option CapacityStatus :=
  match currentLevel with
  | JS.Int z =>
      if 0 <? z then None
      else if z =? -1 then Some HasPaper
      else if z =? -3 then Some HasPaper
      else if z =? 0 then Some Empty
      else None
  | JS.NaN => None
  end.

(** [i < xs.length ? parseInt(xs[i]) : d] *)
Definition parse_at (xs : list string) (i : nat) (d : Z) : JS.num :=
  match xs !! i with
  | Some x => JS.parseInt x
  | None => JS.Int d
  end.

(** One iteration of the tray loop. *)
Definition tray_step (names maxs curs stats medias : list string)
    (acc : list Tray) (i : nat) : list Tray :=
  let name := default EmptyString (names !! i) in
  let nameLower := JS.trim (JS.toLowerCase name) in
  let maxCapacity := parse_at maxs i (-1) in
  let currentLevel := parse_at curs i (-1) in
  let statusCode := parse_at stats i 0 in
  let mediaName := medias !! i in
  if JS.is_empty name || (String.length (JS.trim name) <? 3)%nat
     || decimal_only (JS.trim name) then acc
  else if has_control name then acc
  else if negb (is_tray nameLower) then acc
  else if existsb (fun t => String.eqb (JS.toLowerCase (t_name t))
                                       (JS.toLowerCase (JS.trim name))) acc then acc
  else
    acc ++ [ {| t_name := JS.trim name;
                t_maxCapacity := positive maxCapacity;
                t_currentLevel := positive currentLevel;
                t_status := default TUnknown (TRAY_STATUS statusCode);
                t_mediaName :=
                  match mediaName with
                  | Some m => if negb (JS.is_empty m) && negb (signed_digits m)
                              then Some m else None
                  | None => None
                  end;
                t_capacityStatus := capacity_status currentLevel |} ].

Definition process_trays (names maxs curs stats medias : list string) : list Tray :=
  foldl (tray_step names maxs curs stats medias) [] (seq 0 (length names)).

(** *** The alert table *)

Definition error_step (clk : Clock) (severities descriptions : list string)
    (acc : list DeviceError) (i : nat) : list DeviceError :=
  let description := default "Unknown alert"%string (descriptions !! i) in
  match parse_at severities i 0 with
  | JS.Int 2 => acc ++ [ {| e_severity := Critical; e_description := description;
                            e_timestamp := iso clk |} ]
  | JS.Int 3 => acc ++ [ {| e_severity := Warning; e_description := description;
                            e_timestamp := iso clk |} ]
  | _ => acc
  end.

Definition process_errors (clk : Clock) (severities descriptions : list string)
  : list DeviceError :=
  foldl (error_step clk severities descriptions) [] (seq 0 (length severities)).

(** *** [queryPrinter(ip, community)]

    The snapshot is built from a fresh [printerData]; nothing of an
    earlier snapshot of the same address enters it. *)

(** [printerData.status = 'offline'] *)
Definition set_offline (p : PrinterData) : PrinterData :=
  {| ip := ip p; name := name p; model := model p; serial := serial p;
     status := StOffline; totalPages := totalPages p;
     supplies := supplies p; trays := trays p; errors := errors p;
     network := network p; lastUpdate := lastUpdate p; online := online p |}.

Definition queryPrinter (a : Agent) (clk : Clock) (ip : string) : PrinterData :=
  let printerData := initial clk ip in
  let desc := snmpGet a oid_description in
  if JS.truthy desc then
    let d := default EmptyString desc in
    {| ip := ip;
       name := Some (JS.take 50 d);
       model := Some (JS.take 50 d);
       serial := query_serial a;
       status := default (status printerData) (query_status a);
       totalPages := default (totalPages printerData) (query_pages a);
       supplies := process_supplies (snmpWalk a oid_supplyDesc)
                     (snmpWalk a oid_supplyMax) (snmpWalk a oid_supplyCurrent);
       trays := process_trays (snmpWalk a oid_inputTrayName)
                  (snmpWalk a oid_inputTrayCapacityMax)
                  (snmpWalk a oid_inputTrayCapacityCurrent)
                  (snmpWalk a oid_inputTrayStatus)
                  (snmpWalk a oid_inputTrayMediaName);
       errors := process_errors clk (snmpWalk a oid_alertSeverity)
                   (snmpWalk a oid_alertDescription);
       network := {| sysName := or_null (snmpGet a oid_sysName);
                     sysLocation := or_null (snmpGet a oid_sysLocation);
                     sysContact := or_null (snmpGet a oid_sysContact) |};
       lastUpdate := lastUpdate printerData;
       online := true |}
  else set_offline printerData.

End Poller.

(** ** The server state *)

Record EmailConfig : Type := {
  em_enabled : bool;
  em_host : string;
  em_user : string;
  em_pass : string;
  em_recipients : list string
}.

Record Webhook : Type := {
  wh_enabled : bool;
  wh_url : string
}.

(** [config.alerts]; the schedule fields may be unset. *)
Record AlertsConfig : Type := {
  al_enabled : bool;
  lowSupplyThreshold : Z;
  criticalSupplyThreshold : Z;
  offlineMinutes : Z;
  cooldownHours : Z;
  notifySchedule : option string;
  notifyTime : option string;
  notifyEndTime : option string;
  notifyDays : option (list Z)
}.

Record Config : Type := {
  email : EmailConfig;
  webhooks : list Webhook;
  alerts : AlertsConfig
}.

(** What [sendEmailNotification] is called for. *)
Inductive NotifyKind : Type :=
| KAlert (type : AlertType)
| KReport
| KTest.

Inductive PayloadFormat : Type := FDiscord | FSlack | FGeneric.

(** A notification handed to a transport: the SMTP transport created
    and verified for a message to the valid recipients, or a POST to a
    webhook URL. Whether the network then delivers is not modelled. *)
Inductive Dispatch : Type :=
| Smtp (recipients : list string) (subject message : string) (kind : NotifyKind)
| WebhookPost (url : string) (format : PayloadFormat) (subject message : string)
    (kind : NotifyKind).

Definition is_smtp (d : Dispatch) : bool :=
  match d with Smtp _ _ _ _ => true | WebhookPost _ _ _ _ _ => false end.

Definition is_webhook (d : Dispatch) : bool := negb (is_smtp d).

Record ScanStatus : Type := {
  scanning : bool;
  lastScan : option string
}.

(** A run of [scanNetworkRange] suspended at the top of its batch
    loop: the prefix scanned, the first host number of the next batch
    and the addresses found so far. *)
Record ScanTask : Type := {
  sc_prefix : string;
  sc_start : Z;
  sc_found : list string
}.

(** The mutable globals of [server.js], the alert history file, the
    notifications handed out so far and the scans in flight. [printers]
    is a [Map]: an association list in insertion order. *)
Record Server : Type := {
  printers : list (string * PrinterData);
  scanStatus : ScanStatus;
  config : Config;
  alertCooldown : gmap string Z;
  offlineTimestamps : gmap string Z;
  alertFile : list AlertEvent;
  outbox : list Dispatch;
  scans : list ScanTask
}.

Definition with_printers (f : list (string * PrinterData) -> list (string * PrinterData))
    (st : Server) : Server :=
  {| printers := f (printers st); scanStatus := scanStatus st; config := config st;
     alertCooldown := alertCooldown st; offlineTimestamps := offlineTimestamps st;
     alertFile := alertFile st; outbox := outbox st; scans := scans st |}.

Definition with_scanStatus (s : ScanStatus) (st : Server) : Server :=
  {| printers := printers st; scanStatus := s; config := config st;
     alertCooldown := alertCooldown st; offlineTimestamps := offlineTimestamps st;
     alertFile := alertFile st; outbox := outbox st; scans := scans st |}.

Definition with_alertCooldown (f : gmap string Z -> gmap string Z) (st : Server) : Server :=
  {| printers := printers st; scanStatus := scanStatus st; config := config st;
     alertCooldown := f (alertCooldown st); offlineTimestamps := offlineTimestamps st;
     alertFile := alertFile st; outbox := outbox st; scans := scans st |}.

Definition with_offlineTimestamps (f : gmap string Z -> gmap string Z) (st : Server) : Server :=
  {| printers := printers st; scanStatus := scanStatus st; config := config st;
     alertCooldown := alertCooldown st; offlineTimestamps := f (offlineTimestamps st);
     alertFile := alertFile st; outbox := outbox st; scans := scans st |}.

Definition with_alertFile (f : list AlertEvent) (st : Server) : Server :=
  {| printers := printers st; scanStatus := scanStatus st; config := config st;
     alertCooldown := alertCooldown st; offlineTimestamps := offlineTimestamps st;
     alertFile := f; outbox := outbox st; scans := scans st |}.

Definition send (ds : list Dispatch) (st : Server) : Server :=
  {| printers := printers st; scanStatus := scanStatus st; config := config st;
     alertCooldown := alertCooldown st; offlineTimestamps := offlineTimestamps st;
     alertFile := alertFile st; outbox := outbox st ++ ds; scans := scans st |}.

Definition with_scans (f : list ScanTask -> list ScanTask) (st : Server) : Server :=
  {| printers := printers st; scanStatus := scanStatus st; config := config st;
     alertCooldown := alertCooldown st; offlineTimestamps := offlineTimestamps st;
     alertFile := alertFile st; outbox := outbox st; scans := f (scans st) |}.

(** [printers.set(ip, data)]: an existing key keeps its place. *)
Fixpoint map_set (k : string) (v : PrinterData) (m : list (string * PrinterData))
  : list (string * PrinterData) :=
  match m with
  | [] => [(k, v)]
  | (k', v') :: r => if String.eqb k' k then (k, v) :: r else (k', v') :: map_set k v r
  end.

Fixpoint map_get (k : string) (m : list (string * PrinterData)) : option PrinterData :=
  match m with
  | [] => None
  | (k', v') :: r => if String.eqb k' k then Some v' else map_get k r
  end.

(** [printers.delete(ip)] *)
Fixpoint map_delete (k : string) (m : list (string * PrinterData))
  : list (string * PrinterData) :=
  match m with
  | [] => []
  | (k', v') :: r => if String.eqb k' k then r else (k', v') :: map_delete k r
  end.

(** ** The alert engine *)

Module Alerts.

Definition type_name (t : AlertType) : string :=
  match t with
  | AOffline => "offline"
  | ABackOnline => "back-online"
  | ALowSupply => "low-supply"
  | ACriticalSupply => "critical-supply"
  end.

(** The key of [alertCooldown]: ["ip-type-supplyName"], or ["ip-type"]
    when there is no supply name. *)
Definition cooldownKey (printerIp : string) (type : AlertType)
    (supplyName : option string) : string :=
  if JS.truthy supplyName
  then printerIp +:+ "-" +:+ type_name type +:+ "-" +:+ default EmptyString supplyName
  else printerIp +:+ "-" +:+ type_name type.

(** [(config.alerts.cooldownHours || 4) * 60 * 60 * 1000] *)
Definition cooldownMs (cfg : Config) : Z :=
  (if cooldownHours (alerts cfg) =? 0 then 4 else cooldownHours (alerts cfg))
  * 60 * 60 * 1000.

(** [(config.alerts.offlineMinutes || 5) * 60 * 1000] *)
Definition offlineThresholdMs (cfg : Config) : Z :=
  (if offlineMinutes (alerts cfg) =? 0 then 5 else offlineMinutes (alerts cfg))
  * 60 * 1000.

Definition isInCooldown (now : Z) (cooldownKey : string) (st : Server) : bool :=
  match alertCooldown st !! cooldownKey with
  | None => false
  | Some lastAlert => now - lastAlert <? cooldownMs (config st)
  end.

Definition setCooldown (now : Z) (cooldownKey : string) (st : Server) : Server :=
  with_alertCooldown (insert cooldownKey now) st.

Definition clearCooldown (cooldownKey : string) (st : Server) : Server :=
  with_alertCooldown (delete cooldownKey) st.

Definition isWithinNotificationSchedule (cfg : Config) (clk : Clock) : bool :=
  let alertConfig := alerts cfg in
  let schedule := JS.or_else (notifySchedule alertConfig) "always" in
  if String.eqb schedule "always" then true
  else
    let currentDay := day clk in
    let currentTime := hhmm clk in
    let startTime := JS.or_else (notifyTime alertConfig) "08:00" in
    let endTime := JS.or_else (notifyEndTime alertConfig) "18:00" in
    let isWithinTime := JS.str_leb startTime currentTime && JS.str_leb currentTime endTime in
    if String.eqb schedule "business-hours" then
      let isWeekday := (1 <=? currentDay) && (currentDay <=? 5) in
      isWeekday && isWithinTime
    else if String.eqb schedule "scheduled" then
      let notifyDays := default [1; 2; 3; 4; 5] (notifyDays alertConfig) in
      let isDayAllowed := existsb (Z.eqb currentDay) notifyDays in
      isDayAllowed && isWithinTime
    else true.

Definition is_report (k : NotifyKind) : bool :=
  match k with KReport => true | _ => false end.

(** [sendEmailNotification(subject, message, alertType)]: what reaches
    the SMTP transport. *)
Definition sendEmailNotification (cfg : Config) (clk : Clock)
    (subject message : string) (kind : NotifyKind) : list Dispatch :=
  if negb (em_enabled (email cfg)) then []
  else if negb (is_report kind) && negb (isWithinNotificationSchedule cfg clk) then []
  else if JS.is_empty (em_host (email cfg)) then []
  else if JS.is_empty (em_user (email cfg)) then []
  else if JS.is_empty (em_pass (email cfg)) then []
  else
    let recipients :=
      filter (fun r => negb (JS.is_empty r) && JS.includes r "@" = true)
             (em_recipients (email cfg)) in
    [Smtp recipients subject message kind].

Definition payload_format (url : string) : PayloadFormat :=
  if JS.includes url "discord" then FDiscord
  else if JS.includes url "slack" || JS.includes url "hooks.slack.com" then FSlack
  else FGeneric.

(** [sendWebhookNotification(subject, message, alertType)]: one POST
    for every enabled webhook that has a URL. *)
Definition sendWebhookNotification (cfg : Config) (clk : Clock)
    (subject message : string) (kind : NotifyKind) : list Dispatch :=
  let enabledWebhooks :=
    filter (fun wh => wh_enabled wh && negb (JS.is_empty (wh_url wh)) = true)
           (webhooks cfg) in
  map (fun wh => WebhookPost (wh_url wh) (payload_format (wh_url wh)) subject message kind)
      enabledWebhooks.

(** [`${x}`] for a field of [details] *)
Definition show_opt (v : option JS.num) : string :=
  match v with
  | Some n => JS.show n
  | None => "undefined"
  end.

(** [`${supplyName}`] *)
Definition show_name (v : option string) : string := default "null"%string v.

(** The one-character string holding a double quote. *)
Definition quote : string := String (ascii_of_N 34) EmptyString.

Definition subject_of (type : AlertType) (printerName : string)
    (supplyName : option string) (details : Details) : string :=
  match type with
  | ACriticalSupply =>
      "Critical: " +:+ printerName +:+ " - " +:+ show_name supplyName +:+ " at "
      +:+ show_opt (d_percentage details) +:+ "%"
  | ALowSupply =>
      "Low Supply: " +:+ printerName +:+ " - " +:+ show_name supplyName +:+ " at "
      +:+ show_opt (d_percentage details) +:+ "%"
  | AOffline => "Offline: " +:+ printerName
  | ABackOnline => "Back Online: " +:+ printerName
  end.

Definition message_of (type : AlertType) (printerIp printerName : string)
    (supplyName : option string) (details : Details) : string :=
  match type with
  | ACriticalSupply =>
      "The " +:+ show_name supplyName +:+ " on printer " +:+ quote +:+ printerName +:+ quote +:+ " ("
      +:+ printerIp +:+ ") has reached a critical level of "
      +:+ show_opt (d_percentage details) +:+ "%. Immediate replacement recommended."
  | ALowSupply =>
      "The " +:+ show_name supplyName +:+ " on printer " +:+ quote +:+ printerName +:+ quote +:+ " ("
      +:+ printerIp +:+ ") is running low at "
      +:+ show_opt (d_percentage details) +:+ "%. Consider ordering replacement supplies."
  | AOffline =>
      "Printer " +:+ quote +:+ printerName +:+ quote +:+ " (" +:+ printerIp
      +:+ ") has gone offline. Last seen: " +:+ JS.or_else (d_lastSeen details) "Unknown"
  | ABackOnline =>
      "Printer " +:+ quote +:+ printerName +:+ quote +:+ " (" +:+ printerIp
      +:+ ") is back online after being offline for "
      +:+ JS.or_else (d_downtime details) "some time" +:+ "."
  end.

(** [triggerAlert(type, printerIp, printerName, supplyName, details)]:
    the new state and the alert stored, [null] when in cooldown. *)
Definition triggerAlert (clk : Clock) (type : AlertType) (printerIp printerName : string)
    (supplyName : option string) (details : Details) (st : Server)
  : Server * option AlertEvent :=
  let key := cooldownKey printerIp type supplyName in
  if isInCooldown (ms clk) key st then (st, None)
  else
    let subject := subject_of type printerName supplyName details in
    let message := message_of type printerIp printerName supplyName details in
    let '(file, alert) :=
      Storage.addAlert clk
        {| i_type := type; i_printerIp := printerIp; i_printerName := printerName;
           i_supplyName := supplyName; i_subject := subject; i_message := message;
           i_details := details |}
        (alertFile st) in
    let st := with_alertFile file st in
    let st := setCooldown (ms clk) key st in
    let st :=
      if al_enabled (alerts (config st)) then
        send (sendWebhookNotification (config st) clk subject message (KAlert type))
          (send (sendEmailNotification (config st) clk subject message (KAlert type)) st)
      else st in
    (st, Some alert).

End Alerts.

(** ** Alert evaluation, the refresh loop and the HTTP handlers *)

Module Engine.

Import Alerts.

(** Comparisons of a number that may be [NaN] with an integer. *)
Definition num_geb (n : JS.num) (z : Z) : bool :=
  match n with JS.Int x => z <=? x | JS.NaN => false end.

Definition num_ltb (n : JS.num) (z : Z) : bool :=
  match n with JS.Int x => x <? z | JS.NaN => false end.

(** [supply.max > 0 ? Math.round((supply.current / supply.max) * 100) : 100] *)
Definition percentage_of (supply : Supply) : JS.num :=
  if 0 <? s_max supply
  then JS.Math_round
         (PrimFloat.mul
            (PrimFloat.div (JS.of_Z (s_current supply)) (JS.of_Z (s_max supply)))
            (JS.of_Z 100))
  else JS.Int 100.


(** The alert, if any, that the thresholds ask for. *)
Definition supply_alert (cfg : Config) (supply : Supply) : option AlertType :=
  let percentage := percentage_of supply in
  let supplyName := JS.toLowerCase (s_name supply) in
  if negb (JS.includes supplyName "toner") && negb (JS.includes supplyName "ink") then None
  else if JS.includes supplyName "drum" || JS.includes supplyName "fuser" then None
  else if num_geb percentage 0
          && num_ltb percentage (criticalSupplyThreshold (alerts cfg))
  then Some ACriticalSupply
  else if num_geb percentage (criticalSupplyThreshold (alerts cfg))
          && num_ltb percentage (lowSupplyThreshold (alerts cfg))
  then Some ALowSupply
  else None.

(** [printer.name || printer.ip] *)
Definition display_name (printer : PrinterData) : string :=
  JS.or_else (name printer) (ip printer).

(** The body of [for (const supply of printer.supplies)]. *)
Definition check_supply (clk : Clock) (printer : PrinterData) (st : Server)
    (supply : Supply) : Server :=
  match supply_alert (config st) supply with
  | Some type =>
      fst (triggerAlert clk type (ip printer) (display_name printer)
             (Some (s_name supply))
             {| d_percentage := Some (percentage_of supply);
                d_lastSeen := None; d_downtime := None |} st)
  | None => st
  end.

Definition round_div (a b : Z) : JS.num :=
  JS.Math_round (PrimFloat.div (JS.of_Z a) (JS.of_Z b)).

(** The text of the downtime: hours above one hour, minutes otherwise. *)
Definition downtime_str (downtime : Z) : string :=
  if 3600000 <? downtime
  then JS.show (round_div downtime 3600000) +:+ " hours"
  else JS.show (round_div downtime 60000) +:+ " minutes".

(** [printer.online] is false or the status is ['offline']. *)
Definition is_offline (printer : PrinterData) : bool :=
  negb (online printer) || bool_decide (status printer = StOffline).

(** The offline branch: the timer is started if there is none, and an
    [offline] alert is triggered once the threshold is reached. *)
Definition check_offline (clk : Clock) (st : Server) (printer : PrinterData) : Server :=
  let now := ms clk in
  let st :=
    match offlineTimestamps st !! ip printer with
    | Some _ => st
    | None => with_offlineTimestamps (insert (ip printer) now) st
    end in
  let offlineDuration := now - default 0 (offlineTimestamps st !! ip printer) in
  if offlineThresholdMs (config st) <=? offlineDuration then
    fst (triggerAlert clk AOffline (ip printer) (display_name printer) None
           {| d_percentage := None; d_lastSeen := Some (lastUpdate printer);
              d_downtime := None |} st)
  else st.

(** The start of the online branch: a pending offline timer triggers
    a [back-online] alert and is deleted. *)
Definition check_recovery (clk : Clock) (st : Server) (printer : PrinterData) : Server :=
  let now := ms clk in
  match offlineTimestamps st !! ip printer with
  | Some start =>
      let downtime := now - start in
      let st :=
        fst (triggerAlert clk ABackOnline (ip printer) (display_name printer) None
               {| d_percentage := None; d_lastSeen := None;
                  d_downtime := Some (downtime_str downtime) |} st) in
      with_offlineTimestamps (delete (ip printer)) st
  | None => st
  end.

(** The body of [for (const printer of printerList)]. *)
Definition check_printer (clk : Clock) (st : Server) (printer : PrinterData) : Server :=
  if is_offline printer then check_offline clk st printer
  else foldl (check_supply clk printer) (check_recovery clk st printer) (supplies printer).

(** [checkAlerts()] *)
Definition checkAlerts (clk : Clock) (st : Server) : Server :=
  if negb (al_enabled (alerts (config st))) then st
  else foldl (check_printer clk) st (map snd (printers st)).

(** The devices on the network, by address. *)
Definition Net : Type := string -> Agent.

(** [printers.set(ip, await queryPrinter(ip))] *)
Definition refresh_one (net : Net) (clk : Clock) (st : Server) (ip : string) : Server :=
  with_printers (map_set ip (Poller.queryPrinter (net ip) clk ip)) st.

(** One firing of the 60-second background refresh, as it runs when no
    other handler is served while it waits for the devices: its turns,
    each a [refresh_one], follow one another and the alert check comes
    last. *)
Definition autoRefresh (net : Net) (clk : Clock) (st : Server) : Server :=
  if (0 <? length (printers st))%nat && negb (scanning (scanStatus st)) then
    let ips := map fst (printers st) in
    let st := foldl (refresh_one net clk) st ips in
    checkAlerts clk st
  else st.

(** [POST /api/alerts/:id/acknowledge]: the status code with the new
    state. *)
Definition post_acknowledge (clk : Clock) (alertId acknowledgedBy : string) (st : Server)
  : Server * Z :=
  let '(file, found) :=
    Storage.acknowledgeAlert clk alertId acknowledgedBy (alertFile st) in
  match found with
  | Some alert =>
      let key := cooldownKey (i_printerIp (a_alert alert)) (i_type (a_alert alert))
                   (i_supplyName (a_alert alert)) in
      (clearCooldown key (with_alertFile file st), 200)
  | None => (st, 404)
  end.

(** *** Discovery scan *)

Definition keywords : list string :=
  ["printer"; "hp"; "canon"; "brother"; "epson"; "xerox"; "lexmark"; "samsung";
   "ricoh"; "kyocera"; "zebra"]%string.

Definition batchSize : Z := 10.

(** The addresses [prefix.i] for [start <= i < start + batchSize], [i <= 254]. *)
Definition batch_ips (prefix : string) (start : Z) : list string :=
  map (fun i => prefix +:+ "." +:+ pretty i)
      (filter (fun i => i <= 254) (map (fun k => start + Z.of_nat k) (seq 0 10))).

(** The treatment of one answer of a batch. *)
Definition scan_result (net : Net) (clk : Clock) (acc : Server * list string) (ip : string)
  : Server * list string :=
  let '(st, found) := acc in
  let desc := snmpGet (net ip) oid_description in
  if JS.truthy desc
     && existsb (JS.includes (JS.toLowerCase (default EmptyString desc))) keywords
  then (with_printers (map_set ip (Poller.queryPrinter (net ip) clk ip)) st, found ++ [ip])
  else (st, found).

(** The end of [scanNetworkRange], after the loop. *)
Definition scan_finish (clk : Clock) (st : Server) : Server :=
  with_scanStatus {| scanning := false; lastScan := Some (iso clk) |} st.

(** [scanNetworkRange] from its call to its first suspension: the flag
    is raised and the first batch is sent. *)
Definition scan_start (prefix : string) (st : Server) : Server :=
  with_scans (fun l => l ++ [ {| sc_prefix := prefix; sc_start := 1; sc_found := [] |} ])
    (with_scanStatus {| scanning := true; lastScan := lastScan (scanStatus st) |} st).

(** The scan at the head of [scans] resumes with the answers of its
    batch, registers the printers found, and either sends the next
    batch or, past 254 or once cancelled, finishes. *)
Definition scan_resume (net : Net) (clk : Clock) (st : Server) : Server :=
  match scans st with
  | [] => st
  | task :: rest =>
      let '(st, found) :=
        foldl (scan_result net clk) (st, sc_found task)
              (batch_ips (sc_prefix task) (sc_start task)) in
      let start := sc_start task + batchSize in
      if (start <=? 254) && scanning (scanStatus st) then
        with_scans (fun _ => rest ++ [ {| sc_prefix := sc_prefix task; sc_start := start;
                                          sc_found := found |} ]) st
      else with_scans (fun _ => rest) (scan_finish clk st)
  end.

(** [POST /api/scan]: the status code with the new state. *)
Definition post_scan (network_prefix : string) (st : Server) : Server * Z :=
  if scanning (scanStatus st) then (st, 409)
  else (scan_start network_prefix st, 200).

(** [POST /api/scan/cancel] *)
Definition post_scan_cancel (st : Server) : Server * Z :=
  (with_scanStatus {| scanning := false; lastScan := lastScan (scanStatus st) |} st, 200).

(** One turn of the [forEach] of [POST /api/alerts/acknowledge-all]:
    the file so far and the count. The loop runs over the alerts as
    loaded before it; every acknowledgement reads the file again. *)
Definition acknowledge_all_step (clk : Clock) (acc : list AlertEvent * Z)
    (alert : AlertEvent) : list AlertEvent * Z :=
  if a_acknowledged alert then acc
  else (fst (Storage.acknowledgeAlert clk (a_id alert) "user" (fst acc)), snd acc + 1).

(** [POST /api/alerts/acknowledge-all]: the new state and the count
    reported. The cooldown map is not touched. *)
Definition post_acknowledge_all (clk : Clock) (st : Server) : Server * Z :=
  let alerts := Storage.loadAlertHistory (alertFile st) in
  let '(file, count) := foldl (acknowledge_all_step clk) (alertFile st, 0) alerts in
  (with_alertFile file st, count).

(** *** The registry and alert history routes *)

(** [POST /api/printers] with the [ip] of the request body, absent
    when the body has none: the status code with the new state. *)
Definition post_printers (net : Net) (clk : Clock) (ip : option string) (st : Server)
  : Server * Z :=
  match ip with
  | Some addr =>
      if JS.is_empty addr then (st, 400)
      else (with_printers (map_set addr (Poller.queryPrinter (net addr) clk addr)) st, 201)
  | None => (st, 400)
  end.

(** [GET /api/printers/:ip] *)
Definition get_printer (ip : string) (st : Server) : option PrinterData * Z :=
  match map_get ip (printers st) with
  | Some p => (Some p, 200)
  | None => (None, 404)
  end.

(** [DELETE /api/printers/:ip] *)
Definition delete_printer (ip : string) (st : Server) : Server * Z :=
  match map_get ip (printers st) with
  | Some _ => (with_printers (map_delete ip) st, 200)
  | None => (st, 404)
  end.

(** [DELETE /api/alerts/:id] *)
Definition delete_alert (alertId : string) (st : Server) : Server * Z :=
  let '(file, result) := Storage.deleteAlert alertId (alertFile st) in
  if result then (with_alertFile file st, 200) else (st, 404).

(** [DELETE /api/alerts] *)
Definition clear_alerts (st : Server) : Server * Z :=
  (with_alertFile (Storage.saveAlertHistory []) st, 200).

End Engine.

(** ** The history recorder: [recordSnapshot] *)

Module History.

Record SupplyLevel : Type := {
  l_name : string;
  l_percentage : JS.num
}.

(** One printer of a snapshot. *)
Record Sample : Type := {
  h_ip : string;
  h_name : option string;
  h_status : Status;
  h_online : bool;
  h_totalPages : JS.num;
  h_supplies : list SupplyLevel
}.

Record Snapshot : Type := {
  h_timestamp : string;
  h_printers : list Sample
}.

(** One day of [history.daily]; each field is an object keyed by
    address. *)
Record DailyData : Type := {
  pageCountStart : gmap string JS.num;
  pageCountEnd : gmap string JS.num;
  supplyLevels : gmap string (list SupplyLevel);
  uptimeMinutes : gmap string JS.num;
  totalMinutes : gmap string JS.num
}.

(** The [history] object. *)
Record History : Type := {
  snapshots : list Snapshot;
  daily : gmap string DailyData;
  maxSnapshots : nat
}.

(** [history] as the server creates it. *)
Definition initial : History :=
  {| snapshots := []; daily := ∅; maxSnapshots := 1440 |}.

Definition empty_day : DailyData :=
  {| pageCountStart := ∅; pageCountEnd := ∅; supplyLevels := ∅;
     uptimeMinutes := ∅; totalMinutes := ∅ |}.

(** [s.max > 0 ? Math.round((s.current / s.max) * 100) : 0] *)
Definition percentage (s : Supply) : JS.num :=
  if 0 <? s_max s
  then JS.Math_round
         (PrimFloat.mul (PrimFloat.div (JS.of_Z (s_current s)) (JS.of_Z (s_max s)))
            (JS.of_Z 100))
  else JS.Int 0.

Definition level_of (s : Supply) : SupplyLevel :=
  {| l_name := s_name s; l_percentage := percentage s |}.

Definition sample_of (p : PrinterData) : Sample :=
  {| h_ip := ip p; h_name := name p; h_status := status p; h_online := online p;
     h_totalPages := totalPages p; h_supplies := map level_of (supplies p) |}.

(** *** The day's counters: plain objects keyed by address *)

(** The property names a plain object inherits from [Object.prototype]:
    all but the last name a function, the last the prototype itself. *)
Definition prototype_keys : list string :=
  ["constructor"; "hasOwnProperty"; "isPrototypeOf"; "propertyIsEnumerable";
   "toLocaleString"; "toString"; "valueOf"; "__defineGetter__"; "__defineSetter__";
   "__lookupGetter__"; "__lookupSetter__"; "__proto__"]%string.

Definition inherited (k : string) : bool := existsb (String.eqb k) prototype_keys.

(** What [obj[k]] reads from an object whose own properties are
    numbers: an own property, an inherited function or object, or
    [undefined]. *)
Inductive Read : Type :=
| Own (n : JS.num)
| Inherited
| Undefined.

(** [obj[k]] *)
Definition read (obj : gmap string JS.num) (k : string) : Read :=
  match obj !! k with
  | Some n => Own n
  | None => if inherited k then Inherited else Undefined
  end.

(** [obj[k] = v]: the own properties afterwards. ["__proto__"] names
    an accessor of the prototype unless the object has an own property
    of that name; its setter ignores a number and takes an array as
    the object's new prototype, which no code embedded here reads. *)
Definition write {V} (k : string) (v : V) (obj : gmap string V) : gmap string V :=
  if String.eqb k "__proto__" && negb (bool_decide (is_Some (obj !! k))) then obj
  else <[k := v]> obj.

(** [!obj[k]]: [undefined], [0] and [NaN] are falsy, an inherited
    function or object is not. *)
Definition absent (r : Read) : bool :=
  match r with
  | Own (JS.Int z) => z =? 0
  | Own JS.NaN => true
  | Inherited => false
  | Undefined => true
  end.

(** The value that [obj[k]++] stores. *)
Definition succ (r : Read) : JS.num :=
  match r with
  | Own (JS.Int z) => JS.Int (z + 1)
  | _ => JS.NaN
  end.

(** The body of [for (const printer of printerList)] on the day's data. *)
Definition record_step (d : DailyData) (printer : PrinterData) : DailyData :=
  let k := ip printer in
  let start :=
    if absent (read (pageCountStart d) k) then write k (totalPages printer) (pageCountStart d)
    else pageCountStart d in
  let fresh := absent (read (totalMinutes d) k) in
  let total := if fresh then write k (JS.Int 0) (totalMinutes d) else totalMinutes d in
  let up := if fresh then write k (JS.Int 0) (uptimeMinutes d) else uptimeMinutes d in
  let total := write k (succ (read total k)) total in
  let up := if online printer then write k (succ (read up k)) up else up in
  {| pageCountStart := start;
     pageCountEnd := write k (totalPages printer) (pageCountEnd d);
     supplyLevels := write k (map level_of (supplies printer)) (supplyLevels d);
     uptimeMinutes := up;
     totalMinutes := total |}.

(** [!obj[key]] for an address that is not a property name of
    [Object.prototype]: missing, [0] and [NaN] are falsy. *)
Definition falsy (v : option JS.num) : bool :=
  match v with
  | Some (JS.Int z) => z =? 0
  | Some JS.NaN => true
  | None => true
  end.

(** [obj[key]++] for such an address: the value stored. *)
Definition incr (v : option JS.num) : JS.num :=
  match v with
  | Some (JS.Int z) => JS.Int (z + 1)
  | _ => JS.NaN
  end.

(** The loop body for a printer whose address is not a property name
    of [Object.prototype], where every read finds an own property or
    nothing and every assignment stores one: [record_step] is this
    function on such an address. *)
Definition daily_step (d : DailyData) (printer : PrinterData) : DailyData :=
  let k := ip printer in
  let start :=
    if falsy (pageCountStart d !! k) then <[k := totalPages printer]> (pageCountStart d)
    else pageCountStart d in
  let fresh := falsy (totalMinutes d !! k) in
  let total := if fresh then <[k := JS.Int 0]> (totalMinutes d) else totalMinutes d in
  let up := if fresh then <[k := JS.Int 0]> (uptimeMinutes d) else uptimeMinutes d in
  let total := <[k := incr (total !! k)]> total in
  let up := if online printer then <[k := incr (up !! k)]> up else up in
  {| pageCountStart := start;
     pageCountEnd := <[k := totalPages printer]> (pageCountEnd d);
     supplyLevels := <[k := map level_of (supplies printer)]> (supplyLevels d);
     uptimeMinutes := up;
     totalMinutes := total |}.

(** [iso.split('T')[0]] *)
Definition date_of (iso : string) : string :=
  fst (JS.span (fun c => negb (JS.code c =? 84)%N) iso).

(** [a < b] on strings. *)
Definition str_ltb (a b : string) : bool := negb (JS.str_leb b a).

(** [recordSnapshot()] on the given registry. [cutoffDate] is the date
    of the day thirty days before the clock reading, as the calendar
    gives it. *)
Definition recordSnapshot (clk : Clock) (cutoffDate : string)
    (printerList : list PrinterData) (h : History) : History :=
  match printerList with
  | [] => h
  | _ =>
      let snapshot := {| h_timestamp := iso clk; h_printers := map sample_of printerList |} in
      let pushed := snapshots h ++ [snapshot] in
      let kept := if (maxSnapshots h <? length pushed)%nat then drop 1 pushed else pushed in
      let today := date_of (iso clk) in
      let days :=
        match daily h !! today with
        | Some _ => daily h
        | None => <[today := empty_day]> (daily h)
        end in
      let dailyData := default empty_day (days !! today) in
      let days := <[today := foldl record_step dailyData printerList]> days in
      {| snapshots := kept;
         daily := filter (fun kv => str_ltb (fst kv) cutoffDate = false) days;
         maxSnapshots := maxSnapshots h |}
  end.

(** [obj[k] || 0] as the operand of a subtraction: an inherited
    function or object counts as [NaN]. *)
Definition or_zero (r : Read) : JS.num :=
  match r with
  | Own n => if absent r then JS.Int 0 else n
  | Inherited => JS.NaN
  | Undefined => JS.Int 0
  end.

Definition num_sub (a b : JS.num) : JS.num :=
  match a, b with
  | JS.Int x, JS.Int y => JS.Int (x - y)
  | _, _ => JS.NaN
  end.

(** [pagesPrinted] of [GET /api/history/daily] for one address. *)
Definition pagesPrinted (d : DailyData) (k : string) : JS.num :=
  num_sub (or_zero (read (pageCountEnd d) k)) (or_zero (read (pageCountStart d) k)).

(** [array.slice(start)] *)
Definition slice_from {A} (start : Z) (l : list A) : list A :=
  if start <? 0 then drop (Z.to_nat (Z.max (Z.of_nat (length l) + start) 0)) l
  else drop (Z.to_nat start) l.

(** [GET /api/history/snapshots?minutes=]: the snapshots returned.
    [minutes] is the query parameter, absent when not given. *)
Definition get_snapshots (minutes : option string) (h : History) : list Snapshot :=
  let minutes :=
    match minutes with
    | Some s => match JS.parseInt s with
                | JS.Int 0 | JS.NaN => 60
                | JS.Int m => m
                end
    | None => 60
    end in
  let limit := Z.min minutes (Z.of_nat (maxSnapshots h)) in
  slice_from (- limit) (snapshots h).

End History.

(** * Specification-level definitions and sample devices *)



(** The supply, if any, that index [i] of the three walks contributes. *)
Definition row_at (names maxs curs : list string) (i : nat) : option Supply :=
  match names !! i, maxs !! i, curs !! i with
  | Some n, Some m, Some c => Poller.supply_row n m c
  | _, _, _ => None
  end.

(** A device whose supply walk mixes valid rows with junk. *)
Definition sample_agent : Agent :=
  {| snmpGet := fun oid =>
       match oid with
       | oid_description => Some "HP LaserJet 4250"%string
       | _ => None
       end;
     snmpWalk := fun oid =>
       match oid with
       | oid_supplyDesc =>
           ["Black Toner Cartridge"; "12"; "ab"; "Waste Toner Box"; "Stapler";
            "Imaging Drum"; "Cyan Ink"; "Fuser Kit"]%string
       | oid_supplyMax => ["100"; "100"; "100"; "100"; "100"; "0"; "n/a"; "200"]%string
       | oid_supplyCurrent => ["42"; "50"; "50"; "-3"; "7"; "10"; "10"; "150"]%string
       | _ => []
       end |}.

Definition clock0 : Clock :=
  {| ms := 0; iso := "1970-01-01T00:00:00.000Z"; day := 4; hhmm := "00:00" |}.

(** The first element of a list of answers that satisfies [ok]. *)
Definition first_answer (ok : option string -> bool) (answers : list (option string))
  : option string :=
  default None (List.find ok answers).

(** A device whose first status OID answers with a word and whose
    alternative status OID answers 3 (idle); its first page count OID
    answers with a word and the alternative with a number. *)
Definition wordy_agent : Agent :=
  {| snmpGet := fun oid =>
       match oid with
       | oid_description => Some "HP LaserJet 4250"%string
       | oid_deviceStatus => Some "ready"%string
       | oid_statusAlt1 => Some "3"%string
       | oid_totalPages => Some "n/a"%string
       | oid_totalPagesAlt1 => Some "1234"%string
       | _ => None
       end;
     snmpWalk := fun _ => [] |}.

(** [storage.DEFAULT_CONFIG], with the schedule fields unset. *)
Definition DEFAULT_CONFIG : Config :=
  {| email := {| em_enabled := false; em_host := EmptyString; em_user := EmptyString;
                 em_pass := EmptyString; em_recipients := [] |};
     webhooks := [];
     alerts := {| al_enabled := true; lowSupplyThreshold := 20;
                  criticalSupplyThreshold := 10; offlineMinutes := 5; cooldownHours := 4;
                  notifySchedule := None; notifyTime := None; notifyEndTime := None;
                  notifyDays := None |} |}.

(** The server right after start-up with the given registry and
    configuration. *)
Definition boot (cfg : Config) (devices : list (string * PrinterData)) : Server :=
  {| printers := devices;
     scanStatus := {| scanning := false; lastScan := None |};
     config := cfg;
     alertCooldown := ∅;
     offlineTimestamps := ∅;
     alertFile := [];
     outbox := [];
     scans := [] |}.

(** A laser printer that answers every poll and reports one black
    toner cartridge at the given level out of 100. *)
Definition toner_agent (level : Z) : Agent :=
  {| snmpGet := fun oid =>
       match oid with
       | oid_description => Some "HP LaserJet 4250"%string
       | oid_deviceStatus => Some "3"%string
       | _ => None
       end;
     snmpWalk := fun oid =>
       match oid with
       | oid_supplyDesc => ["Black Toner"]%string
       | oid_supplyMax => ["100"]%string
       | oid_supplyCurrent => [pretty level]
       | _ => []
       end |}.

(** The clock [m] minutes after start-up, on a Monday morning. *)
Definition at_minute (m : Z) : Clock :=
  {| ms := m * 60000; iso := "T+" +:+ pretty m +:+ "min"; day := 1; hhmm := "09:00" |}.

(** A run of background refreshes: at each clock the one device on the
    network is the given agent. *)
Definition run (polls : list (Clock * Agent)) (st : Server) : Server :=
  foldl (fun st p => Engine.autoRefresh (fun _ => p.2) p.1 st) st polls.

(** What the alert engine leaves behind: the history, the cooldown map
    and the notifications handed out. *)
Definition alert_state (st : Server) : list AlertEvent * gmap string Z * list Dispatch :=
  (alertFile st, alertCooldown st, outbox st).

Definition alert_types (st : Server) : list AlertType :=
  map (fun ev => i_type (a_alert ev)) (alertFile st).

(** The registry holding the one device at 10.0.0.7, as first polled. *)
Definition one_device (a : Agent) : list (string * PrinterData) :=
  [("10.0.0.7"%string, Poller.queryPrinter a (at_minute 0) "10.0.0.7")].

(** A trigger for the address, type and supply name of alert [a] is
    not suppressed in state [st], whatever the clock, the display name
    and the details: a new alert of that type is stored. *)
Definition rearmed (a : AlertEvent) (st : Server) : Prop :=
  forall clk pname details,
    let r := Alerts.triggerAlert clk (i_type (a_alert a)) (i_printerIp (a_alert a)) pname
               (i_supplyName (a_alert a)) details st in
    exists ev,
      snd r = Some ev /\
      i_type (a_alert ev) = i_type (a_alert a) /\
      i_printerIp (a_alert ev) = i_printerIp (a_alert a) /\
      i_supplyName (a_alert ev) = i_supplyName (a_alert a) /\
      alertFile (fst r) = Storage.saveAlertHistory (alertFile st ++ [ev]).

(** The state after the toner of the device at 10.0.0.7 fell to 8%:
    a low-supply and a critical-supply alert are stored, the latter at
    minute 3 under the id "180000". *)
Definition after_drop : Server :=
  run [(at_minute 1, toner_agent 25); (at_minute 2, toner_agent 15);
       (at_minute 3, toner_agent 8)]
      (boot DEFAULT_CONFIG (one_device (toner_agent 25))).

(** One second after minute 3. *)
Definition one_second_later : Clock :=
  {| ms := 181000; iso := "T+3min1s"; day := 1; hhmm := "09:03" |}.

Definition toner (current max : Z) : Supply :=
  {| s_name := "Black Toner"; s_current := current; s_max := max; s_type := SToner |}.

(** A configuration with e-mail and one Slack webhook switched on and
    notifications limited to business hours. *)
Definition office_config : Config :=
  {| email := {| em_enabled := true; em_host := "smtp.example.org"; em_user := "monitor";
                 em_pass := "secret"; em_recipients := ["it@example.org"]%string |};
     webhooks := [ {| wh_enabled := true;
                      wh_url := "https://hooks.slack.com/services/T0/B0/x" |} ];
     alerts := {| al_enabled := true; lowSupplyThreshold := 20;
                  criticalSupplyThreshold := 10; offlineMinutes := 5; cooldownHours := 4;
                  notifySchedule := Some "business-hours"%string;
                  notifyTime := Some "08:00"%string; notifyEndTime := Some "18:00"%string;
                  notifyDays := None |} |}.

Definition sunday_night : Clock :=
  {| ms := 10800000; iso := "2024-03-03T03:00:00.000Z"; day := 0; hhmm := "03:00" |}.

Definition monday_morning : Clock :=
  {| ms := 118800000; iso := "2024-03-04T09:00:00.000Z"; day := 1; hhmm := "09:00" |}.

(** Polls of the same agent at every minute from [from] to [to]. *)
Definition minutes (from to : Z) (a : Agent) : list (Clock * Agent) :=
  map (fun m => (at_minute m, a)) (seqZ from (to - from + 1)).



Definition healthy_start : Server := boot DEFAULT_CONFIG (one_device (toner_agent 50)).


(** The registry, the scan status and the configuration are the same
    in both states. *)
Definition same_registry (st st' : Server) : Prop :=
  printers st' = printers st /\ scanStatus st' = scanStatus st /\ config st' = config st.

(** The snapshot of a device that does not answer. *)
Definition offline_snapshot (clk : Clock) (addr : string) : PrinterData :=
  {| ip := addr; name := None; model := None; serial := None;
     status := StOffline; totalPages := JS.Int 0;
     supplies := []; trays := []; errors := [];
     network := {| sysName := None; sysLocation := None; sysContact := None |};
     lastUpdate := iso clk; online := false |}.

(** An unacknowledged alert of the device at 10.0.0.7 stored under
    the given id. *)
Definition stored_alert (id : string) (type : AlertType) : AlertEvent :=
  {| a_id := id;
     a_alert := {| i_type := type; i_printerIp := "10.0.0.7";
                   i_printerName := "HP LaserJet 4250"; i_supplyName := None;
                   i_subject := "Offline: HP LaserJet 4250";
                   i_message := "Printer offline";
                   i_details := {| d_percentage := None; d_lastSeen := None;
                                   d_downtime := None |} |};
     a_timestamp := "2024-03-04T09:00:00.000Z";
     a_acknowledged := false; a_acknowledgedAt := None; a_acknowledgedBy := None |}.

(** The cooldown key of a stored alert. *)
Definition alert_key (a : AlertEvent) : string :=
  Alerts.cooldownKey (i_printerIp (a_alert a)) (i_type (a_alert a))
    (i_supplyName (a_alert a)).

(** A colour printer that reports a black and a cyan toner cartridge,
    both at the given level out of 100. *)
Definition two_toner_agent (level : Z) : Agent :=
  {| snmpGet := fun oid =>
       match oid with
       | oid_description => Some "HP Color LaserJet"%string
       | oid_deviceStatus => Some "3"%string
       | _ => None
       end;
     snmpWalk := fun oid =>
       match oid with
       | oid_supplyDesc => ["Black Toner"; "Cyan Toner"]%string
       | oid_supplyMax => ["100"; "100"]%string
       | oid_supplyCurrent => [pretty level; pretty level]
       | _ => []
       end |}.

(** The state after one refresh found both toners of the device at
    10.0.0.7 at 15%: two low-supply alerts are stored by the same pass,
    both under the id "60000". *)
Definition two_low : Server :=
  run [(at_minute 1, two_toner_agent 15)]
      (boot DEFAULT_CONFIG (one_device (two_toner_agent 50))).

(** The low-supply alert stored for a toner of that device at minute 1. *)
Definition stored_low (supply : string) : AlertEvent :=
  {| a_id := "60000";
     a_alert := {| i_type := ALowSupply; i_printerIp := "10.0.0.7";
                   i_printerName := "HP Color LaserJet"; i_supplyName := Some supply;
                   i_subject := Alerts.subject_of ALowSupply "HP Color LaserJet" (Some supply)
                                  {| d_percentage := Some (JS.Int 15); d_lastSeen := None;
                                     d_downtime := None |};
                   i_message := Alerts.message_of ALowSupply "10.0.0.7" "HP Color LaserJet"
                                  (Some supply)
                                  {| d_percentage := Some (JS.Int 15); d_lastSeen := None;
                                     d_downtime := None |};
                   i_details := {| d_percentage := Some (JS.Int 15); d_lastSeen := None;
                                   d_downtime := None |} |};
     a_timestamp := iso (at_minute 1);
     a_acknowledged := false; a_acknowledgedAt := None; a_acknowledgedBy := None |}.





(** The default configuration with the cooldown set to 0 hours, as
    [POST /api/settings] stores it when asked to. *)
Definition zero_cooldown_config : Config :=
  {| email := email DEFAULT_CONFIG; webhooks := [];
     alerts := {| al_enabled := true; lowSupplyThreshold := 20;
                  criticalSupplyThreshold := 10; offlineMinutes := 5; cooldownHours := 0;
                  notifySchedule := None; notifyTime := None; notifyEndTime := None;
                  notifyDays := None |} |}.

(** The input of an offline alert for the device at 10.0.0.[i]. *)
Definition stored_input (i : Z) : AlertInput :=
  {| i_type := AOffline; i_printerIp := "10.0.0." +:+ pretty i;
     i_printerName := "HP LaserJet 4250"; i_supplyName := None;
     i_subject := "Offline: HP LaserJet 4250"; i_message := "Printer offline";
     i_details := {| d_percentage := None; d_lastSeen := None; d_downtime := None |} |}.

(** What acknowledge-all is meant to leave of an alert. *)
Definition acknowledged_by_user (clk : Clock) (a : AlertEvent) : AlertEvent :=
  if a_acknowledged a then a else Storage.acknowledge_event clk "user" a.

(** An entry at [j] that has an entry with the same id in front of it,
    at [i]. *)
Definition shadowed (i j : nat) (b : AlertEvent) (file : list AlertEvent) : Prop :=
  (length file <= 1000)%nat /\
  (exists a, file !! i = Some a /\ a_id a = a_id b) /\
  file !! j = Some b.

(** A tray built from the raw name [raw] at index [i] of the walks. *)
Definition tray_from (maxs curs : list string) (i : nat) (raw : string) (t : Tray) : Prop :=
  t_name t = JS.trim raw /\
  (3 <= String.length (JS.trim raw))%nat /\
  Poller.decimal_only (JS.trim raw) = false /\
  Poller.has_control raw = false /\
  Poller.is_tray (JS.trim (JS.toLowerCase raw)) = true /\
  t_maxCapacity t = Poller.positive (Poller.parse_at maxs i (-1)) /\
  t_currentLevel t = Poller.positive (Poller.parse_at curs i (-1)) /\
  t_capacityStatus t = Poller.capacity_status (Poller.parse_at curs i (-1)).

(** What holds of the trays collected so far, at every turn of the loop. *)
Definition trays_ok (names maxs curs : list string) (acc : list Tray) : Prop :=
  NoDup (map (fun t => JS.toLowerCase (t_name t)) acc) /\
  Forall (fun t =>
            (exists i raw, names !! i = Some raw /\ tray_from maxs curs i raw t) /\
            (forall m, t_mediaName t = Some m ->
                       JS.is_empty m = false /\ Poller.signed_digits m = false)) acc.

(** The row filter of the tray loop: the raw name passes every test
    that comes before the duplicate check. *)
Definition valid_tray_row (raw : string) : bool :=
  negb (JS.is_empty raw) && negb (String.length (JS.trim raw) <? 3)%nat
  && negb (Poller.decimal_only (JS.trim raw)) && negb (Poller.has_control raw)
  && Poller.is_tray (JS.trim (JS.toLowerCase raw)).

(** What holds of the trays collected from the rows below [k]: the
    names differ, every tray is built from a row that no valid row of
    the same name precedes, and every valid row below [k] has its name
    among the trays. *)
Definition trays_first (names maxs curs : list string) (k : nat) (acc : list Tray) : Prop :=
  NoDup (map (fun t => JS.toLowerCase (t_name t)) acc) /\
  Forall (fun t =>
            exists i raw,
              (i < k)%nat /\ names !! i = Some raw /\ tray_from maxs curs i raw t /\
              forall j raw', (j < i)%nat -> names !! j = Some raw' ->
                             valid_tray_row raw' = true ->
                             JS.toLowerCase (JS.trim raw') <> JS.toLowerCase (t_name t))
         acc /\
  forall j raw', (j < k)%nat -> names !! j = Some raw' -> valid_tray_row raw' = true ->
                 JS.toLowerCase (JS.trim raw') ∈ map (fun t => JS.toLowerCase (t_name t)) acc.

(** A device with five rows in its input tray table: a duplicate that
    differs in case and padding, a bare number and a row without a tray
    keyword among them. *)
Definition tray_agent : Agent :=
  {| snmpGet := fun oid =>
       match oid with
       | oid_description => Some "Kyocera ECOSYS M3655idn"%string
       | _ => None
       end;
     snmpWalk := fun oid =>
       match oid with
       | oid_inputTrayName =>
           ["Tray 1"; " TRAY 1 "; "Bypass Tray"; "12"; "Output Bin"]%string
       | oid_inputTrayCapacityMax => ["500"; "250"; "-2"; "100"; "100"]%string
       | oid_inputTrayCapacityCurrent => ["-3"; "10"; "0"; "5"; "5"]%string
       | oid_inputTrayStatus => ["1"; "1"; "3"; "0"; "0"]%string
       | oid_inputTrayMediaName => ["A4"; "A4"; "-1"; "A4"; "A4"]%string
       | oid_alertSeverity => ["2"; "4"; "3"; "warning"]%string
       | oid_alertDescription => ["Paper jam"; "Sleeping"]%string
       | _ => []
       end |}.

Definition tray_one : Tray :=
  {| t_name := "Tray 1"; t_maxCapacity := Some 500; t_currentLevel := None;
     t_status := TAvailable; t_mediaName := Some "A4"%string;
     t_capacityStatus := Some HasPaper |}.

Definition bypass_tray : Tray :=
  {| t_name := "Bypass Tray"; t_maxCapacity := None; t_currentLevel := None;
     t_status := TEmpty; t_mediaName := None; t_capacityStatus := Some Empty |}.

(** The error, if any, that index [i] of the severity walk contributes. *)
Definition error_at (clk : Clock) (severities descriptions : list string) (i : nat)
  : option DeviceError :=
  let description := default "Unknown alert"%string (descriptions !! i) in
  match severities !! i with
  | Some sev =>
      match JS.parseInt sev with
      | JS.Int 2 => Some {| e_severity := Critical; e_description := description;
                            e_timestamp := iso clk |}
      | JS.Int 3 => Some {| e_severity := Warning; e_description := description;
                            e_timestamp := iso clk |}
      | _ => None
      end
  | None => None
  end.

(** The first host numbers of the 26 batches. *)
Definition batch_starts : list Z := map (fun k => 1 + 10 * Z.of_nat k) (seq 0 26).

(** The host numbers of the batch starting at [start]. *)
Definition batch_hosts (start : Z) : list Z :=
  filter (fun i => i <= 254) (map (fun k => start + Z.of_nat k) (seq 0 10)).

(** The answer of the device at [addr] qualifies it as a printer. *)
Definition answers_as_printer (net : Engine.Net) (addr : string) : Prop :=
  JS.truthy (snmpGet (net addr) oid_description) = true /\
  existsb (JS.includes (JS.toLowerCase (default EmptyString
                                          (snmpGet (net addr) oid_description))))
          Engine.keywords = true.

(** A schedule whose window ends before it starts. *)
Definition night_config : Config :=
  {| email := email office_config; webhooks := webhooks office_config;
     alerts := {| al_enabled := true; lowSupplyThreshold := 20;
                  criticalSupplyThreshold := 10; offlineMinutes := 5; cooldownHours := 4;
                  notifySchedule := Some "scheduled"%string;
                  notifyTime := Some "22:00"%string; notifyEndTime := Some "06:00"%string;
                  notifyDays := Some [0; 1; 2; 3; 4; 5; 6] |} |}.

(** The minute counters of a day are consistent for the address [k]:
    it has either no counters, or a total of at least one minute and an
    uptime between zero and the total. *)
Definition minutes_ok (d : History.DailyData) (k : string) : Prop :=
  match History.totalMinutes d !! k, History.uptimeMinutes d !! k with
  | Some (JS.Int t), Some (JS.Int u) => 0 <= u <= t /\ 1 <= t
  | None, None => True
  | _, _ => False
  end.

(** * Properties *)

(** Sanity checks of the prelude on the values the server meets. *)
Example parseInt_examples :
  JS.parseInt "  42 sheets" = JS.Int 42 /\ JS.parseInt "-3" = JS.Int (-3) /\
  JS.parseInt "0x1A" = JS.Int 26 /\ JS.parseInt "toner" = JS.NaN /\
  JS.parseInt EmptyString = JS.NaN.
Proof. repeat split; reflexivity. Qed.

Example isNaN_examples :
  JS.isNaN "12" = false /\ JS.isNaN " 1.5e3 " = false /\ JS.isNaN EmptyString = false /\
  JS.isNaN "12abc" = true /\ JS.isNaN "idle" = true /\ JS.isNaN "." = true.
Proof. repeat split; reflexivity. Qed.

Example trim_examples :
  JS.trim "  Black Toner  " = "Black Toner" /\ JS.trim "   " = EmptyString /\
  JS.toLowerCase "Black TONER" = "black toner" /\
  JS.includes "black toner" "toner" = true /\ JS.includes "ton" "toner" = false.
Proof. repeat split; reflexivity. Qed.

Example Math_round_examples :
  JS.Math_round (PrimFloat.div (JS.of_Z 3) (JS.of_Z 2)) = JS.Int 2 /\
  JS.Math_round (PrimFloat.div (JS.of_Z (-3)) (JS.of_Z 2)) = JS.Int (-1) /\
  JS.Math_round (PrimFloat.mul (PrimFloat.div (JS.of_Z 29) (JS.of_Z 200)) (JS.of_Z 100))
    = JS.Int 14.
Proof. repeat split; vm_compute; reflexivity. Qed.


(** ** The bound on the alert history *)

Section slice_last.
Context {A : Type}.
Implicit Types l m : list A.

Lemma slice_last_length n l : length (Storage.slice_last n l) = (length l `min` n)%nat.
Proof. unfold Storage.slice_last. rewrite length_drop. lia. Qed.

Lemma slice_last_short n l : (length l <= n)%nat -> Storage.slice_last n l = l.
Proof.
  intros H. unfold Storage.slice_last.
  replace (length l - n)%nat with 0%nat by lia. reflexivity.
Qed.

(** Trimming before appending does not change what survives the next trim. *)
Lemma slice_last_app_slice n l m :
  Storage.slice_last n (Storage.slice_last n l ++ m) = Storage.slice_last n (l ++ m).
Proof.
  unfold Storage.slice_last.
  rewrite !length_app, length_drop.
  set (k := (length l - n)%nat).
  assert (Hk : length (take k l) = k) by (rewrite length_take; lia).
  replace (length l + length m - n)%nat
    with (length (take k l) + (length l - k + length m - n))%nat by lia.
  replace (l ++ m) with (take k l ++ (drop k l ++ m))
    by (rewrite app_assoc, take_drop; reflexivity).
  rewrite drop_app_add. reflexivity.
Qed.

End slice_last.

Lemma addAlerts_snoc entries e file :
  Storage.addAlerts (entries ++ [e]) file
  = fst (Storage.addAlert e.1 e.2 (Storage.addAlerts entries file)).
Proof. unfold Storage.addAlerts. rewrite foldl_app. reflexivity. Qed.

Lemma addAlerts_spec entries e file :
  Storage.addAlerts (e :: entries) file
  = Storage.slice_last 1000
      (file ++ map (fun x => Storage.new_event x.1 x.2) (e :: entries)).
Proof.
  induction entries as [|x entries IH] using rev_ind.
  - reflexivity.
  - rewrite app_comm_cons, addAlerts_snoc, IH.
    unfold Storage.addAlert, Storage.saveAlertHistory, Storage.loadAlertHistory,
      Storage.max_alerts.
    cbn [fst]. rewrite slice_last_app_slice.
    rewrite map_app, <- app_assoc. reflexivity.
Qed.

(** What [slice(-n)] keeps is the end of the list: the list is what
    was cut off followed by what was kept. *)
Lemma slice_last_suffix {A} (n : nat) (l : list A) :
  l = take (length l - n) l ++ Storage.slice_last n l.
Proof. unfold Storage.slice_last. by rewrite take_drop. Qed.

(** C10. After any non-empty run of alert creations the history file
    holds at most 1000 entries, and they are exactly the last 1000 of
    the previous content followed by the new entries, in insertion
    order: the appended list is what was discarded, from its front,
    followed by the file, so only the oldest entries are ever lost,
    none of them while the list has at most 1000 entries, and once
    1000 or more alerts have been added the file holds the last 1000
    of them. The same holds of every single save. *)
Theorem alert_history_bounded (file : list AlertEvent)
    (e : Clock * AlertInput) (entries : list (Clock * AlertInput)) :
  let file' := Storage.addAlerts (e :: entries) file in
  (length file' <= 1000)%nat /\
  file' = Storage.slice_last 1000
            (file ++ map (fun x => Storage.new_event x.1 x.2) (e :: entries)) /\
  (forall alerts, (length (Storage.saveAlertHistory alerts) <= 1000)%nat) /\
  (exists discarded,
     file ++ map (fun x => Storage.new_event x.1 x.2) (e :: entries) = discarded ++ file' /\
     length file'
     = (length (file ++ map (fun x => Storage.new_event x.1 x.2) (e :: entries))
        `min` 1000)%nat /\
     ((length (file ++ map (fun x => Storage.new_event x.1 x.2) (e :: entries)) <= 1000)%nat ->
      discarded = [])) /\
  ((1000 <= length (e :: entries))%nat ->
   exists older,
     map (fun x => Storage.new_event x.1 x.2) (e :: entries) = older ++ file' /\
     length file' = 1000%nat) /\
  (forall alerts,
     exists discarded,
       alerts = discarded ++ Storage.saveAlertHistory alerts /\
       length (Storage.saveAlertHistory alerts) = (length alerts `min` 1000)%nat).
Proof.
  cbn zeta. rewrite addAlerts_spec.
  set (added := map (fun x => Storage.new_event x.1 x.2) (e :: entries)).
  assert (Hadded : length added = length (e :: entries)) by apply length_map.
  split; [|split; [|split; [|split; [|split]]]].
  - rewrite slice_last_length. lia.
  - reflexivity.
  - intros alerts. unfold Storage.saveAlertHistory, Storage.max_alerts.
    rewrite slice_last_length. lia.
  - exists (take (length (file ++ added) - 1000) (file ++ added)).
    split; [apply slice_last_suffix|]. split; [apply slice_last_length|].
    intros Hle. replace (length (file ++ added) - 1000)%nat with 0%nat by lia. done.
  - intros Hmany. unfold Storage.slice_last. rewrite length_app.
    rewrite drop_app_ge by lia.
    exists (take (length file + length added - 1000 - length file) added).
    split; [by rewrite take_drop|]. rewrite length_drop. lia.
  - intros alerts. exists (take (length alerts - 1000) alerts).
    unfold Storage.saveAlertHistory, Storage.max_alerts.
    split; [apply slice_last_suffix|apply slice_last_length].
Qed.

(** A file of 999 alerts takes two more: the oldest one is discarded
    and the two new ones are at the end. *)
Example alert_history_drops_oldest :
  let old := map (fun i => Storage.new_event (at_minute i) (stored_input i)) (seqZ 1 999) in
  let file' := Storage.addAlerts [(at_minute 1000, stored_input 1000);
                                  (at_minute 1001, stored_input 1001)] old in
  length file' = 1000%nat /\
  map a_id (take 1 file') = [pretty 120000] /\
  map a_id (drop 998 file') = [pretty 60000000; pretty 60060000].
Proof. cbn zeta. split; [|split]; vm_compute; reflexivity. Qed.


(** ** Supply rows *)


Lemma supply_loop names maxs curs n acc :
  foldl (Poller.supply_step names maxs curs) acc (seq 0 n)
  = acc ++ omap (row_at names maxs curs) (seq 0 n).
Proof.
  induction n as [|n IH].
  - cbn. by rewrite app_nil_r.
  - rewrite seq_S, foldl_app, omap_app, IH, app_assoc. cbn.
    unfold Poller.supply_step, row_at.
    destruct (names !! n), (maxs !! n), (curs !! n); cbn; rewrite ?app_nil_r; try done.
    destruct (Poller.supply_row _ _ _); cbn; by rewrite ?app_nil_r.
Qed.

Lemma omap_none {A B} (f : A -> option B) (l : list A) :
  (forall x, f x = None) -> omap f l = [].
Proof. intros Hf. induction l as [|x l IH]; cbn; [done|]. by rewrite Hf. Qed.

Lemma process_supplies_rows names maxs curs :
  Poller.process_supplies names maxs curs
  = omap (row_at names maxs curs) (seq 0 (length names)).
Proof.
  unfold Poller.process_supplies.
  destruct names as [|n names]; [done|].
  destruct maxs as [|m maxs].
  { cbn [length Nat.ltb Nat.leb andb]. symmetry. apply omap_none.
    intros i. unfold row_at. by destruct ((n :: names) !! i). }
  destruct curs as [|c curs].
  { cbn [length Nat.ltb Nat.leb andb]. symmetry. apply omap_none.
    intros i. unfold row_at.
    by destruct ((n :: names) !! i), ((m :: maxs) !! i). }
  cbn [length Nat.ltb Nat.leb andb]. by rewrite supply_loop.
Qed.




Example sample_supplies :
  supplies (Poller.queryPrinter sample_agent clock0 "10.0.0.7")
  = [ {| s_name := "Black Toner Cartridge"; s_current := 42; s_max := 100; s_type := SToner |};
      {| s_name := "Waste Toner Box"; s_current := -3; s_max := 100; s_type := SWaste |};
      {| s_name := "Fuser Kit"; s_current := 150; s_max := 200; s_type := SFuser |} ].
Proof. vm_compute. reflexivity. Qed.


(** ** The OID fallback chains *)

(** The serial chain stops at the first non-empty answer. *)
Lemma query_serial_first (a : Agent) :
  Poller.query_serial a
  = first_answer JS.truthy
      (map (snmpGet a) [oid_serial; oid_serialAlt1; oid_serialAlt2]).
Proof.
  unfold Poller.query_serial, Poller.or_get, first_answer. cbn [map List.find].
  destruct (JS.truthy (snmpGet a oid_serial)) eqn:H1; cbn; rewrite ?H1; [done|].
  destruct (JS.truthy (snmpGet a oid_serialAlt1)) eqn:H2; cbn; rewrite ?H2; [done|].
  destruct (JS.truthy (snmpGet a oid_serialAlt2)) eqn:H3; cbn; by rewrite ?H3.
Qed.

(** The page count chain stops at the first answer that is a number. *)
Lemma query_pages_first (a : Agent) :
  Poller.query_pages a
  = Poller.parse <$>
      List.find Poller.numeric
        (map (snmpGet a)
           [oid_totalPages; oid_totalPagesAlt1; oid_totalPagesAlt2; oid_totalPagesAlt3;
            oid_totalPagesAlt4; oid_totalPagesAlt5; oid_totalPagesAlt6]).
Proof.
  unfold Poller.query_pages, Poller.or_get_numeric. cbn [map List.find].
  repeat (match goal with
          | |- context [Poller.numeric (snmpGet a ?o)] =>
              destruct (Poller.numeric (snmpGet a o)) eqn:?; cbn;
              repeat match goal with H : Poller.numeric _ = _ |- _ => rewrite H end;
              try done
          end).
Qed.

(** The status chain falls through on an absent or empty answer only;
    whether the answer is a number is looked at afterwards. *)
Lemma query_status_first (a : Agent) :
  Poller.query_status a
  = let answer :=
      first_answer JS.truthy
        (map (snmpGet a) [oid_deviceStatus; oid_statusAlt1]) in
    if Poller.numeric answer
    then Some (default StUnknown (Poller.DEVICE_STATUS (Poller.parse answer)))
    else None.
Proof.
  unfold Poller.query_status, Poller.or_get, first_answer. cbn [map List.find].
  destruct (JS.truthy (snmpGet a oid_deviceStatus)) eqn:H1; cbn; [done|].
  destruct (JS.truthy (snmpGet a oid_statusAlt1)) eqn:H2; cbn; [done|].
  assert (Hn : forall v, JS.truthy v = false -> Poller.numeric v = false).
  { intros [s|]; cbn; [|done]. by intros ->%negb_false_iff. }
  by rewrite Hn.
Qed.

(** [isNaN] and [parseInt] disagree on a blank answer: it passes for a
    number, ends the page count chain, and is stored as [NaN]. *)
Example blank_page_count :
  let a := {| snmpGet := fun oid =>
                match oid with
                | oid_description => Some "HP LaserJet 4250"%string
                | oid_totalPages => Some " "%string
                | oid_totalPagesAlt1 => Some "1234"%string
                | _ => None
                end;
              snmpWalk := fun _ => [] |} in
  totalPages (Poller.queryPrinter a clock0 "10.0.0.8") = JS.NaN.
Proof. reflexivity. Qed.

(** C8. Where the status chain departs from "the first valid answer
    wins": a first answer that is not empty and not a number ends the
    chain, the alternative OID is not asked, and the status of the
    snapshot stays [unknown] whatever the alternative would answer. *)
Theorem status_chain_no_fallthrough (a : Agent) (clk : Clock) (addr s : string) :
  JS.truthy (snmpGet a oid_description) = true ->
  snmpGet a oid_deviceStatus = Some s ->
  JS.is_empty s = false ->
  JS.isNaN s = true ->
  Poller.query_status a = None /\
  status (Poller.queryPrinter a clk addr) = StUnknown.
Proof.
  intros Hd Hs He Hn.
  assert (Hq : Poller.query_status a = None).
  { unfold Poller.query_status, Poller.or_get. rewrite Hs. cbn. rewrite He. cbn.
    by rewrite He, Hn. }
  split; [done|].
  unfold Poller.queryPrinter. rewrite Hd. cbn. by rewrite Hq.
Qed.

Lemma status_chain_no_fallthrough_witness :
  Poller.DEVICE_STATUS (Poller.parse (snmpGet wordy_agent oid_statusAlt1)) = Some StIdle /\
  totalPages (Poller.queryPrinter wordy_agent clock0 "10.0.0.8") = JS.Int 1234 /\
  Poller.query_status wordy_agent = None /\
  status (Poller.queryPrinter wordy_agent clock0 "10.0.0.8") = StUnknown.
Proof.
  split; [reflexivity|]. split; [reflexivity|].
  apply (status_chain_no_fallthrough wordy_agent clock0 "10.0.0.8" "ready"); reflexivity.
Defined.

(** ** Scan exclusivity *)

(** C9. A request to start a scan while [scanning] is set is answered
    409 and leaves the whole state as it is: no scan is started, and
    the [scanning] flag and [lastScan] of the scan in flight are not
    touched. *)
Theorem scan_conflict (network_prefix : string) (st : Server) :
  scanning (scanStatus st) = true ->
  Engine.post_scan network_prefix st = (st, 409) /\
  scans (fst (Engine.post_scan network_prefix st)) = scans st /\
  scanStatus (fst (Engine.post_scan network_prefix st)) = scanStatus st.
Proof.
  intros H. unfold Engine.post_scan. rewrite H. done.
Qed.

Lemma scan_conflict_witness :
  let st := fst (Engine.post_scan "192.168.1" (boot DEFAULT_CONFIG [])) in
  length (scans st) = 1%nat /\
  Engine.post_scan "10.233.6" st = (st, 409).
Proof.
  split; [reflexivity|].
  apply (scan_conflict "10.233.6" (fst (Engine.post_scan "192.168.1" (boot DEFAULT_CONFIG [])))).
  reflexivity.
Defined.

(** ** Cooldown *)

Section trigger.
Context (clk : Clock) (type : AlertType) (addr pname : string)
  (supplyName : option string) (details : Details) (st : Server).

Let key := Alerts.cooldownKey addr type supplyName.

Let input : AlertInput :=
  {| i_type := type; i_printerIp := addr; i_printerName := pname;
     i_supplyName := supplyName;
     i_subject := Alerts.subject_of type pname supplyName details;
     i_message := Alerts.message_of type addr pname supplyName details;
     i_details := details |}.

(** In cooldown nothing at all happens. *)
Lemma triggerAlert_suppressed :
  Alerts.isInCooldown (ms clk) key st = true ->
  Alerts.triggerAlert clk type addr pname supplyName details st = (st, None).
Proof. unfold Alerts.triggerAlert. fold key. by intros ->. Qed.

(** Out of cooldown the alert is stored, the key is stamped and, with
    alerting enabled, both senders are called. *)
Lemma triggerAlert_fires :
  Alerts.isInCooldown (ms clk) key st = false ->
  Alerts.triggerAlert clk type addr pname supplyName details st
  = ({| printers := printers st; scanStatus := scanStatus st; config := config st;
        alertCooldown := <[key := ms clk]> (alertCooldown st);
        offlineTimestamps := offlineTimestamps st;
        alertFile := Storage.saveAlertHistory (alertFile st ++ [Storage.new_event clk input]);
        outbox :=
          outbox st ++
          (if al_enabled (alerts (config st)) then
             Alerts.sendEmailNotification (config st) clk (i_subject input)
               (i_message input) (KAlert type)
             ++ Alerts.sendWebhookNotification (config st) clk (i_subject input)
                  (i_message input) (KAlert type)
           else []);
        scans := scans st |},
     Some (Storage.new_event clk input)).
Proof.
  unfold Alerts.triggerAlert. fold key. intros ->.
  unfold Storage.addAlert, Storage.loadAlertHistory.
  cbn [printers scanStatus config alertCooldown offlineTimestamps alertFile outbox scans
       with_alertFile Alerts.setCooldown with_alertCooldown].
  fold input.
  destruct (al_enabled (alerts (config st))); unfold send;
    cbn [printers scanStatus config alertCooldown offlineTimestamps alertFile outbox scans
         i_subject i_message input].
  - by rewrite <- app_assoc.
  - by rewrite app_nil_r.
Qed.

(** What [triggerAlert] never touches. *)
Lemma triggerAlert_frame :
  let st' := fst (Alerts.triggerAlert clk type addr pname supplyName details st) in
  printers st' = printers st /\ scanStatus st' = scanStatus st /\
  config st' = config st /\ offlineTimestamps st' = offlineTimestamps st /\
  scans st' = scans st.
Proof.
  cbn zeta. destruct (Alerts.isInCooldown (ms clk) key st) eqn:H.
  - by rewrite triggerAlert_suppressed.
  - by rewrite triggerAlert_fires.
Qed.

End trigger.

(** A cooldown of 0 hours is read as "not set": [0 || 4] is 4. *)
Example zero_cooldown_is_four_hours :
  Alerts.cooldownMs zero_cooldown_config = 4 * 3600000.
Proof. reflexivity. Qed.

(** [isInCooldown] compares the time since the key was last stamped
    with the effective cooldown. *)
Lemma isInCooldown_effective now key st :
  Alerts.isInCooldown now key st = true <->
  exists last, alertCooldown st !! key = Some last /\
               now - last < Alerts.cooldownMs (config st).
Proof.
  unfold Alerts.isInCooldown.
  destruct (alertCooldown st !! key) as [last|].
  - rewrite Z.ltb_lt. split.
    + intros H. by exists last.
    + by intros (l & [= <-] & H).
  - split; [done|]. by intros (l & ? & _).
Qed.

(** With the cooldown configured as 0 hours, an alert whose key was
    stamped one hour ago is suppressed, although the time since the
    last alert is not below the configured duration: the cooldown in
    force is 4 hours. *)
Lemma zero_cooldown_suppresses :
  let low clk st :=
    Alerts.triggerAlert clk ALowSupply "10.0.0.7" "HP LaserJet 4250"
      (Some "Black Toner"%string)
      {| d_percentage := Some (JS.Int 15); d_lastSeen := None; d_downtime := None |} st in
  let st := fst (low (at_minute 1) (boot zero_cooldown_config [])) in
  cooldownHours (alerts (config st)) = 0 /\
  alertCooldown st !! Alerts.cooldownKey "10.0.0.7" ALowSupply (Some "Black Toner"%string)
  = Some (ms (at_minute 1)) /\
  ~ (ms (at_minute 61) - ms (at_minute 1) < cooldownHours (alerts (config st)) * 3600000) /\
  low (at_minute 61) st = (st, None) /\
  alertFile (fst (low (at_minute 61) st)) = alertFile st /\
  ~ (exists ev, snd (low (at_minute 61) st) = Some ev).
Proof.
  cbn zeta. split; [reflexivity|]. split; [reflexivity|].
  split; [vm_compute; discriminate|].
  assert (H : Alerts.triggerAlert (at_minute 61) ALowSupply "10.0.0.7" "HP LaserJet 4250"
                (Some "Black Toner"%string)
                {| d_percentage := Some (JS.Int 15); d_lastSeen := None; d_downtime := None |}
                (fst (Alerts.triggerAlert (at_minute 1) ALowSupply "10.0.0.7"
                        "HP LaserJet 4250" (Some "Black Toner"%string)
                        {| d_percentage := Some (JS.Int 15); d_lastSeen := None;
                           d_downtime := None |}
                        (boot zero_cooldown_config [])))
              = (fst (Alerts.triggerAlert (at_minute 1) ALowSupply "10.0.0.7"
                        "HP LaserJet 4250" (Some "Black Toner"%string)
                        {| d_percentage := Some (JS.Int 15); d_lastSeen := None;
                           d_downtime := None |}
                        (boot zero_cooldown_config [])), None)).
  { apply triggerAlert_suppressed. reflexivity. }
  rewrite H. split; [reflexivity|]. split; [reflexivity|]. by intros [ev ?].
Qed.

(** C2, as the code has it. The cooldown in force is the configured
    [cooldownHours], or 4 hours when that is 0. An alert whose key was
    stamped less than this cooldown ago is suppressed entirely: the
    call returns nothing and the state (alert history, cooldown map,
    notifications handed out) is unchanged. Otherwise the alert is
    appended to the history and the key is stamped with the current
    time. For a toner going 25% -> 15% -> 8% with thresholds 10/20 and
    a 4 hour cooldown, one low-supply and one critical-supply alert are
    stored, further polls inside the window add nothing, and the first
    poll after the window fires again. *)
Theorem cooldown_gate (clk : Clock) (type : AlertType) (addr pname : string)
    (supplyName : option string) (details : Details) (st : Server) :
  let key := Alerts.cooldownKey addr type supplyName in
  let hours :=
    if cooldownHours (alerts (config st)) =? 0 then 4
    else cooldownHours (alerts (config st)) in
  let window := hours * 3600000 in
  let r := Alerts.triggerAlert clk type addr pname supplyName details st in
  ((exists last, alertCooldown st !! key = Some last /\ ms clk - last < window) ->
   r = (st, None)) /\
  ((forall last, alertCooldown st !! key = Some last -> window <= ms clk - last) ->
   exists ev,
     snd r = Some ev /\
     i_type (a_alert ev) = type /\ i_printerIp (a_alert ev) = addr /\
     i_supplyName (a_alert ev) = supplyName /\
     alertFile (fst r) = Storage.saveAlertHistory (alertFile st ++ [ev]) /\
     alertCooldown (fst r) = <[key := ms clk]> (alertCooldown st)) /\
  (cooldownHours (alerts (config st)) <> 0 ->
   window = cooldownHours (alerts (config st)) * 3600000) /\
  (let st0 := boot DEFAULT_CONFIG (one_device (toner_agent 25)) in
   let drop :=
     [(at_minute 1, toner_agent 25); (at_minute 2, toner_agent 15);
      (at_minute 3, toner_agent 8)] in
   let inside := [(at_minute 4, toner_agent 8); (at_minute 242, toner_agent 8)] in
   let after := [(at_minute 243, toner_agent 8)] in
   alert_types (run drop st0) = [ALowSupply; ACriticalSupply] /\
   alert_state (run (drop ++ inside) st0) = alert_state (run drop st0) /\
   alert_types (run (drop ++ inside ++ after) st0)
   = [ALowSupply; ACriticalSupply; ACriticalSupply]).
Proof.
  intros key hours window r.
  assert (Hw : Alerts.cooldownMs (config st) = window).
  { unfold Alerts.cooldownMs, window, hours. lia. }
  split; [|split; [|split]].
  - intros Hin. apply triggerAlert_suppressed. apply isInCooldown_effective.
    by rewrite Hw.
  - intros Hout.
    assert (Hno : Alerts.isInCooldown (ms clk) key st = false).
    { apply not_true_is_false. intros (last & Hl & Hlt)%isInCooldown_effective.
      specialize (Hout last Hl). lia. }
    subst r. rewrite triggerAlert_fires by done.
    eexists. cbn [fst snd]. repeat split; reflexivity.
  - intros Hne. unfold window, hours. by destruct (Z.eqb_spec (cooldownHours (alerts (config st))) 0).
  - cbn zeta. split; [|split]; vm_compute; reflexivity.
Qed.

Lemma cooldown_gate_witness :
  let st := run [(at_minute 2, toner_agent 15)]
              (boot DEFAULT_CONFIG (one_device (toner_agent 25))) in
  let again clk :=
    Alerts.triggerAlert clk ALowSupply "10.0.0.7" "HP LaserJet 4250"
      (Some "Black Toner"%string)
      {| d_percentage := Some (JS.Int 15); d_lastSeen := None; d_downtime := None |} st in
  again (at_minute 3) = (st, None) /\
  exists ev, snd (again (at_minute 242)) = Some ev.
Proof.
  intros st again.
  destruct (cooldown_gate (at_minute 3) ALowSupply "10.0.0.7" "HP LaserJet 4250"
              (Some "Black Toner"%string)
              {| d_percentage := Some (JS.Int 15); d_lastSeen := None; d_downtime := None |}
              st) as (Hsup & _ & _).
  destruct (cooldown_gate (at_minute 242) ALowSupply "10.0.0.7" "HP LaserJet 4250"
              (Some "Black Toner"%string)
              {| d_percentage := Some (JS.Int 15); d_lastSeen := None; d_downtime := None |}
              st) as (_ & Hfire & _).
  split.
  - apply Hsup. exists 120000. split; vm_compute; reflexivity.
  - destruct Hfire as (ev & Hev & _).
    + intros last Hl. vm_compute in Hl. injection Hl as <-. vm_compute. discriminate.
    + exists ev. exact Hev.
Defined.

(** ** Acknowledgement *)

Lemma find_index_spec alertId alerts i :
  Storage.find_index alertId alerts = Some i ->
  exists a, alerts !! i = Some a /\ a_id a = alertId.
Proof.
  revert i. induction alerts as [|a alerts IH]; intros i; cbn; [done|].
  destruct (String.eqb (a_id a) alertId) eqn:Heq.
  - intros [= <-]. exists a. split; [done|]. by apply String.eqb_eq.
  - destruct (Storage.find_index alertId alerts) as [j|]; cbn; [|done].
    intros [= <-]. by apply IH.
Qed.

Lemma find_index_min alertId alerts i :
  Storage.find_index alertId alerts = Some i ->
  forall j b, (j < i)%nat -> alerts !! j = Some b -> a_id b <> alertId.
Proof.
  revert i. induction alerts as [|a alerts IH]; intros i; cbn; [done|].
  destruct (String.eqb (a_id a) alertId) eqn:Heq.
  - intros [= <-] j b Hj. lia.
  - destruct (Storage.find_index alertId alerts) as [k|] eqn:Hk; cbn; [|done].
    intros [= <-] [|j] b Hj Hb.
    + cbn in Hb. injection Hb as <-. by apply String.eqb_neq.
    + apply (IH k eq_refl j b); [lia|done].
Qed.

Lemma acknowledgeAlert_first clk alertId by_ file file' ev :
  (length file <= 1000)%nat ->
  Storage.acknowledgeAlert clk alertId by_ file = (file', Some ev) ->
  exists i a,
    file !! i = Some a /\ a_id a = alertId /\
    (forall k c, (k < i)%nat -> file !! k = Some c -> a_id c <> alertId) /\
    ev = Storage.acknowledge_event clk by_ a /\
    file' = <[i := ev]> file.
Proof.
  intros Hlen. unfold Storage.acknowledgeAlert, Storage.loadAlertHistory.
  destruct (Storage.find_index alertId file) as [i|] eqn:Hi; [|done].
  pose proof (find_index_min alertId file i Hi) as Hmin.
  apply find_index_spec in Hi as (a & Ha & Hid). rewrite Ha.
  intros [= <- <-]. exists i, a. do 4 (split; [done|]).
  apply slice_last_short. by rewrite length_insert.
Qed.

(** C6. A successful acknowledgement finds the first stored alert
    with the given id, marks that entry as acknowledged and deletes the
    cooldown entry under the key of that alert's address, type and
    supply name; from then on a trigger for that address, type and
    supply name is not suppressed, however soon it comes. An alert
    stored behind it under the same id (the ids are the millisecond
    clock, so two alerts of one pass share theirs) is left as it was:
    it is not marked, and when its key differs its cooldown stays, so
    the acknowledgement answers 200 by its id and the alert remains
    suppressed. *)
Theorem acknowledge_rearms (clk : Clock) (alertId by_ : string) (st st' : Server) :
  (length (alertFile st) <= 1000)%nat ->
  Engine.post_acknowledge clk alertId by_ st = (st', 200) ->
  exists i a,
    alertFile st !! i = Some a /\ a_id a = alertId /\
    (forall k c, (k < i)%nat -> alertFile st !! k = Some c -> a_id c <> alertId) /\
    alertFile st' = <[i := Storage.acknowledge_event clk by_ a]> (alertFile st) /\
    alertCooldown st' = delete (alert_key a) (alertCooldown st) /\
    rearmed a st' /\
    (forall j b,
       (i < j)%nat -> alertFile st !! j = Some b ->
       alertFile st' !! j = Some b /\
       (alert_key b <> alert_key a ->
        alertCooldown st' !! alert_key b = alertCooldown st !! alert_key b /\
        forall now,
          Alerts.isInCooldown now (alert_key b) st'
          = Alerts.isInCooldown now (alert_key b) st)).
Proof.
  intros Hlen. unfold Engine.post_acknowledge.
  destruct (Storage.acknowledgeAlert clk alertId by_ (alertFile st)) as [file found] eqn:Hack.
  destruct found as [ev|]; [|by intros [= _ ?]].
  intros [= <-].
  apply acknowledgeAlert_first in Hack as (i & a & Ha & Hid & Hmin & -> & ->); [|done].
  exists i, a. do 4 (split; [done|]). cbn [Storage.acknowledge_event a_alert].
  split; [done|]. split.
  - intros clk' pname details. cbn zeta.
    rewrite triggerAlert_fires.
    + eexists. cbn [fst snd alertFile a_alert i_type i_printerIp i_supplyName
                      Storage.new_event].
      do 4 (split; [reflexivity|]). reflexivity.
    + unfold Alerts.isInCooldown, Alerts.clearCooldown, with_alertCooldown.
      cbn [alertCooldown]. by rewrite lookup_delete_eq.
  - intros j b Hij Hb. cbn [alertFile Alerts.clearCooldown with_alertCooldown with_alertFile].
    split; [rewrite list_lookup_insert_ne by lia; done|].
    intros Hkey.
    assert (Hl : delete (alert_key a) (alertCooldown st) !! alert_key b
                 = alertCooldown st !! alert_key b) by (by apply lookup_delete_ne).
    split; [exact Hl|]. intros now. unfold Alerts.isInCooldown.
    change (alertCooldown (Alerts.clearCooldown _ _))
      with (delete (alert_key a) (alertCooldown st)).
    by rewrite Hl.
Qed.

(** Before the acknowledgement the critical alert is in cooldown; one
    second later, once acknowledged, it fires again. *)
Example acknowledge_then_refire :
  let critical st :=
    Alerts.triggerAlert one_second_later ACriticalSupply "10.0.0.7" "HP LaserJet 4250"
      (Some "Black Toner"%string)
      {| d_percentage := Some (JS.Int 8); d_lastSeen := None; d_downtime := None |} st in
  let st' := fst (Engine.post_acknowledge one_second_later "180000" "user" after_drop) in
  snd (critical after_drop) = None /\
  alert_types (fst (critical st')) = [ALowSupply; ACriticalSupply; ACriticalSupply] /\
  map a_acknowledged (alertFile (fst (critical st'))) = [false; true; false].
Proof. cbn zeta. split; [|split]; vm_compute; reflexivity. Qed.

(** Two low-supply alerts of one pass share their id. Acknowledging
    by that id answers 200 and marks the first, the black toner's; the
    cyan toner's alert stays unacknowledged and in cooldown, so its
    condition, still holding a minute later, stores nothing. *)
Lemma acknowledge_rearms_witness :
  let st' := fst (Engine.post_acknowledge (at_minute 2) "60000" "user" two_low) in
  let cyan clk st :=
    Alerts.triggerAlert clk ALowSupply "10.0.0.7" "HP Color LaserJet"
      (Some "Cyan Toner"%string)
      {| d_percentage := Some (JS.Int 15); d_lastSeen := None; d_downtime := None |} st in
  map a_id (alertFile two_low) = ["60000"; "60000"]%string /\
  map (fun a => i_supplyName (a_alert a)) (alertFile two_low)
  = [Some "Black Toner"; Some "Cyan Toner"]%string /\
  snd (Engine.post_acknowledge (at_minute 2) "60000" "user" two_low) = 200 /\
  map a_acknowledged (alertFile st') = [true; false] /\
  cyan (at_minute 2) st' = (st', None).
Proof.
  intros st' cyan.
  assert (Hpost : Engine.post_acknowledge (at_minute 2) "60000" "user" two_low
                  = (st', 200)) by (vm_compute; reflexivity).
  destruct (acknowledge_rearms (at_minute 2) "60000" "user" two_low st')
    as (i & a & Ha & _ & Hmin & Hfile & _ & _ & Hbehind); [vm_compute; lia|exact Hpost|].
  assert (Hi : i = 0%nat).
  { destruct i as [|i]; [done|]. exfalso.
    eapply (Hmin 0%nat); [lia| |]; vm_compute; reflexivity. }
  subst i.
  assert (E : alertFile two_low !! 0%nat = Some (stored_low "Black Toner"))
    by (vm_compute; reflexivity).
  rewrite E in Ha. injection Ha as <-.
  destruct (Hbehind 1%nat (stored_low "Cyan Toner")) as [Hkept Hcool];
    [lia|vm_compute; reflexivity|].
  destruct Hcool as [_ Hcool]; [vm_compute; discriminate|].
  split; [vm_compute; reflexivity|]. split; [vm_compute; reflexivity|].
  split; [by rewrite Hpost|]. split; [vm_compute; reflexivity|].
  apply triggerAlert_suppressed.
  change (Alerts.cooldownKey "10.0.0.7" ALowSupply (Some "Cyan Toner"%string))
    with (alert_key (stored_low "Cyan Toner")).
  rewrite Hcool. vm_compute. reflexivity.
Defined.

(** ** Supply thresholds *)

Example percentage_examples :
  Engine.percentage_of (toner 25 100) = JS.Int 25 /\
  Engine.percentage_of (toner 1 3) = JS.Int 33 /\
  Engine.percentage_of (toner 1 8) = JS.Int 13 /\
  Engine.percentage_of (toner (-3) 100) = JS.Int (-3) /\
  Engine.percentage_of (toner 29 200) = JS.Int 14.
Proof. repeat split; vm_compute; reflexivity. Qed.

(** A level beyond 2^63 is the double nearest to it, not its residue:
    the percentage is far above every threshold. *)
Example huge_level_percentage :
  Engine.percentage_of (toner (2 ^ 63 + 5) 100) = JS.Int (2 ^ 63) /\
  Engine.supply_alert DEFAULT_CONFIG (toner (2 ^ 63 + 5) 100) = None.
Proof. split; vm_compute; reflexivity. Qed.


Section pass.
Context (clk : Clock) (st0 : Server).










End pass.



(** ** The notification schedule *)

Example schedule_examples :
  Alerts.isWithinNotificationSchedule office_config monday_morning = true /\
  Alerts.isWithinNotificationSchedule office_config sunday_night = false /\
  Alerts.isWithinNotificationSchedule DEFAULT_CONFIG sunday_night = true.
Proof. repeat split; reflexivity. Qed.

(** The e-mail sender honours the schedule for every alert. *)
Lemma email_gated cfg clk subject message type :
  Alerts.isWithinNotificationSchedule cfg clk = false ->
  Alerts.sendEmailNotification cfg clk subject message (KAlert type) = [].
Proof.
  intros H. unfold Alerts.sendEmailNotification. rewrite H. cbn.
  by destruct (em_enabled (email cfg)).
Qed.

(** The webhook sender never looks at the clock. *)
Lemma webhook_not_gated cfg clk clk' subject message kind :
  Alerts.sendWebhookNotification cfg clk subject message kind
  = Alerts.sendWebhookNotification cfg clk' subject message kind.
Proof. reflexivity. Qed.

(** C4. Where the code departs from "e-mail and webhook dispatch are
    both gated by the schedule": outside the schedule an alert that is
    out of cooldown is still recorded and no e-mail is handed to the
    SMTP transport, but every enabled webhook with a URL is posted to
    all the same. *)
Theorem webhook_ignores_schedule (clk : Clock) (type : AlertType) (addr pname : string)
    (supplyName : option string) (details : Details) (st : Server) (wh : Webhook) :
  al_enabled (alerts (config st)) = true ->
  Alerts.isInCooldown (ms clk) (Alerts.cooldownKey addr type supplyName) st = false ->
  Alerts.isWithinNotificationSchedule (config st) clk = false ->
  wh ∈ webhooks (config st) ->
  wh_enabled wh = true ->
  JS.is_empty (wh_url wh) = false ->
  let r := Alerts.triggerAlert clk type addr pname supplyName details st in
  (exists ev, snd r = Some ev /\
              alertFile (fst r) = Storage.saveAlertHistory (alertFile st ++ [ev])) /\
  filter (fun d => is_smtp d = true) (outbox (fst r))
  = filter (fun d => is_smtp d = true) (outbox st) /\
  (exists subject message,
     WebhookPost (wh_url wh) (Alerts.payload_format (wh_url wh)) subject message
       (KAlert type) ∈ outbox (fst r)).
Proof.
  intros Hen Hcool Hsched Hwh Hon Hurl r. subst r.
  rewrite triggerAlert_fires by done. cbn [fst snd alertFile outbox].
  rewrite Hen, email_gated by done. cbn [app].
  split; [by eexists|]. split.
  - rewrite filter_app.
    assert (Hnone : forall l : list Webhook,
              filter (fun d => is_smtp d = true)
                (map (fun wh => WebhookPost (wh_url wh) (Alerts.payload_format (wh_url wh))
                                  (Alerts.subject_of type pname supplyName details)
                                  (Alerts.message_of type addr pname supplyName details)
                                  (KAlert type)) l) = []).
    { induction l as [|x l IH]; [done|]. cbn [map]. by rewrite filter_cons_False. }
    unfold Alerts.sendWebhookNotification. by rewrite Hnone, app_nil_r.
  - do 2 eexists. apply elem_of_app. right.
    unfold Alerts.sendWebhookNotification.
    apply list_elem_of_In.
    apply (in_map (fun w => WebhookPost (wh_url w) (Alerts.payload_format (wh_url w))
                              (Alerts.subject_of type pname supplyName details)
                              (Alerts.message_of type addr pname supplyName details)
                              (KAlert type))).
    apply list_elem_of_In.
    apply list_elem_of_filter. split; [|done]. by rewrite Hon, Hurl.
Qed.

Lemma webhook_ignores_schedule_witness :
  let r := Alerts.triggerAlert sunday_night AOffline "10.0.0.7" "HP LaserJet 4250" None
             {| d_percentage := None; d_lastSeen := Some "2024-03-03T02:54:00.000Z"%string;
                d_downtime := None |}
             (boot office_config []) in
  alert_types (fst r) = [AOffline] /\
  map is_smtp (outbox (fst r)) = [false] /\
  exists subject message,
    WebhookPost "https://hooks.slack.com/services/T0/B0/x" FSlack subject message
      (KAlert AOffline) ∈ outbox (fst r).
Proof.
  cbn zeta. split; [vm_compute; reflexivity|]. split; [vm_compute; reflexivity|].
  apply (webhook_ignores_schedule sunday_night AOffline "10.0.0.7" "HP LaserJet 4250" None
           {| d_percentage := None; d_lastSeen := Some "2024-03-03T02:54:00.000Z"%string;
              d_downtime := None |}
           (boot office_config [])
           {| wh_enabled := true; wh_url := "https://hooks.slack.com/services/T0/B0/x" |});
    try reflexivity.
  apply list_elem_of_here.
Defined.

(** ** Offline detection and recovery *)

Lemma append_inj_l (p a b : string) : p +:+ a = p +:+ b -> a = b.
Proof. induction p as [|c p IH]; cbn; [done|]. intros [= H]. by apply IH. Qed.



Lemma isInCooldown_timers now key f st :
  Alerts.isInCooldown now key (with_offlineTimestamps f st) = Alerts.isInCooldown now key st.
Proof. reflexivity. Qed.

(** The offline branch: the timer holds the time of the first offline
    observation, and an alert is stored exactly when the threshold is
    reached and the offline key is out of cooldown. *)
Lemma check_offline_spec clk st p :
  let now := ms clk in
  let key := Alerts.cooldownKey (ip p) AOffline None in
  let start := default now (offlineTimestamps st !! ip p) in
  let st' := Engine.check_offline clk st p in
  offlineTimestamps st' = <[ip p := start]> (offlineTimestamps st) /\
  (Alerts.offlineThresholdMs (config st) <= now - start ->
   Alerts.isInCooldown now key st = false ->
   exists ev,
     alertFile st' = Storage.saveAlertHistory (alertFile st ++ [ev]) /\
     i_type (a_alert ev) = AOffline /\ i_printerIp (a_alert ev) = ip p /\
     alertCooldown st' = <[key := now]> (alertCooldown st)) /\
  (now - start < Alerts.offlineThresholdMs (config st)
   \/ Alerts.isInCooldown now key st = true ->
   alertFile st' = alertFile st /\ alertCooldown st' = alertCooldown st).
Proof.
  cbn zeta. unfold Engine.check_offline.
  set (st1 := match offlineTimestamps st !! ip p with
              | Some _ => st
              | None => with_offlineTimestamps (insert (ip p) (ms clk)) st
              end).
  set (start := default (ms clk) (offlineTimestamps st !! ip p)).
  assert (Hts : offlineTimestamps st1 = <[ip p := start]> (offlineTimestamps st)).
  { subst st1 start. destruct (offlineTimestamps st !! ip p) as [t|] eqn:Ht; cbn.
    - by rewrite insert_id.
    - done. }
  assert (Hrest : alertFile st1 = alertFile st /\ alertCooldown st1 = alertCooldown st
                  /\ config st1 = config st
                  /\ forall key, Alerts.isInCooldown (ms clk) key st1
                                 = Alerts.isInCooldown (ms clk) key st).
  { subst st1. by destruct (offlineTimestamps st !! ip p). }
  destruct Hrest as (Hfile & Hcd & Hcfg & Hin).
  assert (Hlook : default 0 (offlineTimestamps st1 !! ip p) = start).
  { by rewrite Hts, lookup_insert_eq. }
  rewrite Hlook, Hcfg.
  destruct (Z.leb_spec (Alerts.offlineThresholdMs (config st)) (ms clk - start)) as [Hge|Hlt].
  - destruct (Alerts.isInCooldown (ms clk) (Alerts.cooldownKey (ip p) AOffline None) st)
      eqn:Hcool.
    + rewrite triggerAlert_suppressed by (by rewrite Hin). cbn [fst].
      split; [done|]. split; [done|]. by intros _.
    + rewrite triggerAlert_fires by (by rewrite Hin).
      cbn [fst offlineTimestamps alertFile alertCooldown].
      split; [done|]. split.
      * intros _ _. eexists. rewrite Hfile, Hcd. by repeat split.
      * intros [?|?]; [lia|done].
  - split; [done|]. split; [lia|]. by intros _.
Qed.

(** The recovery: the timer is deleted, and a back-online alert with
    the downtime since the timer was started is stored exactly when
    the back-online key is out of cooldown. *)
Lemma check_recovery_spec clk st p start :
  offlineTimestamps st !! ip p = Some start ->
  let now := ms clk in
  let key := Alerts.cooldownKey (ip p) ABackOnline None in
  let st' := Engine.check_recovery clk st p in
  offlineTimestamps st' = delete (ip p) (offlineTimestamps st) /\
  (Alerts.isInCooldown now key st = false ->
   exists ev,
     alertFile st' = Storage.saveAlertHistory (alertFile st ++ [ev]) /\
     i_type (a_alert ev) = ABackOnline /\ i_printerIp (a_alert ev) = ip p /\
     d_downtime (i_details (a_alert ev)) = Some (Engine.downtime_str (now - start)) /\
     alertCooldown st' = <[key := now]> (alertCooldown st)) /\
  (Alerts.isInCooldown now key st = true ->
   alertFile st' = alertFile st /\ alertCooldown st' = alertCooldown st).
Proof.
  intros Hstart. cbn zeta. unfold Engine.check_recovery. rewrite Hstart.
  destruct (Alerts.isInCooldown (ms clk) (Alerts.cooldownKey (ip p) ABackOnline None) st)
    eqn:Hcool.
  - rewrite triggerAlert_suppressed by done. cbn. by repeat split.
  - rewrite triggerAlert_fires by done.
    cbn [fst with_offlineTimestamps offlineTimestamps alertFile alertCooldown].
    split; [done|]. split; [|done]. intros _. eexists. by repeat split.
Qed.



(** ** Polling an unreachable device *)

Lemma same_registry_refl st : same_registry st st.
Proof. by repeat split. Qed.

Lemma same_registry_trans st1 st2 st3 :
  same_registry st1 st2 -> same_registry st2 st3 -> same_registry st1 st3.
Proof. intros (?&?&?) (?&?&?). repeat split; congruence. Qed.

Lemma foldl_same_registry {A} (f : Server -> A -> Server) (l : list A) :
  (forall st x, same_registry st (f st x)) ->
  forall st, same_registry st (foldl f st l).
Proof.
  intros Hf. induction l as [|x l IH]; intros st; cbn.
  - apply same_registry_refl.
  - eapply same_registry_trans; [apply Hf|apply IH].
Qed.

Lemma triggerAlert_same_registry clk type addr pname supplyName details st :
  same_registry st (fst (Alerts.triggerAlert clk type addr pname supplyName details st)).
Proof.
  destruct (triggerAlert_frame clk type addr pname supplyName details st)
    as (? & ? & ? & _). by repeat split.
Qed.

Lemma check_printer_same_registry clk st p :
  same_registry st (Engine.check_printer clk st p).
Proof.
  unfold Engine.check_printer. destruct (Engine.is_offline p).
  - unfold Engine.check_offline.
    set (st1 := match offlineTimestamps st !! ip p with
                | Some _ => st
                | None => with_offlineTimestamps (insert (ip p) (ms clk)) st
                end).
    assert (H1 : same_registry st st1).
    { subst st1. destruct (offlineTimestamps st !! ip p); by repeat split. }
    destruct (_ <=? _); [|done].
    eapply same_registry_trans; [exact H1|apply triggerAlert_same_registry].
  - eapply same_registry_trans; [|apply foldl_same_registry].
    + unfold Engine.check_recovery. destruct (offlineTimestamps st !! ip p); [|by repeat split].
      destruct (triggerAlert_same_registry clk ABackOnline (ip p) (Engine.display_name p) None
                  {| d_percentage := None; d_lastSeen := None;
                     d_downtime := Some (Engine.downtime_str (ms clk - z)) |} st)
        as (? & ? & ?).
      by repeat split.
    + intros st0 s. unfold Engine.check_supply.
      destruct (Engine.supply_alert (config st0) s); [|apply same_registry_refl].
      apply triggerAlert_same_registry.
Qed.

Lemma checkAlerts_same_registry clk st : same_registry st (Engine.checkAlerts clk st).
Proof.
  unfold Engine.checkAlerts. destruct (negb _); [apply same_registry_refl|].
  apply foldl_same_registry. intros. apply check_printer_same_registry.
Qed.

Lemma map_get_set_eq k v m : map_get k (map_set k v m) = Some v.
Proof.
  induction m as [|[k' v'] m IH]; cbn.
  - by rewrite String.eqb_refl.
  - destruct (String.eqb k' k) eqn:H; cbn; rewrite ?H, ?String.eqb_refl; done.
Qed.

Lemma map_get_set_ne k k' v m : k <> k' -> map_get k (map_set k' v m) = map_get k m.
Proof.
  intros Hne.
  assert (Hk : String.eqb k' k = false) by (apply String.eqb_neq; congruence).
  induction m as [|[k2 v2] m IH]; cbn.
  - by rewrite Hk.
  - destruct (String.eqb k2 k') eqn:H; cbn.
    + apply String.eqb_eq in H as ->. by rewrite Hk.
    + by rewrite IH.
Qed.

Lemma map_set_keys k v m : k ∈ map fst m -> map fst (map_set k v m) = map fst m.
Proof.
  induction m as [|[k2 v2] m IH]; cbn; [by intros ?%elem_of_nil|].
  destruct (String.eqb k2 k) eqn:H; cbn.
  - by apply String.eqb_eq in H as ->.
  - intros [->|Hin]%elem_of_cons; [by rewrite String.eqb_refl in H|].
    by rewrite IH.
Qed.

(** The refresh loop asks every registered address once and stores
    what the poll returns. *)
Lemma refresh_loop net clk ips st :
  (forall k, k ∈ ips -> k ∈ map fst (printers st)) ->
  let st' := foldl (Engine.refresh_one net clk) st ips in
  map fst (printers st') = map fst (printers st) /\
  scanStatus st' = scanStatus st /\
  forall addr, addr ∈ ips ->
    map_get addr (printers st') = Some (Poller.queryPrinter (net addr) clk addr).
Proof.
  cbn zeta. induction ips as [|x ips IH] using rev_ind; intros Hk.
  - cbn. repeat split. by intros ? ?%elem_of_nil.
  - rewrite foldl_app. cbn [foldl].
    destruct IH as (Hkeys & Hscan & Hget).
    { intros k Hin. apply Hk, elem_of_app. by left. }
    change (printers (Engine.refresh_one net clk ?s x))
      with (map_set x (Poller.queryPrinter (net x) clk x) (printers s)).
    change (scanStatus (Engine.refresh_one net clk ?s x)) with (scanStatus s).
    split; [|split; [done|]].
    + rewrite map_set_keys; [done|]. rewrite Hkeys. apply Hk, elem_of_app. right.
      apply list_elem_of_here.
    + intros addr Hin. destruct (decide (addr = x)) as [->|Hne].
      * apply map_get_set_eq.
      * rewrite map_get_set_ne by done. apply Hget.
        apply elem_of_app in Hin as [Hin|Hin%list_elem_of_singleton]; done.
Qed.

Lemma queryPrinter_unreachable a clk addr :
  JS.truthy (snmpGet a oid_description) = false ->
  Poller.queryPrinter a clk addr = Poller.set_offline (Poller.initial clk addr).
Proof. intros H. unfold Poller.queryPrinter. by rewrite H. Qed.

Lemma autoRefresh_spec net clk st addr :
  addr ∈ map fst (printers st) ->
  scanning (scanStatus st) = false ->
  let st' := Engine.autoRefresh net clk st in
  map fst (printers st') = map fst (printers st) /\
  scanStatus st' = scanStatus st /\
  map_get addr (printers st') = Some (Poller.queryPrinter (net addr) clk addr).
Proof.
  intros Hin Hscan. cbn zeta. unfold Engine.autoRefresh. rewrite Hscan.
  assert (Hlen : (0 <? length (printers st))%nat = true).
  { apply Nat.ltb_lt. destruct (printers st); [by apply elem_of_nil in Hin|cbn; lia]. }
  rewrite Hlen. cbn [negb andb].
  destruct (refresh_loop net clk (map fst (printers st)) st) as (Hkeys & Hsc & Hget); [done|].
  destruct (checkAlerts_same_registry clk
              (foldl (Engine.refresh_one net clk) st (map fst (printers st))))
    as (Hp & Hs & _).
  rewrite Hp, Hs. split; [done|]. split; [done|]. by apply Hget.
Qed.

(** The supplies known from the last successful poll are gone after
    one poll of the device while it is unreachable. *)
Lemma stale_supplies_are_cleared :
  let st := healthy_start in
  let st' := run [(at_minute 1, unreachable)] st in
  (supplies <$> map_get "10.0.0.7" (printers st)) = Some [toner 50 100] /\
  (online <$> map_get "10.0.0.7" (printers st')) = Some false /\
  (status <$> map_get "10.0.0.7" (printers st')) = Some StOffline /\
  (supplies <$> map_get "10.0.0.7" (printers st')) = Some [] /\
  (supplies <$> map_get "10.0.0.7" (printers st'))
  <> (supplies <$> map_get "10.0.0.7" (printers st)).
Proof.
  cbn zeta. split; [vm_compute; reflexivity|]. split; [vm_compute; reflexivity|].
  split; [vm_compute; reflexivity|]. split; [vm_compute; reflexivity|].
  vm_compute. discriminate.
Qed.

(** C1, as the code has it. When the description query of a
    registered device returns no value, the refresh stores a snapshot
    built from scratch: offline, status "offline", no name, model or
    serial, page count 0, and empty supplies, trays and errors,
    whatever the previous snapshot held. Two such polls in a row store
    two snapshots that differ in the time stamp only. *)
Theorem unreachable_poll_resets (net : Engine.Net) (clk1 clk2 : Clock) (st : Server)
    (addr : string) :
  addr ∈ map fst (printers st) ->
  scanning (scanStatus st) = false ->
  JS.truthy (snmpGet (net addr) oid_description) = false ->
  let st1 := Engine.autoRefresh net clk1 st in
  let st2 := Engine.autoRefresh net clk2 st1 in
  Poller.queryPrinter (net addr) clk1 addr = offline_snapshot clk1 addr /\
  map_get addr (printers st1) = Some (offline_snapshot clk1 addr) /\
  map_get addr (printers st2) = Some (offline_snapshot clk2 addr).
Proof.
  intros Hin Hscan Hdesc. cbn zeta.
  assert (Hq : forall clk, Poller.queryPrinter (net addr) clk addr = offline_snapshot clk addr).
  { intros clk. by rewrite queryPrinter_unreachable. }
  destruct (autoRefresh_spec net clk1 st addr Hin Hscan) as (Hkeys & Hsc & Hget).
  destruct (autoRefresh_spec net clk2 (Engine.autoRefresh net clk1 st) addr)
    as (_ & _ & Hget2).
  { by rewrite Hkeys. }
  { by rewrite Hsc. }
  rewrite Hget, Hget2, !Hq. done.
Qed.

Lemma unreachable_poll_resets_witness :
  map_get "10.0.0.7"
    (printers (Engine.autoRefresh (fun _ => unreachable) (at_minute 2)
                 (Engine.autoRefresh (fun _ => unreachable) (at_minute 1) healthy_start)))
  = Some (offline_snapshot (at_minute 2) "10.0.0.7").
Proof.
  apply (unreachable_poll_resets (fun _ => unreachable) (at_minute 1) (at_minute 2)
           healthy_start "10.0.0.7").
  - apply list_elem_of_here.
  - reflexivity.
  - reflexivity.
Defined.

(** * Further properties of the code *)

(** ** The alert history file *)

Lemma find_index_none alertId alerts :
  alertId ∉ map a_id alerts -> Storage.find_index alertId alerts = None.
Proof.
  induction alerts as [|a alerts IH]; cbn; [done|].
  intros Hnot. apply not_elem_of_cons in Hnot as [Hne Hnot].
  destruct (String.eqb (a_id a) alertId) eqn:Heq.
  - apply String.eqb_eq in Heq. congruence.
  - by rewrite IH.
Qed.

Lemma find_index_first alertId alerts i a :
  alerts !! i = Some a -> a_id a = alertId ->
  (forall j b, (j < i)%nat -> alerts !! j = Some b -> a_id b <> alertId) ->
  Storage.find_index alertId alerts = Some i.
Proof.
  revert i. induction alerts as [|x alerts IH]; intros i Hi Hid Hfirst; [done|].
  cbn. destruct i as [|i].
  - cbn in Hi. injection Hi as ->. by rewrite Hid, String.eqb_refl.
  - assert (Hx : String.eqb (a_id x) alertId = false).
    { apply String.eqb_neq. apply (Hfirst 0%nat x); [lia|done]. }
    rewrite Hx, (IH i); [done|done|done|].
    intros j b Hj Hb. apply (Hfirst (S j) b); [lia|done].
Qed.

Lemma save_short (alerts : list AlertEvent) :
  (length alerts <= 1000)%nat -> Storage.saveAlertHistory alerts = alerts.
Proof. intros H. by apply slice_last_short. Qed.

(** X1. Acknowledging by id rewrites exactly one entry of a history
    of at most 1000 alerts, the first one stored under that id, and
    only its acknowledgement fields; every other entry, the order and
    the ids stay as they are. An id that no entry carries leaves the
    file untouched and returns nothing. *)
Theorem acknowledge_changes_one_entry (clk : Clock) (alertId by_ : string)
    (file : list AlertEvent) :
  (length file <= 1000)%nat ->
  (alertId ∉ map a_id file ->
   Storage.acknowledgeAlert clk alertId by_ file = (file, None)) /\
  (forall i a,
     file !! i = Some a -> a_id a = alertId ->
     (forall j b, (j < i)%nat -> file !! j = Some b -> a_id b <> alertId) ->
     Storage.acknowledgeAlert clk alertId by_ file
     = (<[i := Storage.acknowledge_event clk by_ a]> file,
        Some (Storage.acknowledge_event clk by_ a)) /\
     a_alert (Storage.acknowledge_event clk by_ a) = a_alert a /\
     map a_id (<[i := Storage.acknowledge_event clk by_ a]> file) = map a_id file).
Proof.
  intros Hlen. split.
  - intros Hnot. unfold Storage.acknowledgeAlert, Storage.loadAlertHistory.
    by rewrite find_index_none.
  - intros i a Hi Hid Hfirst. split; [|split; [done|]].
    + unfold Storage.acknowledgeAlert, Storage.loadAlertHistory.
      rewrite (find_index_first alertId file i a) by done. rewrite Hi.
      rewrite save_short; [done|]. by rewrite length_insert.
    + rewrite list_fmap_insert. cbn. apply list_insert_id.
      by rewrite list_lookup_fmap, Hi.
Qed.

Lemma acknowledge_changes_one_entry_witness :
  Storage.acknowledgeAlert monday_morning "2" "ann"
    [stored_alert "1" AOffline; stored_alert "2" ABackOnline; stored_alert "2" AOffline]
  = ([stored_alert "1" AOffline;
      Storage.acknowledge_event monday_morning "ann" (stored_alert "2" ABackOnline);
      stored_alert "2" AOffline],
     Some (Storage.acknowledge_event monday_morning "ann" (stored_alert "2" ABackOnline))).
Proof.
  destruct (acknowledge_changes_one_entry monday_morning "2" "ann"
              [stored_alert "1" AOffline; stored_alert "2" ABackOnline;
               stored_alert "2" AOffline]) as (_ & H); [cbn; lia|].
  destruct (H 1%nat (stored_alert "2" ABackOnline)) as (Heq & _); [done|done| |exact Heq].
  intros [|j] b Hj; [|lia]. by intros [= <-].
Defined.

(** The two outcomes of [acknowledgeAlert] on a file of at most 1000
    alerts. *)
Lemma acknowledgeAlert_cases clk alertId by_ file :
  (length file <= 1000)%nat ->
  fst (Storage.acknowledgeAlert clk alertId by_ file) = file \/
  exists k a,
    file !! k = Some a /\ a_id a = alertId /\
    (forall j b, (j < k)%nat -> file !! j = Some b -> a_id b <> alertId) /\
    fst (Storage.acknowledgeAlert clk alertId by_ file)
    = <[k := Storage.acknowledge_event clk by_ a]> file.
Proof.
  intros Hlen. unfold Storage.acknowledgeAlert, Storage.loadAlertHistory.
  destruct (Storage.find_index alertId file) as [k|] eqn:Hk; [|by left].
  pose proof (find_index_min _ _ _ Hk) as Hmin.
  apply find_index_spec in Hk as (a & Ha & Hid). rewrite Ha. right.
  exists k, a. repeat (split; [done|]). cbn [fst].
  apply save_short. by rewrite length_insert.
Qed.

(** X2. Adding an alert and deleting it again by its id gives back
    the history as it was, provided the history has room (fewer than
    1000 entries) and no older entry carries the same id. When an
    older entry does carry the id, it is that older entry which is
    deleted and the new one stays. *)
Theorem add_then_delete (clk : Clock) (alert : AlertInput) (file : list AlertEvent) :
  (length file < 1000)%nat ->
  (pretty (ms clk) ∉ map a_id file ->
   Storage.deleteAlert (pretty (ms clk)) (fst (Storage.addAlert clk alert file))
   = (file, true)) /\
  (forall i a,
     file !! i = Some a -> a_id a = pretty (ms clk) ->
     (forall j b, (j < i)%nat -> file !! j = Some b -> a_id b <> pretty (ms clk)) ->
     Storage.deleteAlert (pretty (ms clk)) (fst (Storage.addAlert clk alert file))
     = (delete i file ++ [Storage.new_event clk alert], true)).
Proof.
  intros Hlen.
  assert (Hadd : fst (Storage.addAlert clk alert file)
                 = file ++ [Storage.new_event clk alert]).
  { unfold Storage.addAlert, Storage.loadAlertHistory. cbn [fst].
    apply save_short. rewrite length_app. cbn. lia. }
  rewrite Hadd. unfold Storage.deleteAlert, Storage.loadAlertHistory. split.
  - intros Hfresh.
    rewrite (find_index_first _ _ (length file) (Storage.new_event clk alert)).
    + rewrite (delete_middle file []), app_nil_r. by rewrite save_short by lia.
    + by rewrite list_lookup_middle.
    + done.
    + intros j b Hj Hb Hid. rewrite lookup_app_l in Hb by done.
      apply Hfresh. rewrite <- Hid. apply list_elem_of_fmap_2'  with b; [|done].
      by eapply list_elem_of_lookup_2.
  - intros i a Hi Hid Hfirst.
    assert (Hlt : (i < length file)%nat) by (by eapply lookup_lt_Some).
    rewrite (find_index_first _ _ i a).
    + rewrite delete_take_drop, take_app_le, drop_app_le by lia.
      rewrite app_assoc, <- delete_take_drop.
      rewrite save_short; [done|]. rewrite length_app, length_delete by eauto. cbn. lia.
    + by rewrite lookup_app_l.
    + done.
    + intros j b Hj Hb. rewrite lookup_app_l in Hb by lia. by eapply Hfirst.
Qed.

Lemma add_then_delete_witness :
  Storage.deleteAlert (pretty (ms monday_morning))
    (fst (Storage.addAlert monday_morning (a_alert (stored_alert "1" AOffline))
            [stored_alert "1" AOffline; stored_alert "2" ABackOnline]))
  = ([stored_alert "1" AOffline; stored_alert "2" ABackOnline], true).
Proof.
  apply (add_then_delete monday_morning (a_alert (stored_alert "1" AOffline))
           [stored_alert "1" AOffline; stored_alert "2" ABackOnline]).
  - cbn. lia.
  - vm_compute. intros H. repeat (apply elem_of_cons in H as [H|H]; [discriminate H|]).
    by apply elem_of_nil in H.
Defined.

Lemma acknowledged_by_user_id clk a : a_id (acknowledged_by_user clk a) = a_id a.
Proof. unfold acknowledged_by_user. by destruct (a_acknowledged a). Qed.

Lemma acknowledged_by_user_done clk a :
  a_acknowledged (acknowledged_by_user clk a) = true.
Proof. unfold acknowledged_by_user. by destruct (a_acknowledged a) eqn:H. Qed.

(** The loop of acknowledge-all, with the part of the list already
    treated in front. *)
Lemma acknowledge_all_loop clk (done todo : list AlertEvent) (count : Z) :
  NoDup (map a_id (done ++ todo)) ->
  (length (done ++ todo) <= 1000)%nat ->
  foldl (Engine.acknowledge_all_step clk)
    (map (acknowledged_by_user clk) done ++ todo, count) todo
  = (map (acknowledged_by_user clk) (done ++ todo),
     count + Z.of_nat (length (filter (fun a => a_acknowledged a = false) todo))).
Proof.
  revert done count. induction todo as [|x todo IH]; intros done count Hnd Hlen.
  - cbn. rewrite !app_nil_r. f_equal. lia.
  - cbn [foldl]. unfold Engine.acknowledge_all_step at 2. cbn [fst snd].
    assert (Hshift : done ++ x :: todo = (done ++ [x]) ++ todo) by by rewrite <- app_assoc.
    destruct (a_acknowledged x) eqn:Hx.
    + rewrite filter_cons_False by (rewrite Hx; done).
      rewrite Hshift. rewrite <- (IH (done ++ [x]) count) by (by rewrite <- Hshift).
      f_equal. f_equal. rewrite map_app, <- app_assoc. cbn.
      unfold acknowledged_by_user at 3. by rewrite Hx.
    + rewrite filter_cons_True by done. cbn [length].
      unfold Storage.acknowledgeAlert, Storage.loadAlertHistory.
      rewrite (find_index_first _ _ (length (map (acknowledged_by_user clk) done)) x).
      * rewrite list_lookup_middle by done.
        rewrite (insert_app_r_alt _ _ (length _)) by lia.
        rewrite Nat.sub_diag. cbn [fst].
        rewrite save_short.
        2:{ rewrite length_app, length_map. cbn. rewrite length_app in Hlen.
            cbn in Hlen. lia. }
        replace (count + Z.of_nat (S (length (filter (fun a => a_acknowledged a = false) todo))))
          with ((count + 1)
                + Z.of_nat (length (filter (fun a => a_acknowledged a = false) todo)))
          by lia.
        rewrite Hshift. rewrite <- (IH (done ++ [x]) (count + 1)) by (by rewrite <- Hshift).
        f_equal. f_equal. rewrite map_app, <- app_assoc. cbn.
        unfold acknowledged_by_user at 3. by rewrite Hx.
      * by rewrite list_lookup_middle.
      * done.
      * intros j b Hj Hb Hid. rewrite lookup_app_l in Hb by done.
        rewrite length_map in Hj.
        apply list_lookup_fmap_Some in Hb as (b0 & -> & Hb0).
        rewrite acknowledged_by_user_id in Hid.
        rewrite map_app in Hnd. apply NoDup_app in Hnd as (_ & Hdisj & _).
        apply (Hdisj (a_id x)).
        -- rewrite <- Hid. apply list_elem_of_fmap_2. by eapply list_elem_of_lookup_2.
        -- cbn. apply list_elem_of_here.
Qed.

Lemma all_acknowledged_count (file : list AlertEvent) :
  Forall (fun a => a_acknowledged a = true) file ->
  Storage.getUnacknowledgedCount file = 0%nat.
Proof.
  unfold Storage.getUnacknowledgedCount, Storage.loadAlertHistory.
  induction 1 as [|a l Ha _ IH]; [done|].
  rewrite filter_cons_False by (by rewrite Ha). exact IH.
Qed.

(** X3. When the ids of the stored alerts are pairwise different (and
    there are at most 1000), acknowledge-all leaves every alert
    acknowledged, reports the number that were not yet acknowledged,
    brings the unacknowledged count to zero, and, unlike the
    acknowledgement of a single alert, leaves the cooldown map as it
    is. *)
Theorem acknowledge_all_distinct_ids (clk : Clock) (st : Server) :
  NoDup (map a_id (alertFile st)) ->
  (length (alertFile st) <= 1000)%nat ->
  let r := Engine.post_acknowledge_all clk st in
  alertFile (fst r) = map (acknowledged_by_user clk) (alertFile st) /\
  Forall (fun a => a_acknowledged a = true) (alertFile (fst r)) /\
  snd r = Z.of_nat (Storage.getUnacknowledgedCount (alertFile st)) /\
  Storage.getUnacknowledgedCount (alertFile (fst r)) = 0%nat /\
  alertCooldown (fst r) = alertCooldown st.
Proof.
  intros Hnd Hlen. cbn zeta. unfold Engine.post_acknowledge_all, Storage.loadAlertHistory.
  pose proof (acknowledge_all_loop clk [] (alertFile st) 0 Hnd Hlen) as Hloop.
  cbn [map app] in Hloop. rewrite Hloop. cbn [fst snd alertFile alertCooldown with_alertFile].
  assert (Hall : Forall (fun a => a_acknowledged a = true)
                   (map (acknowledged_by_user clk) (alertFile st))).
  { apply Forall_fmap, Forall_forall. intros a _. apply acknowledged_by_user_done. }
  split; [done|]. split; [done|]. split; [done|]. split; [|done].
  by apply all_acknowledged_count.
Qed.

Lemma acknowledge_all_distinct_ids_witness :
  map a_acknowledged
    (alertFile (fst (Engine.post_acknowledge_all one_second_later after_drop)))
  = [true; true] /\
  snd (Engine.post_acknowledge_all one_second_later after_drop) = 2.
Proof.
  destruct (acknowledge_all_distinct_ids one_second_later after_drop)
    as (Hfile & _ & Hcount & _).
  - assert (Hids : map a_id (alertFile after_drop) = ["120000"; "180000"]%string)
      by (vm_compute; reflexivity).
    rewrite Hids. apply NoDup_cons. split.
    + intros H. apply elem_of_cons in H as [H|H]; [discriminate H|by apply elem_of_nil in H].
    + apply NoDup_singleton.
  - assert (Hl : length (alertFile after_drop) = 2%nat) by (vm_compute; reflexivity).
    rewrite Hl. lia.
  - split.
    + rewrite Hfile. vm_compute. reflexivity.
    + rewrite Hcount. vm_compute. reflexivity.
Defined.

Lemma acknowledgeAlert_keeps_shadowed clk alertId by_ i j b file :
  (i < j)%nat -> shadowed i j b file ->
  shadowed i j b (fst (Storage.acknowledgeAlert clk alertId by_ file)).
Proof.
  intros Hij (Hlen & (a & Ha & Hid) & Hb).
  destruct (acknowledgeAlert_cases clk alertId by_ file Hlen)
    as [->|(k & a0 & Hk & Hid0 & Hfirst & ->)].
  - by repeat split; eauto.
  - assert (Hkj : k <> j).
    { intros ->. rewrite Hb in Hk. injection Hk as <-.
      apply (Hfirst i a Hij Ha). congruence. }
    split; [by rewrite length_insert|]. split.
    + destruct (decide (k = i)) as [->|Hki].
      * rewrite Ha in Hk. injection Hk as <-.
        exists (Storage.acknowledge_event clk by_ a). split; [|done].
        apply list_lookup_insert_eq. by eapply lookup_lt_Some.
      * exists a. by rewrite list_lookup_insert_ne.
    + by rewrite list_lookup_insert_ne.
Qed.

(** X4. An alert stored behind another alert with the same id (two
    alerts created within the same millisecond) can never be
    acknowledged: neither an acknowledgement by any id nor
    acknowledge-all changes it. *)
Theorem shadowed_alert_is_never_acknowledged (clk : Clock) (st : Server)
    (i j : nat) (a b : AlertEvent) :
  (length (alertFile st) <= 1000)%nat ->
  (i < j)%nat ->
  alertFile st !! i = Some a ->
  alertFile st !! j = Some b ->
  a_id a = a_id b ->
  (forall alertId by_,
     fst (Storage.acknowledgeAlert clk alertId by_ (alertFile st)) !! j = Some b) /\
  alertFile (fst (Engine.post_acknowledge_all clk st)) !! j = Some b.
Proof.
  intros Hlen Hij Ha Hb Hid.
  assert (Hsh : shadowed i j b (alertFile st)) by (by repeat split; eauto).
  split.
  - intros alertId by_.
    by destruct (acknowledgeAlert_keeps_shadowed clk alertId by_ i j b _ Hij Hsh) as (_ & _ & ?).
  - unfold Engine.post_acknowledge_all, Storage.loadAlertHistory.
    assert (Hloop : forall todo acc,
              shadowed i j b (fst acc) ->
              shadowed i j b (fst (foldl (Engine.acknowledge_all_step clk) acc todo))).
    { induction todo as [|x todo IH]; intros acc Hacc; [done|].
      cbn [foldl]. apply IH. unfold Engine.acknowledge_all_step.
      destruct (a_acknowledged x); [done|]. cbn [fst].
      by apply acknowledgeAlert_keeps_shadowed. }
    specialize (Hloop (alertFile st) (alertFile st, 0) Hsh).
    destruct (foldl _ _ _) as [file count]. cbn [fst alertFile with_alertFile] in *.
    by destruct Hloop as (_ & _ & ?).
Qed.

Lemma shadowed_alert_is_never_acknowledged_witness :
  let st := boot DEFAULT_CONFIG [] in
  let file := [stored_alert "7" AOffline; stored_alert "7" ABackOnline] in
  alertFile (fst (Engine.post_acknowledge_all monday_morning
                    (with_alertFile file st))) !! 1%nat
  = Some (stored_alert "7" ABackOnline) /\
  snd (Engine.post_acknowledge_all monday_morning (with_alertFile file st)) = 2.
Proof.
  cbn zeta. split; [|vm_compute; reflexivity].
  apply (shadowed_alert_is_never_acknowledged monday_morning
           (with_alertFile [stored_alert "7" AOffline; stored_alert "7" ABackOnline]
              (boot DEFAULT_CONFIG []))
           0 1 (stored_alert "7" AOffline) (stored_alert "7" ABackOnline));
    [cbn; lia | lia | reflexivity | reflexivity | reflexivity].
Defined.

(** ** Input trays and device errors *)

Lemma foldl_invariant {A B} (P : A -> Prop) (f : A -> B -> A) (l : list B) (a : A) :
  P a -> (forall a b, P a -> P (f a b)) -> P (foldl f a l).
Proof. intros Ha Hf. revert a Ha. induction l as [|b l IH]; cbn; auto. Qed.

(** One turn of the tray loop either skips the row or appends one tray
    whose lower-cased name is new. *)
Lemma tray_step_cases names maxs curs stats medias acc i :
  Poller.tray_step names maxs curs stats medias acc i = acc \/
  exists raw t,
    names !! i = Some raw /\
    Poller.tray_step names maxs curs stats medias acc i = acc ++ [t] /\
    tray_from maxs curs i raw t /\
    (forall m, t_mediaName t = Some m ->
               JS.is_empty m = false /\ Poller.signed_digits m = false) /\
    JS.toLowerCase (t_name t) ∉ map (fun t' => JS.toLowerCase (t_name t')) acc.
Proof.
  unfold Poller.tray_step. cbv zeta.
  destruct (names !! i) as [raw|] eqn:Hraw; cbn [from_option id]; [|left; reflexivity].
  destruct (JS.is_empty raw); cbn [orb]; [by left|].
  destruct (String.length (JS.trim raw) <? 3)%nat eqn:Hlen; cbn [orb]; [by left|].
  destruct (Poller.decimal_only (JS.trim raw)) eqn:Hdec; [by left|].
  destruct (Poller.has_control raw) eqn:Hctl; [by left|].
  destruct (Poller.is_tray (JS.trim (JS.toLowerCase raw))) eqn:Htray; cbn [negb]; [|by left].
  destruct (existsb _ acc) eqn:Hdup; [by left|].
  right. eexists raw, _. split; [done|]. split; [reflexivity|].
  apply Nat.ltb_ge in Hlen. split; [by repeat split|]. split.
  - cbn [t_mediaName]. intros m. destruct (medias !! i) as [m0|]; [|done].
    destruct (JS.is_empty m0) eqn:He; cbn [negb andb]; [done|].
    destruct (Poller.signed_digits m0) eqn:Hs; cbn [negb]; [done|].
    by intros [= <-].
  - cbn [t_name]. intros Hin. apply list_elem_of_fmap in Hin as (t' & Heq & Hin).
    assert (Htrue : existsb (fun t => String.eqb (JS.toLowerCase (t_name t))
                                        (JS.toLowerCase (JS.trim raw))) acc = true).
    { apply existsb_exists. exists t'. split; [by apply list_elem_of_In|].
      apply String.eqb_eq. by rewrite Heq. }
    congruence.
Qed.

Lemma process_trays_ok names maxs curs stats medias :
  trays_ok names maxs curs (Poller.process_trays names maxs curs stats medias).
Proof.
  unfold Poller.process_trays. apply foldl_invariant.
  - split; [apply NoDup_nil_2|apply Forall_nil_2].
  - intros acc i (Hnd & Hall).
    destruct (tray_step_cases names maxs curs stats medias acc i)
      as [->|(raw & t & Hraw & -> & Hfrom & Hmedia & Hnew)]; [done|].
    split.
    + rewrite map_app. apply NoDup_app. split; [done|]. split; [|apply NoDup_singleton].
      intros x Hx Hx'. cbn in Hx'. apply list_elem_of_singleton in Hx' as ->. done.
    + apply Forall_app. split; [done|]. apply Forall_singleton. eauto.
Qed.

Lemma snapshot_trays_ok a clk addr :
  trays_ok (snmpWalk a oid_inputTrayName) (snmpWalk a oid_inputTrayCapacityMax)
    (snmpWalk a oid_inputTrayCapacityCurrent) (trays (Poller.queryPrinter a clk addr)).
Proof.
  unfold Poller.queryPrinter. destruct (JS.truthy _); cbn [trays Poller.set_offline Poller.initial].
  - apply process_trays_ok.
  - split; [apply NoDup_nil_2|apply Forall_nil_2].
Qed.

(** One turn of the tray loop, by the row it meets: a row that fails
    the filter is skipped, a valid row whose name is already there is
    skipped, and any other valid row is appended. *)
Lemma tray_step_first names maxs curs stats medias acc i :
  ((forall raw, names !! i = Some raw -> valid_tray_row raw = false) /\
   Poller.tray_step names maxs curs stats medias acc i = acc) \/
  (exists raw,
     names !! i = Some raw /\ valid_tray_row raw = true /\
     JS.toLowerCase (JS.trim raw) ∈ map (fun t => JS.toLowerCase (t_name t)) acc /\
     Poller.tray_step names maxs curs stats medias acc i = acc) \/
  (exists raw t,
     names !! i = Some raw /\ valid_tray_row raw = true /\
     Poller.tray_step names maxs curs stats medias acc i = acc ++ [t] /\
     tray_from maxs curs i raw t /\
     JS.toLowerCase (t_name t) ∉ map (fun t' => JS.toLowerCase (t_name t')) acc).
Proof.
  unfold Poller.tray_step. cbv zeta.
  destruct (names !! i) as [raw|] eqn:Hraw; cbn [from_option id];
    [|left; split; [done|reflexivity]].
  destruct (JS.is_empty raw) eqn:He; cbn [orb];
    [left; split; [intros ? [= <-]; unfold valid_tray_row; by rewrite He|done]|].
  destruct (String.length (JS.trim raw) <? 3)%nat eqn:Hlen; cbn [orb];
    [left; split; [intros ? [= <-]; unfold valid_tray_row; by rewrite He, Hlen|done]|].
  destruct (Poller.decimal_only (JS.trim raw)) eqn:Hdec;
    [left; split; [intros ? [= <-]; unfold valid_tray_row; by rewrite He, Hlen, Hdec|done]|].
  destruct (Poller.has_control raw) eqn:Hctl;
    [left; split;
     [intros ? [= <-]; unfold valid_tray_row; by rewrite He, Hlen, Hdec, Hctl|done]|].
  destruct (Poller.is_tray (JS.trim (JS.toLowerCase raw))) eqn:Htray; cbn [negb];
    [|left; split;
      [intros ? [= <-]; unfold valid_tray_row; by rewrite He, Hlen, Hdec, Hctl, Htray|done]].
  assert (Hval : valid_tray_row raw = true)
    by (unfold valid_tray_row; by rewrite He, Hlen, Hdec, Hctl, Htray).
  right. destruct (existsb _ acc) eqn:Hdup.
  - left. exists raw. do 2 (split; [done|]). split; [|done].
    apply existsb_exists in Hdup as (t' & Hin & Heq%String.eqb_eq).
    apply list_elem_of_fmap. exists t'. split; [done|by apply list_elem_of_In].
  - right. eexists raw, _. do 2 (split; [done|]). split; [reflexivity|].
    apply Nat.ltb_ge in Hlen. split; [by repeat split|].
    cbn [t_name]. intros Hin. apply list_elem_of_fmap in Hin as (t' & Heq & Hin).
    assert (Htrue : existsb (fun t => String.eqb (JS.toLowerCase (t_name t))
                                        (JS.toLowerCase (JS.trim raw))) acc = true).
    { apply existsb_exists. exists t'. split; [by apply list_elem_of_In|].
      apply String.eqb_eq. by rewrite Heq. }
    congruence.
Qed.

Lemma tray_loop_first names maxs curs stats medias n :
  trays_first names maxs curs n
    (foldl (Poller.tray_step names maxs curs stats medias) [] (seq 0 n)).
Proof.
  induction n as [|n IH].
  - split; [apply NoDup_nil_2|]. split; [apply Forall_nil_2|]. intros j raw' Hj. lia.
  - rewrite seq_S, foldl_app. cbn [foldl plus].
    set (acc := foldl _ [] (seq 0 n)) in *.
    destruct IH as (Hnd & Hall & Hcov).
    assert (Hall' : Forall (fun t =>
              exists i raw,
                (i < S n)%nat /\ names !! i = Some raw /\ tray_from maxs curs i raw t /\
                forall j raw', (j < i)%nat -> names !! j = Some raw' ->
                               valid_tray_row raw' = true ->
                               JS.toLowerCase (JS.trim raw') <> JS.toLowerCase (t_name t))
              acc).
    { eapply Forall_impl; [exact Hall|]. intros t (i & raw & Hi & H). exists i, raw.
      split; [lia|done]. }
    destruct (tray_step_first names maxs curs stats medias acc n)
      as [[Hbad ->]|[(raw & Hraw & Hval & Hin & ->)|(raw & t & Hraw & Hval & -> & Hfrom & Hnew)]].
    + split; [done|]. split; [done|]. intros j raw' Hj Hr Hv.
      destruct (decide (j = n)) as [->|Hne]; [|apply (Hcov j raw'); [lia|done|done]].
      rewrite (Hbad raw' Hr) in Hv. done.
    + split; [done|]. split; [done|]. intros j raw' Hj Hr Hv.
      destruct (decide (j = n)) as [->|Hne]; [|apply (Hcov j raw'); [lia|done|done]].
      rewrite Hraw in Hr. by injection Hr as <-.
    + split; [|split].
      * rewrite map_app. apply NoDup_app. split; [done|]. split; [|apply NoDup_singleton].
        intros x Hx Hx'. cbn in Hx'. apply list_elem_of_singleton in Hx' as ->. done.
      * apply Forall_app. split; [done|]. apply Forall_singleton.
        exists n, raw. split; [lia|]. do 2 (split; [done|]).
        intros j raw' Hj Hr Hv Heq. apply Hnew. rewrite <- Heq. by apply (Hcov j raw').
      * intros j raw' Hj Hr Hv. rewrite map_app. apply elem_of_app.
        destruct (decide (j = n)) as [->|Hne]; [|left; apply (Hcov j raw'); [lia|done|done]].
        right. rewrite Hraw in Hr. injection Hr as <-. cbn.
        destruct Hfrom as (-> & _). apply list_elem_of_here.
Qed.

(** X5. Within one snapshot no two trays have the same name up to
    letter case: of several rows with the same trimmed name only the
    first is kept. Every tray is built, name and capacities, from a
    row of the name walk that passes the filter and that no earlier
    such row of the same name precedes, and every row that passes the
    filter has its name among the trays. *)
Theorem tray_names_unique (a : Agent) (clk : Clock) (addr : string) :
  let names := snmpWalk a oid_inputTrayName in
  let ts := trays (Poller.queryPrinter a clk addr) in
  NoDup (map (fun t => JS.toLowerCase (t_name t)) ts) /\
  (forall t,
     t ∈ ts ->
     exists i raw,
       names !! i = Some raw /\ valid_tray_row raw = true /\
       tray_from (snmpWalk a oid_inputTrayCapacityMax)
         (snmpWalk a oid_inputTrayCapacityCurrent) i raw t /\
       forall j raw', (j < i)%nat -> names !! j = Some raw' ->
                      valid_tray_row raw' = true ->
                      JS.toLowerCase (JS.trim raw') <> JS.toLowerCase (t_name t)) /\
  (forall j raw',
     JS.truthy (snmpGet a oid_description) = true ->
     names !! j = Some raw' -> valid_tray_row raw' = true ->
     exists t, t ∈ ts /\ JS.toLowerCase (t_name t) = JS.toLowerCase (JS.trim raw')).
Proof.
  cbn zeta. unfold Poller.queryPrinter.
  destruct (JS.truthy (snmpGet a oid_description));
    cbn [trays Poller.set_offline Poller.initial].
  - destruct (tray_loop_first (snmpWalk a oid_inputTrayName)
                (snmpWalk a oid_inputTrayCapacityMax)
                (snmpWalk a oid_inputTrayCapacityCurrent)
                (snmpWalk a oid_inputTrayStatus) (snmpWalk a oid_inputTrayMediaName)
                (length (snmpWalk a oid_inputTrayName))) as (Hnd & Hall & Hcov).
    fold (Poller.process_trays (snmpWalk a oid_inputTrayName)
            (snmpWalk a oid_inputTrayCapacityMax) (snmpWalk a oid_inputTrayCapacityCurrent)
            (snmpWalk a oid_inputTrayStatus) (snmpWalk a oid_inputTrayMediaName))
      in Hnd, Hall, Hcov.
    split; [done|]. split.
    + intros t Ht. rewrite Forall_forall in Hall.
      destruct (Hall t Ht) as (i & raw & _ & Hraw & Hfrom & Hfirst).
      exists i, raw. split; [done|]. split; [|done].
      destruct Hfrom as (_ & Hlen & Hdec & Hctl & Htray & _).
      unfold valid_tray_row. rewrite Hdec, Hctl, Htray.
      apply Nat.ltb_ge in Hlen. rewrite Hlen.
      destruct (JS.is_empty raw) eqn:He; [|done].
      destruct raw; [cbn in Hlen; done|done].
    + intros j raw' _ Hr Hv.
      assert (Hj : (j < length (snmpWalk a oid_inputTrayName))%nat)
        by (by eapply lookup_lt_Some).
      specialize (Hcov j raw' Hj Hr Hv).
      apply list_elem_of_fmap in Hcov as (t & Heq & Ht). by exists t.
  - split; [apply NoDup_nil_2|]. split; [by intros t ?%elem_of_nil|]. by intros.
Qed.

(** X6. Every tray of a snapshot comes from a row of the tray name
    walk: its name is the trimmed raw name, which has at least 3
    characters, is not a plain number, contains no control character
    and contains one of the tray keywords; a row failing any of these
    is never stored. *)
Theorem trays_are_valid_rows (a : Agent) (clk : Clock) (addr : string) (t : Tray) :
  t ∈ trays (Poller.queryPrinter a clk addr) ->
  exists i raw,
    snmpWalk a oid_inputTrayName !! i = Some raw /\
    t_name t = JS.trim raw /\
    (3 <= String.length (JS.trim raw))%nat /\
    Poller.decimal_only (JS.trim raw) = false /\
    Poller.has_control raw = false /\
    Poller.is_tray (JS.trim (JS.toLowerCase raw)) = true.
Proof.
  intros Hin. destruct (snapshot_trays_ok a clk addr) as (_ & Hall).
  apply (proj1 (Forall_forall _ _) Hall) in Hin as ((i & raw & Hraw & Hfrom) & _).
  destruct Hfrom as (? & ? & ? & ? & ? & _). by exists i, raw.
Qed.

(** X7. The capacity sentinels never reach a stored tray: a maximum
    capacity or a current level, when present, is a positive count; a
    tray with a current level has no capacity status; and a media name,
    when present, is neither empty nor a (signed) number. *)
Theorem tray_capacity_invariant (a : Agent) (clk : Clock) (addr : string) (t : Tray) :
  t ∈ trays (Poller.queryPrinter a clk addr) ->
  (forall z, t_maxCapacity t = Some z -> 0 < z) /\
  (forall z, t_currentLevel t = Some z -> 0 < z /\ t_capacityStatus t = None) /\
  (forall m, t_mediaName t = Some m ->
             JS.is_empty m = false /\ Poller.signed_digits m = false).
Proof.
  intros Hin. destruct (snapshot_trays_ok a clk addr) as (_ & Hall).
  apply (proj1 (Forall_forall _ _) Hall) in Hin as ((i & raw & _ & Hfrom) & Hmedia).
  destruct Hfrom as (_ & _ & _ & _ & _ & Hmax & Hcur & Hst).
  split; [|split; [|done]].
  - intros z. rewrite Hmax. unfold Poller.positive.
    destruct (Poller.parse_at _ _ _) as [v|]; [|done].
    destruct (0 <? v) eqn:Hv; [|done]. intros [= <-]. by apply Z.ltb_lt.
  - intros z. rewrite Hcur, Hst. unfold Poller.positive, Poller.capacity_status.
    destruct (Poller.parse_at (snmpWalk a oid_inputTrayCapacityCurrent) i (-1)) as [v|];
      [|intros [=]].
    destruct (0 <? v) eqn:Hv; [|intros [=]]. intros [= <-].
    split; [by apply Z.ltb_lt|reflexivity].
Qed.

Example tray_agent_trays :
  trays (Poller.queryPrinter tray_agent clock0 "10.0.0.9") = [tray_one; bypass_tray].
Proof. vm_compute. reflexivity. Qed.

Lemma trays_are_valid_rows_witness :
  exists i raw,
    snmpWalk tray_agent oid_inputTrayName !! i = Some raw /\
    t_name bypass_tray = JS.trim raw /\
    (3 <= String.length (JS.trim raw))%nat /\
    Poller.decimal_only (JS.trim raw) = false /\
    Poller.has_control raw = false /\
    Poller.is_tray (JS.trim (JS.toLowerCase raw)) = true.
Proof.
  apply (trays_are_valid_rows tray_agent clock0 "10.0.0.9" bypass_tray).
  rewrite tray_agent_trays. apply list_elem_of_further, list_elem_of_here.
Defined.

Lemma tray_capacity_invariant_witness :
  (forall z, t_maxCapacity tray_one = Some z -> 0 < z) /\
  (forall z, t_currentLevel tray_one = Some z -> 0 < z /\ t_capacityStatus tray_one = None) /\
  (forall m, t_mediaName tray_one = Some m ->
             JS.is_empty m = false /\ Poller.signed_digits m = false).
Proof.
  apply (tray_capacity_invariant tray_agent clock0 "10.0.0.9" tray_one).
  rewrite tray_agent_trays. apply list_elem_of_here.
Defined.

Lemma error_loop clk severities descriptions n acc :
  (n <= length severities)%nat ->
  foldl (Poller.error_step clk severities descriptions) acc (seq 0 n)
  = acc ++ omap (error_at clk severities descriptions) (seq 0 n).
Proof.
  induction n as [|n IH]; intros Hn.
  - cbn. by rewrite app_nil_r.
  - rewrite seq_S, foldl_app, omap_app, IH, app_assoc by lia. cbn.
    unfold Poller.error_step, error_at, Poller.parse_at.
    destruct (lookup_lt_is_Some_2 severities n) as [sev Hsev]; [lia|]. rewrite Hsev.
    destruct (JS.parseInt sev) as [[|[[?|?|]|[?|?|]|]|?]|]; cbn; by rewrite ?app_nil_r.
Qed.

(** X8. The errors of a snapshot are the rows of the alert table whose
    severity code reads 2 (critical) or 3 (warning), in table order;
    every other row, also one whose severity is not a number, is left
    out. A row beyond the end of the description walk is described as
    "Unknown alert". *)
Theorem errors_are_critical_or_warning (clk : Clock) (severities descriptions : list string)
    (e : DeviceError) :
  Poller.process_errors clk severities descriptions
  = omap (error_at clk severities descriptions) (seq 0 (length severities)) /\
  (e ∈ Poller.process_errors clk severities descriptions <->
   exists i sev,
     severities !! i = Some sev /\
     (JS.parseInt sev = JS.Int 2 /\ e_severity e = Critical \/
      JS.parseInt sev = JS.Int 3 /\ e_severity e = Warning) /\
     e_description e = default "Unknown alert"%string (descriptions !! i) /\
     e_timestamp e = iso clk).
Proof.
  assert (Heq : Poller.process_errors clk severities descriptions
                = omap (error_at clk severities descriptions) (seq 0 (length severities))).
  { unfold Poller.process_errors. by rewrite error_loop. }
  split; [done|]. rewrite Heq, list_elem_of_omap. split.
  - intros (i & _ & Hat). unfold error_at in Hat.
    destruct (severities !! i) as [sev|] eqn:Hsev; [|done].
    exists i, sev. split; [done|].
    destruct (JS.parseInt sev) as [[|[[?|?|]|[?|?|]|]|?]|]; try done;
      injection Hat as <-; cbn; auto.
  - intros (i & sev & Hsev & Hcode & Hdesc & Hts). exists i. split.
    + apply elem_of_seq. split; [lia|]. cbn. by eapply lookup_lt_Some.
    + unfold error_at. rewrite Hsev. destruct e as [s d t]. cbn in *. subst d t.
      by destruct Hcode as [[-> ->]|[-> ->]].
Qed.

Example tray_agent_errors :
  errors (Poller.queryPrinter tray_agent clock0 "10.0.0.9")
  = [ {| e_severity := Critical; e_description := "Paper jam";
         e_timestamp := "1970-01-01T00:00:00.000Z" |};
      {| e_severity := Warning; e_description := "Unknown alert";
         e_timestamp := "1970-01-01T00:00:00.000Z" |} ].
Proof. vm_compute. reflexivity. Qed.

Lemma errors_are_critical_or_warning_witness :
  {| e_severity := Warning; e_description := "Unknown alert";
     e_timestamp := "1970-01-01T00:00:00.000Z" |}
  ∈ Poller.process_errors clock0 ["2"; "4"; "3"; "warning"]%string
      ["Paper jam"; "Sleeping"]%string.
Proof.
  apply (errors_are_critical_or_warning clock0 ["2"; "4"; "3"; "warning"]%string
           ["Paper jam"; "Sleeping"]%string).
  exists 2%nat, "3"%string. split; [reflexivity|]. split; [right; by split|by split].
Defined.

(** ** The snapshot as a whole *)

Lemma query_status_not_offline a s : Poller.query_status a = Some s -> s <> StOffline.
Proof.
  unfold Poller.query_status. destruct (Poller.numeric _); [|done].
  intros [= <-].
  destruct (Poller.DEVICE_STATUS _) as [s|] eqn:H; cbn; [|done].
  unfold Poller.DEVICE_STATUS in H. repeat case_match; congruence.
Qed.

(** X9. A snapshot is online exactly when the description query
    returned a non-empty value, and its status is "offline" exactly
    when it is not online: no answer of the status OIDs can make an
    answering device "offline", and an unreachable one is never
    anything else. The snapshot carries the address it was asked for
    and the time of the poll. *)
Theorem snapshot_online_iff_reachable (a : Agent) (clk : Clock) (addr : string) :
  let p := Poller.queryPrinter a clk addr in
  online p = JS.truthy (snmpGet a oid_description) /\
  (status p = StOffline <-> online p = false) /\
  Engine.is_offline p = negb (online p) /\
  ip p = addr /\ lastUpdate p = iso clk.
Proof.
  cbn zeta. unfold Poller.queryPrinter, Engine.is_offline.
  destruct (JS.truthy (snmpGet a oid_description));
    cbn [online status ip lastUpdate Poller.set_offline Poller.initial negb orb].
  - assert (Hs : default StUnknown (Poller.query_status a) <> StOffline).
    { destruct (Poller.query_status a) as [s|] eqn:Hq; cbn; [|done].
      by eapply query_status_not_offline. }
    split; [done|]. split; [split; [done|discriminate]|].
    split; [|done]. by apply bool_decide_eq_false.
  - repeat split; done.
Qed.

Lemma take_length n s : (String.length (JS.take n s) <= n)%nat.
Proof.
  revert s. induction n as [|n IH]; intros [|c s]; cbn; try lia.
  specialize (IH s). lia.
Qed.

Lemma truthy_nonempty v s : JS.truthy v = true -> v = Some s -> JS.is_empty s = false.
Proof. intros H ->. cbn in H. by apply negb_true_iff. Qed.

Lemma or_null_nonempty v s : Poller.or_null v = Some s -> JS.is_empty s = false.
Proof.
  unfold Poller.or_null. destruct (JS.truthy v) eqn:H; [|done].
  intros ->. by eapply truthy_nonempty.
Qed.

(** X10. The text fields of a snapshot are either null or a non-empty
    string, never the empty string: this holds of the serial number
    and of the three network identity fields whatever the device
    answers. The name and the model are the same text, at most 50
    characters long. *)
Theorem snapshot_text_fields (a : Agent) (clk : Clock) (addr : string) :
  let p := Poller.queryPrinter a clk addr in
  (forall s, serial p = Some s \/ sysName (network p) = Some s \/
             sysLocation (network p) = Some s \/ sysContact (network p) = Some s \/
             name p = Some s ->
             JS.is_empty s = false) /\
  name p = model p /\
  (forall s, name p = Some s -> (String.length s <= 50)%nat).
Proof.
  cbn zeta. unfold Poller.queryPrinter.
  destruct (JS.truthy (snmpGet a oid_description)) eqn:Hd;
    cbn [serial network name model sysName sysLocation sysContact
         Poller.set_offline Poller.initial].
  - split; [|split; [done|]].
    + intros s [H|[H|[H|[H|H]]]].
      * unfold Poller.query_serial in H. by eapply or_null_nonempty.
      * by eapply or_null_nonempty.
      * by eapply or_null_nonempty.
      * by eapply or_null_nonempty.
      * injection H as <-. destruct (snmpGet a oid_description) as [[|c d]|]; done.
    + intros s H.
      replace s with (JS.take 50 (default EmptyString (snmpGet a oid_description)))
        by congruence.
      apply take_length.
  - split; [|done]. by intros s [H|[H|[H|[H|H]]]].
Qed.

Lemma snapshot_text_fields_witness :
  JS.is_empty "HP LaserJet 4250" = false.
Proof.
  destruct (snapshot_text_fields sample_agent clock0 "10.0.0.7") as (H & _).
  apply H. right; right; right; right. reflexivity.
Defined.

(** ** Parallel walks of different lengths *)

Lemma row_at_shift n names m maxs c curs j k :
  omap (row_at (n :: names) (m :: maxs) (c :: curs)) (seq (S j) k)
  = omap (row_at names maxs curs) (seq j k).
Proof. revert j. induction k as [|k IH]; intros j; cbn; [done|]. by rewrite IH. Qed.

(** X11. The three walks of the supply table are combined row by row
    up to the end of the shortest: the supplies are what the rows of
    the zipped walks contribute, in order, so there are never more of
    them than the shortest walk has entries. *)
Theorem supplies_zip_to_shortest (names maxs curs : list string) :
  Poller.process_supplies names maxs curs
  = omap (fun r => Poller.supply_row r.1 r.2.1 r.2.2) (zip names (zip maxs curs)) /\
  (length (Poller.process_supplies names maxs curs)
   <= length names `min` (length maxs `min` length curs))%nat.
Proof.
  assert (Heq : Poller.process_supplies names maxs curs
                = omap (fun r => Poller.supply_row r.1 r.2.1 r.2.2)
                    (zip names (zip maxs curs))).
  { rewrite process_supplies_rows.
    revert maxs curs. induction names as [|n names IH]; intros maxs curs; [done|].
    destruct maxs as [|m maxs].
    { cbn [zip zip_with omap list_omap]. apply omap_none. intros i. unfold row_at.
      by destruct ((n :: names) !! i). }
    destruct curs as [|c curs].
    { cbn [zip zip_with omap list_omap]. apply omap_none. intros i. unfold row_at.
      by destruct ((n :: names) !! i), ((m :: maxs) !! i). }
    cbn [length seq]. cbn [omap list_omap zip zip_with]. 
    change (row_at (n :: names) (m :: maxs) (c :: curs) 0) with (Poller.supply_row n m c).
    rewrite row_at_shift, IH. reflexivity. }
  split; [done|]. rewrite Heq.
  assert (Hle : forall {A B} (f : A -> option B) l, (length (omap f l) <= length l)%nat).
  { intros A B f l. induction l as [|x l IHl]; cbn; [lia|]. destruct (f x); cbn; lia. }
  etrans; [apply Hle|]. rewrite !length_zip_with. lia.
Qed.

(** ** The discovery scan *)

(** X12. The batches of a scan, taken at the host numbers 1, 11, ...,
    251, probe the addresses prefix.1 to prefix.254 each exactly once
    and in order, at most 10 per batch; the last batch has the four
    hosts 251 to 254. *)
Theorem scan_batches_cover_subnet (prefix : string) :
  concat (map (Engine.batch_ips prefix) batch_starts)
  = map (fun i => prefix +:+ "." +:+ pretty i) (seqZ 1 254) /\
  Forall (fun start => (length (Engine.batch_ips prefix start) <= 10)%nat) batch_starts /\
  Engine.batch_ips prefix 251
  = map (fun i => prefix +:+ "." +:+ pretty i) [251; 252; 253; 254].
Proof.
  assert (Hb : forall start,
            Engine.batch_ips prefix start
            = map (fun i => prefix +:+ "." +:+ pretty i) (batch_hosts start)) by done.
  split; [|split].
  - transitivity (map (fun i => prefix +:+ "." +:+ pretty i)
                    (concat (map batch_hosts batch_starts))).
    + rewrite concat_map, map_map. f_equal.
    + f_equal; vm_compute; reflexivity.
  - apply Forall_forall. intros start _. rewrite Hb, length_map.
    unfold batch_hosts. etrans; [apply length_filter|]. by rewrite length_map, length_seq.
  - rewrite Hb. f_equal.
Qed.

(** Treating one answer of a batch touches the registry only. *)
Lemma scan_result_frame net clk acc x :
  let st := fst acc in
  let st' := fst (Engine.scan_result net clk acc x) in
  scanStatus st' = scanStatus st /\ scans st' = scans st /\
  alertFile st' = alertFile st /\ alertCooldown st' = alertCooldown st /\
  config st' = config st.
Proof. destruct acc as [st found]. cbn. by destruct (_ && _). Qed.

Lemma scan_results_frame net clk ips st found :
  let r := foldl (Engine.scan_result net clk) (st, found) ips in
  scanStatus (fst r) = scanStatus st /\ scans (fst r) = scans st /\
  alertFile (fst r) = alertFile st /\ alertCooldown (fst r) = alertCooldown st /\
  config (fst r) = config st.
Proof.
  cbn zeta. change st with (fst (st, found)) at 2 4 6 8 10.
  generalize (st, found). clear. induction ips as [|x ips IH]; intros acc; [done|].
  cbn [foldl]. destruct (IH (Engine.scan_result net clk acc x)) as (H1 & H2 & H3 & H4 & H5).
  destruct (scan_result_frame net clk acc x) as (F1 & F2 & F3 & F4 & F5).
  repeat split; congruence.
Qed.

(** What a batch registers depends on the registry only. *)
Lemma scan_results_printers net clk ips st1 st2 found :
  printers st1 = printers st2 ->
  printers (fst (foldl (Engine.scan_result net clk) (st1, found) ips))
  = printers (fst (foldl (Engine.scan_result net clk) (st2, found) ips)).
Proof.
  revert st1 st2 found. induction ips as [|x ips IH]; intros st1 st2 found Heq; [done|].
  cbn [foldl]. cbn [Engine.scan_result]. destruct (_ && _); apply IH; [|done].
  cbn. by rewrite Heq.
Qed.

(** A scan alone in flight with batches left sends the next batch. *)
Lemma scan_resume_continues net clk st task :
  scans st = [task] -> scanning (scanStatus st) = true -> sc_start task + 10 <= 254 ->
  exists found,
    scans (Engine.scan_resume net clk st)
    = [ {| sc_prefix := sc_prefix task; sc_start := sc_start task + 10;
           sc_found := found |} ] /\
    scanStatus (Engine.scan_resume net clk st) = scanStatus st.
Proof.
  intros Hscans Hon Hleft. unfold Engine.scan_resume. rewrite Hscans.
  pose proof (scan_results_frame net clk
                (Engine.batch_ips (sc_prefix task) (sc_start task)) st (sc_found task))
    as (Hst & _).
  destruct (foldl _ _ _) as [st' found]. cbn [fst] in Hst.
  unfold Engine.batchSize. rewrite Hst, Hon.
  destruct (Z.leb_spec (sc_start task + 10) 254); [|lia]. cbn [andb app].
  by exists found.
Qed.

(** Past the last batch, or once the flag is down, the scan ends. *)
Lemma scan_resume_finishes net clk st task :
  scans st = [task] ->
  254 < sc_start task + 10 \/ scanning (scanStatus st) = false ->
  scans (Engine.scan_resume net clk st) = [] /\
  scanStatus (Engine.scan_resume net clk st)
  = {| scanning := false; lastScan := Some (iso clk) |} /\
  printers (Engine.scan_resume net clk st)
  = printers (fst (foldl (Engine.scan_result net clk) (st, sc_found task)
                     (Engine.batch_ips (sc_prefix task) (sc_start task)))).
Proof.
  intros Hscans Hend. unfold Engine.scan_resume. rewrite Hscans.
  pose proof (scan_results_frame net clk
                (Engine.batch_ips (sc_prefix task) (sc_start task)) st (sc_found task))
    as (Hst & _).
  destruct (foldl _ _ _) as [st' found]. cbn [fst] in *.
  unfold Engine.batchSize. rewrite Hst.
  assert (Hno : (sc_start task + 10 <=? 254) && scanning (scanStatus st) = false).
  { destruct Hend as [H| ->]; [|by rewrite andb_false_r].
    by destruct (Z.leb_spec (sc_start task + 10) 254); [lia|]. }
  rewrite Hno. done.
Qed.

(** X13. A scan started on an idle server and neither cancelled nor
    joined by another scan sends its 26 batches one after the other,
    with [scanning] raised all the while, and ends with the 26th
    answer: no scan is left in flight, [scanning] is false and
    [lastScan] is the time of the end. *)
Theorem scan_runs_to_completion (net : Engine.Net) (clk : Clock) (prefix : string)
    (st : Server) :
  scans st = [] ->
  scanning (scanStatus st) = false ->
  let st0 := fst (Engine.post_scan prefix st) in
  (forall k, (k < 26)%nat ->
     exists found,
       scans (Nat.iter k (Engine.scan_resume net clk) st0)
       = [ {| sc_prefix := prefix; sc_start := 1 + 10 * Z.of_nat k; sc_found := found |} ] /\
       scanning (scanStatus (Nat.iter k (Engine.scan_resume net clk) st0)) = true) /\
  scans (Nat.iter 26 (Engine.scan_resume net clk) st0) = [] /\
  scanStatus (Nat.iter 26 (Engine.scan_resume net clk) st0)
  = {| scanning := false; lastScan := Some (iso clk) |}.
Proof.
  intros Hidle Hoff. cbn zeta.
  assert (Hstart : fst (Engine.post_scan prefix st) = Engine.scan_start prefix st).
  { unfold Engine.post_scan. by rewrite Hoff. }
  rewrite Hstart.
  assert (Hrun : forall k, (k < 26)%nat ->
            exists found,
              scans (Nat.iter k (Engine.scan_resume net clk) (Engine.scan_start prefix st))
              = [ {| sc_prefix := prefix; sc_start := 1 + 10 * Z.of_nat k;
                     sc_found := found |} ] /\
              scanning (scanStatus (Nat.iter k (Engine.scan_resume net clk)
                                      (Engine.scan_start prefix st))) = true).
  { induction k as [|k IH]; intros Hk.
    - exists []. cbn. by rewrite Hidle.
    - destruct IH as (found & Hsc & Hon); [lia|].
      destruct (scan_resume_continues net clk _ _ Hsc Hon) as (found' & Hsc' & Hst');
        [cbn; lia|].
      exists found'. rewrite !Nat.iter_succ, Hsc', Hst'. split; [|done].
      cbn [sc_prefix sc_start]. do 2 f_equal. lia. }
  split; [exact Hrun|].
  destruct (Hrun 25%nat) as (found & Hsc & Hon); [lia|].
  destruct (scan_resume_finishes net clk _ _ Hsc) as (Hend & Hst & _); [left; cbn; lia|].
  by rewrite !(Nat.iter_succ 25).
Qed.

Lemma scan_runs_to_completion_witness :
  scans (Nat.iter 26 (Engine.scan_resume (fun _ => unreachable) monday_morning)
           (fst (Engine.post_scan "192.168.1" (boot DEFAULT_CONFIG [])))) = [].
Proof.
  destruct (scan_runs_to_completion (fun _ => unreachable) monday_morning "192.168.1"
              (boot DEFAULT_CONFIG [])) as (_ & H & _); [reflexivity|reflexivity|exact H].
Defined.

(** X14. A cancellation takes effect at the next batch boundary: the
    batch in flight is still treated, so the printers it found are
    registered, and only then does the scan end, with [scanning] false
    and [lastScan] set. *)
Theorem cancel_ends_scan_after_batch (net : Engine.Net) (clk : Clock) (st : Server)
    (task : ScanTask) :
  scans st = [task] ->
  let st' := Engine.scan_resume net clk (fst (Engine.post_scan_cancel st)) in
  scanning (scanStatus (fst (Engine.post_scan_cancel st))) = false /\
  scans st' = [] /\
  scanStatus st' = {| scanning := false; lastScan := Some (iso clk) |} /\
  printers st'
  = printers (fst (foldl (Engine.scan_result net clk) (st, sc_found task)
                     (Engine.batch_ips (sc_prefix task) (sc_start task)))).
Proof.
  intros Hsc. cbn zeta. split; [done|].
  destruct (scan_resume_finishes net clk (fst (Engine.post_scan_cancel st)) task)
    as (Hend & Hst & Hp); [done|by right|].
  split; [done|]. split; [done|]. rewrite Hp.
  by apply scan_results_printers.
Qed.

Lemma cancel_ends_scan_after_batch_witness :
  let st := fst (Engine.post_scan "10.0.0" (boot DEFAULT_CONFIG [])) in
  let net := fun addr : string =>
               if String.eqb addr "10.0.0.7" then toner_agent 50 else unreachable in
  map fst (printers (Engine.scan_resume net monday_morning
                       (fst (Engine.post_scan_cancel st))))
  = ["10.0.0.7"%string] /\
  scans (Engine.scan_resume net monday_morning (fst (Engine.post_scan_cancel st))) = [].
Proof.
  intros st net.
  destruct (cancel_ends_scan_after_batch net monday_morning st
              {| sc_prefix := "10.0.0"; sc_start := 1; sc_found := [] |})
    as (_ & Hend & _ & Hp); [reflexivity|].
  split; [|exact Hend]. rewrite Hp. vm_compute. reflexivity.
Defined.

(** X15. Cancelling a scan and starting a new one before the
    cancelled scan has reached its next batch boundary leaves two scans
    in flight: the new request is accepted, it raises [scanning] again,
    and the old scan, finding the flag up when its batch returns, goes
    on with its next batch instead of ending. *)
Theorem cancel_then_start_overlaps (net : Engine.Net) (clk : Clock) (st : Server)
    (task : ScanTask) (prefix : string) :
  scans st = [task] ->
  sc_start task + 10 <= 254 ->
  let r := Engine.post_scan prefix (fst (Engine.post_scan_cancel st)) in
  let fresh := {| sc_prefix := prefix; sc_start := 1; sc_found := [] |} in
  snd r = 200 /\
  scans (fst r) = [task; fresh] /\
  scanning (scanStatus (fst r)) = true /\
  exists found,
    scans (Engine.scan_resume net clk (fst r))
    = [fresh; {| sc_prefix := sc_prefix task; sc_start := sc_start task + 10;
                 sc_found := found |}].
Proof.
  intros Hsc Hleft. cbn zeta.
  assert (Hr : Engine.post_scan prefix (fst (Engine.post_scan_cancel st))
               = (Engine.scan_start prefix (fst (Engine.post_scan_cancel st)), 200)) by done.
  rewrite Hr. cbn [fst snd]. split; [done|].
  assert (Hq : scans (Engine.scan_start prefix (fst (Engine.post_scan_cancel st)))
               = [task; {| sc_prefix := prefix; sc_start := 1; sc_found := [] |}]).
  { cbn. by rewrite Hsc. }
  split; [done|]. split; [done|].
  unfold Engine.scan_resume. rewrite Hq.
  pose proof (scan_results_frame net clk
                (Engine.batch_ips (sc_prefix task) (sc_start task))
                (Engine.scan_start prefix (fst (Engine.post_scan_cancel st)))
                (sc_found task)) as (Hst & _).
  destruct (foldl _ _ _) as [st' found]. cbn [fst] in Hst.
  unfold Engine.batchSize. rewrite Hst.
  destruct (Z.leb_spec (sc_start task + 10) 254); [|lia].
  cbn. by exists found.
Qed.

Lemma cancel_then_start_overlaps_witness :
  let st := fst (Engine.post_scan "10.0.0" (boot DEFAULT_CONFIG [])) in
  scans (fst (Engine.post_scan "10.0.1" (fst (Engine.post_scan_cancel st))))
  = [ {| sc_prefix := "10.0.0"; sc_start := 1; sc_found := [] |};
      {| sc_prefix := "10.0.1"; sc_start := 1; sc_found := [] |} ].
Proof.
  intros st.
  destruct (cancel_then_start_overlaps (fun _ => unreachable) monday_morning st
              {| sc_prefix := "10.0.0"; sc_start := 1; sc_found := [] |} "10.0.1")
    as (_ & H & _); [reflexivity|cbn; lia|exact H].
Defined.

Lemma map_set_keys_iff k k' v m :
  k ∈ map fst (map_set k' v m) <-> k = k' \/ k ∈ map fst m.
Proof.
  induction m as [|[k2 v2] m IH]; cbn.
  - rewrite list_elem_of_singleton, elem_of_nil. tauto.
  - destruct (String.eqb k2 k') eqn:H; cbn; rewrite !elem_of_cons.
    + apply String.eqb_eq in H as ->. tauto.
    + rewrite IH. tauto.
Qed.

Lemma scan_results_keys net clk ips st found k :
  k ∈ map fst (printers (fst (foldl (Engine.scan_result net clk) (st, found) ips))) <->
  k ∈ map fst (printers st) \/ (k ∈ ips /\ answers_as_printer net k).
Proof.
  revert st found. induction ips as [|x ips IH]; intros st found.
  - cbn. rewrite elem_of_nil. tauto.
  - cbn [foldl]. cbn [Engine.scan_result]. rewrite elem_of_cons.
    destruct (_ && _) eqn:Hx; rewrite IH.
    + cbn [printers with_printers]. rewrite map_set_keys_iff.
      apply andb_true_iff in Hx. split; [|tauto].
      intros [[->|?]|?]; [|tauto|tauto]. right. split; [by left|done].
    + split; [tauto|]. intros [?|[[->|?] Hans]]; [tauto| |tauto].
      destruct Hans as [H1 H2]. rewrite H1, H2 in Hx. done.
Qed.

(** X16. A scan step never removes a device from the registry, and
    the only addresses it adds are those of its own batch whose
    description answer is non-empty and contains one of the printer
    keywords; a silent address or a device without a keyword is not
    registered. *)
Theorem scan_registers_only_printers (net : Engine.Net) (clk : Clock) (st : Server)
    (task : ScanTask) (rest : list ScanTask) (k : string) :
  scans st = task :: rest ->
  k ∈ map fst (printers (Engine.scan_resume net clk st)) <->
  k ∈ map fst (printers st) \/
  (k ∈ Engine.batch_ips (sc_prefix task) (sc_start task) /\ answers_as_printer net k).
Proof.
  intros Hsc. rewrite <- (scan_results_keys net clk _ st (sc_found task) k).
  unfold Engine.scan_resume. rewrite Hsc.
  destruct (foldl _ _ _) as [st' found]. cbn [fst]. by destruct (_ && _).
Qed.

Lemma scan_registers_only_printers_witness :
  let st := fst (Engine.post_scan "10.0.0" (boot DEFAULT_CONFIG [])) in
  let net := fun addr : string =>
               if String.eqb addr "10.0.0.7" then toner_agent 50 else unreachable in
  "10.0.0.7"%string ∈ map fst (printers (Engine.scan_resume net monday_morning st)).
Proof.
  intros st net.
  apply (scan_registers_only_printers net monday_morning st
           {| sc_prefix := "10.0.0"; sc_start := 1; sc_found := [] |} []);
    [reflexivity|].
  right. split.
  - vm_compute. do 6 apply list_elem_of_further. apply list_elem_of_here.
  - split; reflexivity.
Defined.

Lemma str_leb_trans a b c :
  JS.str_leb a b = true -> JS.str_leb b c = true -> JS.str_leb a c = true.
Proof.
  revert b c. induction a as [|x a IH]; intros [|y b] [|z c]; cbn; try done.
  destruct (N.ltb_spec (JS.code x) (JS.code y)), (N.ltb_spec (JS.code y) (JS.code x)),
    (N.ltb_spec (JS.code y) (JS.code z)), (N.ltb_spec (JS.code z) (JS.code y)),
    (N.ltb_spec (JS.code x) (JS.code z)), (N.ltb_spec (JS.code z) (JS.code x));
    try done; try lia; eauto.
Qed.

(** X17. With the schedule ["business-hours"] or ["scheduled"], a
    window whose end time sorts before its start time (an overnight
    window such as 22:00 to 06:00) contains no time of day: the
    schedule check fails at every clock reading, so no alert e-mail is
    ever handed to the SMTP transport. *)
Theorem inverted_window_never_notifies (cfg : Config) (clk : Clock)
    (subject message : string) (type : AlertType) :
  notifySchedule (alerts cfg) = Some "business-hours"%string \/
  notifySchedule (alerts cfg) = Some "scheduled"%string ->
  JS.str_leb (JS.or_else (notifyTime (alerts cfg)) "08:00")
             (JS.or_else (notifyEndTime (alerts cfg)) "18:00") = false ->
  Alerts.isWithinNotificationSchedule cfg clk = false /\
  Alerts.sendEmailNotification cfg clk subject message (KAlert type) = [].
Proof.
  intros Hs Hw.
  assert (Hwin : JS.str_leb (JS.or_else (notifyTime (alerts cfg)) "08:00") (hhmm clk)
                 && JS.str_leb (hhmm clk) (JS.or_else (notifyEndTime (alerts cfg)) "18:00")
                 = false).
  { apply not_true_is_false. intros [H1 H2]%andb_true_iff.
    by rewrite (str_leb_trans _ _ _ H1 H2) in Hw. }
  assert (Hno : Alerts.isWithinNotificationSchedule cfg clk = false).
  { unfold Alerts.isWithinNotificationSchedule. cbv zeta. rewrite Hwin.
    destruct Hs as [-> | ->]; cbn; by rewrite andb_false_r. }
  split; [done|]. by apply email_gated.
Qed.

Lemma inverted_window_never_notifies_witness :
  Alerts.isWithinNotificationSchedule night_config
    {| ms := 0; iso := "2024-03-04T23:30:00.000Z"; day := 1; hhmm := "23:30" |} = false.
Proof.
  apply (inverted_window_never_notifies night_config _ EmptyString EmptyString AOffline).
  - by right.
  - reflexivity.
Defined.

Lemma type_name_inj t1 t2 rest1 rest2 :
  Alerts.type_name t1 +:+ rest1 = Alerts.type_name t2 +:+ rest2 -> t1 = t2.
Proof. destruct t1, t2; cbn; intros [=]; done. Qed.

Lemma cooldownKey_type_inj addr t1 t2 s :
  Alerts.cooldownKey addr t1 s = Alerts.cooldownKey addr t2 s -> t1 = t2.
Proof.
  unfold Alerts.cooldownKey. destruct (JS.truthy s).
  - intros H%append_inj_l%append_inj_l. eapply type_name_inj, H.
  - intros H%append_inj_l%append_inj_l. revert H. destruct t1, t2; cbn; congruence.
Qed.

(** X18. The cooldown is kept per alert type: an alert of one type
    for a device (and supply) leaves the cooldown of every other type
    for the same device and supply as it was. In particular a supply
    that falls from low to critical is alerted again although its
    low-supply alert is still in cooldown. *)
Theorem cooldown_is_per_type (clk : Clock) (t1 t2 : AlertType) (addr pname : string)
    (supplyName : option string) (details : Details) (st : Server) (now : Z) :
  t1 <> t2 ->
  let st' := fst (Alerts.triggerAlert clk t1 addr pname supplyName details st) in
  Alerts.isInCooldown now (Alerts.cooldownKey addr t2 supplyName) st'
  = Alerts.isInCooldown now (Alerts.cooldownKey addr t2 supplyName) st.
Proof.
  intros Hne. cbn zeta.
  destruct (Alerts.isInCooldown (ms clk) (Alerts.cooldownKey addr t1 supplyName) st) eqn:Hc.
  - by rewrite triggerAlert_suppressed.
  - rewrite triggerAlert_fires by done. unfold Alerts.isInCooldown. cbn.
    rewrite lookup_insert_ne; [done|]. intros H. by apply cooldownKey_type_inj in H.
Qed.

Lemma cooldown_is_per_type_witness :
  Alerts.isInCooldown 118800001
    (Alerts.cooldownKey "10.0.0.7" ACriticalSupply (Some "Black Toner"%string))
    (fst (Alerts.triggerAlert monday_morning ALowSupply "10.0.0.7" "HP LaserJet 4250"
            (Some "Black Toner"%string)
            {| d_percentage := Some (JS.Int 15); d_lastSeen := None; d_downtime := None |}
            (boot DEFAULT_CONFIG [])))
  = false.
Proof.
  rewrite (cooldown_is_per_type monday_morning ALowSupply ACriticalSupply); [|done].
  reflexivity.
Defined.

Lemma check_supply_quiet clk p st l :
  (forall s, s ∈ l -> Engine.supply_alert (config st) s = None) ->
  foldl (Engine.check_supply clk p) st l = st.
Proof.
  induction l as [|s l IH]; intros H; [done|].
  cbn [foldl]. unfold Engine.check_supply at 2.
  rewrite (H s) by apply list_elem_of_here.
  apply IH. intros s' Hs'. apply H. by apply list_elem_of_further.
Qed.

Lemma check_recovery_config clk st p :
  config (Engine.check_recovery clk st p) = config st.
Proof.
  unfold Engine.check_recovery. destruct (offlineTimestamps st !! ip p); [|done].
  cbn. apply (triggerAlert_frame clk ABackOnline).
Qed.

(** X19. An outage shorter than the offline threshold is reported by
    its end only. A device first seen offline, with no timer running,
    stores no alert at that check; when the next check finds it online
    with no supply at an alert level, exactly one alert is stored, of
    type back-online, whose downtime is the time between the two
    checks, and the timer is gone. No offline alert precedes it. *)
Theorem brief_outage_reports_recovery_only (clk0 clk1 : Clock) (st : Server)
    (p_off p_on : PrinterData) :
  Engine.is_offline p_off = true ->
  Engine.is_offline p_on = false ->
  ip p_on = ip p_off ->
  (forall s, s ∈ supplies p_on -> Engine.supply_alert (config st) s = None) ->
  offlineTimestamps st !! ip p_off = None ->
  0 < Alerts.offlineThresholdMs (config st) ->
  Alerts.isInCooldown (ms clk1) (Alerts.cooldownKey (ip p_off) ABackOnline None) st = false ->
  let st1 := Engine.check_printer clk0 st p_off in
  let st2 := Engine.check_printer clk1 st1 p_on in
  alertFile st1 = alertFile st /\
  offlineTimestamps st1 !! ip p_off = Some (ms clk0) /\
  offlineTimestamps st2 !! ip p_off = None /\
  exists ev,
    alertFile st2 = Storage.saveAlertHistory (alertFile st ++ [ev]) /\
    i_type (a_alert ev) = ABackOnline /\
    d_downtime (i_details (a_alert ev)) = Some (Engine.downtime_str (ms clk1 - ms clk0)).
Proof.
  intros Hoff Hon Hip Hquiet Hnone Hthr Hcool st1 st2.
  assert (E1 : st1 = Engine.check_offline clk0 st p_off)
    by (subst st1; unfold Engine.check_printer; by rewrite Hoff).
  assert (E2 : st2 = foldl (Engine.check_supply clk1 p_on)
                       (Engine.check_recovery clk1 st1 p_on) (supplies p_on))
    by (subst st2; unfold Engine.check_printer; by rewrite Hon).
  clearbody st1 st2.
  destruct (check_offline_spec clk0 st p_off) as (Ht1 & _ & Hsilent).
  rewrite Hnone in Ht1, Hsilent. cbn [default] in Ht1, Hsilent.
  destruct Hsilent as [Hfile1 Hcd1]; [left; lia|].
  destruct (check_printer_same_registry clk0 st p_off) as (_ & _ & Hcfg1).
  unfold Engine.check_printer in Hcfg1. rewrite Hoff in Hcfg1.
  rewrite <- E1 in Ht1, Hfile1, Hcd1, Hcfg1.
  assert (Hstart : offlineTimestamps st1 !! ip p_on = Some (ms clk0)).
  { rewrite Ht1, Hip. apply lookup_insert_eq. }
  destruct (check_recovery_spec clk1 st1 p_on (ms clk0) Hstart) as (Ht2 & Hfire & _).
  rewrite check_supply_quiet in E2.
  2:{ intros s Hs. rewrite check_recovery_config, Hcfg1. by apply Hquiet. }
  rewrite <- E2 in Ht2, Hfire.
  split; [done|]. split; [by rewrite <- Hip|]. split.
  { rewrite Ht2, Hip. apply lookup_delete_eq. }
  destruct Hfire as (ev & Hfile2 & Hty & _ & Hdown & _).
  { unfold Alerts.isInCooldown in *. by rewrite Hcd1, Hcfg1, Hip. }
  exists ev. by rewrite Hfile2, Hfile1.
Qed.

Lemma brief_outage_reports_recovery_only_witness :
  let p_off := Poller.queryPrinter unreachable (at_minute 1) "10.0.0.7" in
  let p_on := Poller.queryPrinter (toner_agent 50) (at_minute 2) "10.0.0.7" in
  let st2 := Engine.check_printer (at_minute 2)
               (Engine.check_printer (at_minute 1) healthy_start p_off) p_on in
  exists ev,
    alertFile st2 = Storage.saveAlertHistory (alertFile healthy_start ++ [ev]) /\
    i_type (a_alert ev) = ABackOnline /\
    d_downtime (i_details (a_alert ev)) = Some (Engine.downtime_str (120000 - 60000)).
Proof.
  intros p_off p_on st2.
  destruct (brief_outage_reports_recovery_only (at_minute 1) (at_minute 2) healthy_start
              p_off p_on) as (_ & _ & _ & H); try reflexivity.
  - intros s Hs. assert (Hl : supplies p_on = [toner 50 100]) by (vm_compute; reflexivity).
    rewrite Hl in Hs. apply list_elem_of_singleton in Hs as ->. vm_compute; reflexivity.
  - exact H.
Defined.

Lemma map_set_fresh k v m :
  k ∉ map fst m -> map_set k v m = m ++ [(k, v)] /\ map_delete k (m ++ [(k, v)]) = m.
Proof.
  induction m as [|[k' v'] m IH]; cbn; intros Hk.
  - by rewrite String.eqb_refl.
  - rewrite not_elem_of_cons in Hk. destruct Hk as [Hne Hk].
    destruct (String.eqb_spec k' k) as [->|_]; [done|].
    destruct (IH Hk) as [-> ->]. done.
Qed.

Lemma map_get_in k m : k ∈ map fst m -> is_Some (map_get k m).
Proof.
  induction m as [|[k' v'] m IH]; cbn; [by intros ?%elem_of_nil|].
  intros [->|Hin]%elem_of_cons.
  - by rewrite String.eqb_refl.
  - destruct (String.eqb k' k); [done|by apply IH].
Qed.

Lemma map_delete_not_in k m : NoDup (map fst m) -> k ∉ map fst (map_delete k m).
Proof.
  induction m as [|[k' v'] m IH]; cbn; [intros _; apply not_elem_of_nil|].
  intros [Hk' Hnd]%NoDup_cons. destruct (String.eqb_spec k' k) as [->|Hne]; [done|].
  cbn. apply not_elem_of_cons. split; [done|by apply IH].
Qed.

Lemma map_delete_others k k' m : k' <> k -> map_get k' (map_delete k m) = map_get k' m.
Proof.
  intros Hne. induction m as [|[k2 v2] m IH]; cbn; [done|].
  destruct (String.eqb_spec k2 k) as [->|Hk2].
  - destruct (String.eqb_spec k k'); [congruence|done].
  - cbn. by rewrite IH.
Qed.

(** X20. One turn of the refresh loop stores a fresh snapshot under
    its address and removes nothing: an address still registered keeps
    its place, and one that is no longer registered is appended. So a
    device removed by [DELETE /api/printers/:ip] while the loop is
    waiting for an answer is registered again by the loop's own turn
    for it, now at the end of the registry, the other devices being
    left as they were. Only the turns that run back to back, over
    addresses all registered, leave the addresses and their order
    unchanged. *)
Theorem refresh_turn_registers (net : Engine.Net) (clk : Clock) (addr : string)
    (st : Server) :
  let keys st := map fst (printers st) in
  let st' := Engine.refresh_one net clk st addr in
  map_get addr (printers st') = Some (Poller.queryPrinter (net addr) clk addr) /\
  (forall k, k ∈ keys st -> k ∈ keys st') /\
  (addr ∈ keys st -> keys st' = keys st) /\
  (addr ∉ keys st -> keys st' = keys st ++ [addr]) /\
  (NoDup (keys st) -> addr ∈ keys st ->
   let deleted := fst (Engine.delete_printer addr st) in
   let again := Engine.refresh_one net clk deleted addr in
   snd (Engine.delete_printer addr st) = 200 /\
   (addr ∉ keys deleted) /\
   keys again = keys deleted ++ [addr] /\
   map_get addr (printers again) = Some (Poller.queryPrinter (net addr) clk addr) /\
   forall k, k <> addr -> map_get k (printers again) = map_get k (printers st)) /\
  (forall ips,
     (forall k, k ∈ ips -> k ∈ keys st) ->
     keys (foldl (Engine.refresh_one net clk) st ips) = keys st).
Proof.
  cbn zeta. unfold Engine.refresh_one. cbn [printers with_printers].
  split; [apply map_get_set_eq|]. split.
  { intros k Hk. apply map_set_keys_iff. by right. }
  split; [apply map_set_keys|]. split.
  { intros Hfresh. rewrite (proj1 (map_set_fresh _ _ _ Hfresh)), map_app. done. }
  split.
  - intros Hnd Hin. unfold Engine.delete_printer.
    destruct (map_get_in addr (printers st) Hin) as [v ->].
    cbn [fst snd printers with_printers].
    pose proof (map_delete_not_in addr (printers st) Hnd) as Hgone.
    split; [done|]. split; [done|]. split.
    { rewrite (proj1 (map_set_fresh _ _ _ Hgone)), map_app. done. }
    split; [apply map_get_set_eq|].
    intros k Hk. rewrite map_get_set_ne by done. by apply map_delete_others.
  - intros ips Hips. by destruct (refresh_loop net clk ips st Hips) as (Hk & _).
Qed.

(** With the devices A and B registered, a removal of A that is served
    before the loop's turn for A leaves the registry as B, A. *)
Example refresh_after_delete_reorders :
  let net := fun _ : string => toner_agent 50 in
  let st := boot DEFAULT_CONFIG
              [("10.0.0.7"%string, Poller.queryPrinter (toner_agent 50) clock0 "10.0.0.7");
               ("10.0.0.8"%string, Poller.queryPrinter (toner_agent 50) clock0 "10.0.0.8")] in
  let deleted := fst (Engine.delete_printer "10.0.0.7" st) in
  map fst (printers (foldl (Engine.refresh_one net monday_morning) deleted
                       ["10.0.0.7"; "10.0.0.8"]%string))
  = ["10.0.0.8"; "10.0.0.7"]%string.
Proof. reflexivity. Qed.

(** ** The history recorder *)

(** X21. The snapshot list is a ring of [maxSnapshots] entries: if it
    is within the bound before a recording it is within the bound
    after; below the bound the new snapshot is appended, at the bound
    the oldest snapshot is dropped to make room, and the new snapshot
    is always the last. *)
Theorem snapshot_ring_bounded (clk : Clock) (cutoffDate : string) (p : PrinterData)
    (ps : list PrinterData) (h : History.History) :
  (length (History.snapshots h) <= History.maxSnapshots h)%nat ->
  let h' := History.recordSnapshot clk cutoffDate (p :: ps) h in
  let snapshot := {| History.h_timestamp := iso clk;
                     History.h_printers := map History.sample_of (p :: ps) |} in
  History.maxSnapshots h' = History.maxSnapshots h /\
  (length (History.snapshots h') <= History.maxSnapshots h')%nat /\
  ((length (History.snapshots h) < History.maxSnapshots h)%nat ->
   History.snapshots h' = History.snapshots h ++ [snapshot]) /\
  (length (History.snapshots h) = History.maxSnapshots h ->
   History.snapshots h' = drop 1 (History.snapshots h ++ [snapshot]) /\
   length (History.snapshots h') = History.maxSnapshots h) /\
  ((0 < History.maxSnapshots h)%nat -> last (History.snapshots h') = Some snapshot).
Proof.
  intros Hlen. cbn zeta. unfold History.recordSnapshot.
  cbn [History.maxSnapshots History.snapshots].
  rewrite length_app. cbn [length].
  destruct (Nat.ltb_spec (History.maxSnapshots h) (length (History.snapshots h) + 1)) as [Hfull|Hroom].
  - split; [done|]. rewrite length_drop, length_app. cbn [length].
    split; [lia|]. split; [lia|]. split; [intros _; split; [done|lia]|].
    intros Hpos. destruct (History.snapshots h) as [|s0 l] eqn:E; cbn in *; [lia|].
    by rewrite drop_0, last_snoc.
  - split; [done|]. rewrite length_app. cbn [length].
    split; [lia|]. split; [done|]. split; [lia|]. intros _. by rewrite last_snoc.
Qed.

Lemma snapshot_ring_bounded_witness :
  length (History.snapshots
            (History.recordSnapshot monday_morning "2024-02-03"
               [Poller.queryPrinter (toner_agent 50) monday_morning "10.0.0.7"]
               History.initial)) = 1%nat.
Proof.
  destruct (snapshot_ring_bounded monday_morning "2024-02-03"
              (Poller.queryPrinter (toner_agent 50) monday_morning "10.0.0.7") []
              History.initial) as (_ & _ & H & _); [cbn; lia|].
  rewrite H; [reflexivity|cbn; lia].
Defined.

(** X22. [GET /api/history/snapshots?minutes=m] with a positive [m]
    returns the newest [min m maxSnapshots] snapshots, in order, or
    all of them when there are fewer. *)
Theorem get_snapshots_recent (s : string) (m : Z) (h : History.History) :
  JS.parseInt s = JS.Int m ->
  0 < m ->
  (0 < History.maxSnapshots h)%nat ->
  let n := Z.to_nat (Z.min m (Z.of_nat (History.maxSnapshots h))) in
  History.get_snapshots (Some s) h
  = drop (length (History.snapshots h) - n) (History.snapshots h) /\
  length (History.get_snapshots (Some s) h) = (length (History.snapshots h) `min` n)%nat.
Proof.
  intros Hs Hm Hmax. cbn zeta.
  assert (E : History.get_snapshots (Some s) h
              = drop (length (History.snapshots h)
                      - Z.to_nat (Z.min m (Z.of_nat (History.maxSnapshots h))))
                     (History.snapshots h)).
  { unfold History.get_snapshots. rewrite Hs.
    assert (Hm' : match m with 0 => 60 | _ => m end = m) by (destruct m; done || lia).
    rewrite Hm'. unfold History.slice_from.
    destruct (Z.ltb_spec (- Z.min m (Z.of_nat (History.maxSnapshots h))) 0); [|lia].
    f_equal. lia. }
  split; [done|]. rewrite E, length_drop. lia.
Qed.

Lemma get_snapshots_recent_witness :
  let h := History.recordSnapshot monday_morning "2024-02-03"
             [Poller.queryPrinter (toner_agent 50) monday_morning "10.0.0.7"]
             History.initial in
  length (History.get_snapshots (Some "5"%string) h) = 1%nat.
Proof.
  intros h.
  destruct (get_snapshots_recent "5" 5 h) as [_ H];
    [reflexivity|lia|cbn; lia|].
  rewrite H. reflexivity.
Defined.

(** X23. A negative [minutes] is not rejected and does not fall back
    to the default: [?minutes=-k] skips the oldest [k] snapshots and
    returns all the others, however many they are. *)
Theorem negative_minutes_skip_oldest (s : string) (m : Z) (h : History.History) :
  JS.parseInt s = JS.Int m ->
  m < 0 ->
  History.get_snapshots (Some s) h = drop (Z.to_nat (- m)) (History.snapshots h).
Proof.
  intros Hs Hm. unfold History.get_snapshots. rewrite Hs.
  assert (Hm' : match m with 0 => 60 | _ => m end = m) by (destruct m; done || lia).
  rewrite Hm'. unfold History.slice_from.
  destruct (Z.ltb_spec (- Z.min m (Z.of_nat (History.maxSnapshots h))) 0); [lia|].
  f_equal. lia.
Qed.

Lemma negative_minutes_skip_oldest_witness :
  let h := History.recordSnapshot monday_morning "2024-02-03"
             [Poller.queryPrinter (toner_agent 50) monday_morning "10.0.0.7"]
             History.initial in
  History.get_snapshots (Some "-1"%string) h = [].
Proof.
  intros h. rewrite (negative_minutes_skip_oldest "-1" (-1) h); [reflexivity|reflexivity|lia].
Defined.

Lemma read_ordinary obj k :
  History.inherited k = false ->
  History.absent (History.read obj k) = History.falsy (obj !! k) /\
  History.succ (History.read obj k) = History.incr (obj !! k).
Proof.
  intros Hk. unfold History.read. destruct (obj !! k) as [[z|]|]; [done|done|].
  by rewrite Hk.
Qed.

Lemma write_ordinary {V} k (v : V) obj :
  History.inherited k = false -> History.write k v obj = <[k := v]> obj.
Proof.
  intros Hk. unfold History.write.
  destruct (String.eqb_spec k "__proto__") as [->|_]; [done|done].
Qed.

Lemma write_other {V} k k' (v : V) obj :
  k' <> k -> History.write k v obj !! k' = obj !! k'.
Proof.
  intros Hne. unfold History.write. destruct (_ && _); [done|].
  by rewrite lookup_insert_ne.
Qed.

(** On an address that is not a property name of [Object.prototype]
    the loop body reads and writes own properties only. *)
Lemma record_step_ordinary d p :
  History.inherited (ip p) = false -> History.record_step d p = History.daily_step d p.
Proof.
  intros Hk. unfold History.record_step, History.daily_step. cbv zeta.
  destruct (read_ordinary (History.pageCountStart d) (ip p) Hk) as [-> _].
  destruct (read_ordinary (History.totalMinutes d) (ip p) Hk) as [-> _].
  rewrite !(write_ordinary (ip p)) by done.
  destruct (History.falsy (History.totalMinutes d !! ip p)).
  - destruct (read_ordinary (<[ip p := JS.Int 0]> (History.totalMinutes d)) (ip p) Hk)
      as [_ ->].
    destruct (read_ordinary (<[ip p := JS.Int 0]> (History.uptimeMinutes d)) (ip p) Hk)
      as [_ ->].
    done.
  - destruct (read_ordinary (History.totalMinutes d) (ip p) Hk) as [_ ->].
    destruct (read_ordinary (History.uptimeMinutes d) (ip p) Hk) as [_ ->].
    done.
Qed.

(** The loop body leaves the counters of every other address alone,
    whatever the printer's own address is. *)
Lemma record_step_other d p k :
  ip p <> k ->
  History.totalMinutes (History.record_step d p) !! k = History.totalMinutes d !! k /\
  History.uptimeMinutes (History.record_step d p) !! k = History.uptimeMinutes d !! k.
Proof.
  intros Hne. unfold History.record_step. cbv zeta.
  cbn [History.totalMinutes History.uptimeMinutes].
  assert (Hk : k <> ip p) by done.
  destruct (History.absent _), (online p); rewrite ?write_other by done; done.
Qed.

Lemma daily_step_minutes_ok d p k :
  minutes_ok d k -> minutes_ok (History.daily_step d p) k.
Proof.
  unfold minutes_ok. intros H. unfold History.daily_step.
  cbn [History.totalMinutes History.uptimeMinutes].
  destruct (decide (k = ip p)) as [->|Hne].
  - destruct (History.totalMinutes d !! ip p) as [[t|]|] eqn:Et;
      destruct (History.uptimeMinutes d !! ip p) as [[u|]|] eqn:Eu; try done.
    + cbn [History.falsy]. destruct (Z.eqb_spec t 0) as [->|_]; [lia|].
      rewrite lookup_insert_eq. destruct (online p).
      * rewrite lookup_insert_eq, Et, Eu. cbn. lia.
      * rewrite Et, Eu. cbn. lia.
    + cbn [History.falsy]. rewrite !lookup_insert_eq. destruct (online p).
      * rewrite !lookup_insert_eq. cbn. lia.
      * rewrite !lookup_insert_eq. cbn. lia.
  - destruct (History.falsy _), (online p); by rewrite ?lookup_insert_ne by done.
Qed.

Lemma record_step_minutes_ok d p k :
  History.inherited k = false -> minutes_ok d k -> minutes_ok (History.record_step d p) k.
Proof.
  intros Hk H. destruct (decide (ip p = k)) as [Heq|Hne].
  - rewrite record_step_ordinary by (by rewrite Heq). by apply daily_step_minutes_ok.
  - unfold minutes_ok. by destruct (record_step_other d p k Hne) as [-> ->].
Qed.

Lemma record_fold_minutes_ok ps d k :
  History.inherited k = false ->
  minutes_ok d k -> minutes_ok (foldl History.record_step d ps) k.
Proof.
  intros Hk. revert d. induction ps as [|p ps IH]; intros d H; [done|].
  cbn [foldl]. by apply IH, record_step_minutes_ok.
Qed.

(** A device registered under the name of an inherited function has
    its first sample counted as [NaN]: the name reads as the function,
    so the counters are not set to 0, and the increment of a function
    is [NaN]. The next sample finds [NaN], which is falsy, and starts
    again from 0. *)
Example constructor_minutes_are_NaN :
  let p := Poller.queryPrinter (toner_agent 50) monday_morning "constructor" in
  let once := History.record_step History.empty_day p in
  let twice := History.record_step once p in
  History.totalMinutes once !! "constructor"%string = Some JS.NaN /\
  History.uptimeMinutes once !! "constructor"%string = Some JS.NaN /\
  History.pageCountStart once !! "constructor"%string = None /\
  History.pagesPrinted once "constructor" = JS.NaN /\
  History.totalMinutes twice !! "constructor"%string = Some (JS.Int 1) /\
  History.uptimeMinutes twice !! "constructor"%string = Some (JS.Int 1).
Proof. cbn zeta. repeat (split; [vm_compute; reflexivity|]). vm_compute; reflexivity. Qed.

(** X24. The recorder keeps the minute counters of every address that
    is not a property name of [Object.prototype] consistent: if in
    every recorded day such an address has an uptime between zero and
    its total minutes (with a total of at least one), or no counters,
    the same holds after another recording, whatever the registry
    holds, also when an address occurs more than once or another
    device is registered under such a property name. For these
    addresses uptime never exceeds the minutes observed and neither
    counter becomes [NaN]. *)
Theorem uptime_never_exceeds_total (clk : Clock) (cutoffDate : string)
    (ps : list PrinterData) (h : History.History) (k : string) :
  History.inherited k = false ->
  (forall date d, History.daily h !! date = Some d -> minutes_ok d k) ->
  forall date d,
    History.daily (History.recordSnapshot clk cutoffDate ps h) !! date = Some d ->
    minutes_ok d k.
Proof.
  intros Hk Hall date d. unfold History.recordSnapshot.
  destruct ps as [|p ps]; [apply Hall|].
  cbn [History.daily]. intros [Hd _]%map_lookup_filter_Some.
  destruct (decide (date = History.date_of (iso clk))) as [->|Hne].
  - rewrite lookup_insert_eq in Hd. injection Hd as <-.
    apply (record_fold_minutes_ok (p :: ps)); [done|].
    destruct (History.daily h !! History.date_of (iso clk)) as [d0|] eqn:E.
    + rewrite E. cbn. by eapply Hall.
    + rewrite lookup_insert_eq. cbn. unfold minutes_ok. cbn. by rewrite !lookup_empty.
  - rewrite lookup_insert_ne in Hd by done.
    destruct (History.daily h !! History.date_of (iso clk)); [by eapply Hall|].
    rewrite lookup_insert_ne in Hd by done. by eapply Hall.
Qed.

Lemma uptime_never_exceeds_total_witness :
  minutes_ok
    (foldl History.record_step History.empty_day
       [Poller.queryPrinter (toner_agent 50) monday_morning "10.0.0.7";
        Poller.queryPrinter unreachable monday_morning "constructor"])
    "10.0.0.7".
Proof.
  apply (uptime_never_exceeds_total monday_morning "2024-02-03"
           [Poller.queryPrinter (toner_agent 50) monday_morning "10.0.0.7";
            Poller.queryPrinter unreachable monday_morning "constructor"]
           History.initial "10.0.0.7")
    with (date := History.date_of (iso monday_morning)).
  - reflexivity.
  - intros date d H. cbn in H. by rewrite lookup_empty in H.
  - unfold History.recordSnapshot. cbn [History.daily History.initial].
    rewrite lookup_empty. apply map_lookup_filter_Some. split.
    + rewrite lookup_insert_eq. f_equal.
    + reflexivity.
Defined.

(** X25. The pages printed in a day are the counter of the latest
    sample minus the first non-zero counter of the day: once a device
    has a non-zero start count, a sample leaves the start count as it
    is, stores its own counter as the end count, and the summary
    reports the difference. *)
Theorem pages_printed_since_first_count (d : History.DailyData) (p : PrinterData)
    (s c : Z) :
  History.pageCountStart d !! ip p = Some (JS.Int s) ->
  s <> 0 ->
  totalPages p = JS.Int c ->
  let d' := History.daily_step d p in
  History.pageCountStart d' !! ip p = Some (JS.Int s) /\
  History.pageCountEnd d' !! ip p = Some (JS.Int c) /\
  History.pagesPrinted d' (ip p) = JS.Int (c - s).
Proof.
  intros Hs Hne Hc. cbn zeta.
  assert (H1 : History.pageCountStart (History.daily_step d p) !! ip p = Some (JS.Int s)).
  { unfold History.daily_step. cbn [History.pageCountStart]. rewrite Hs. cbn [History.falsy].
    by destruct (Z.eqb_spec s 0). }
  assert (H2 : History.pageCountEnd (History.daily_step d p) !! ip p = Some (JS.Int c)).
  { unfold History.daily_step. cbn [History.pageCountEnd]. by rewrite lookup_insert_eq, Hc. }
  split; [done|]. split; [done|].
  unfold History.pagesPrinted, History.read. rewrite H1, H2.
  unfold History.or_zero. cbn [History.absent].
  destruct (Z.eqb_spec s 0); [done|]. destruct (Z.eqb_spec c 0) as [->|]; done.
Qed.

Lemma pages_printed_since_first_count_witness :
  let p0 := Poller.queryPrinter wordy_agent clock0 "10.0.0.8" in
  let d := History.daily_step History.empty_day p0 in
  History.pagesPrinted (History.daily_step d p0) "10.0.0.8" = JS.Int 0.
Proof.
  intros p0 d.
  destruct (pages_printed_since_first_count d p0 1234 1234) as (_ & _ & H);
    [reflexivity|lia|reflexivity|exact H].
Defined.

(** X26. A sample taken while the device does not answer stores the
    page counter 0 as the day's end count: for a device whose start
    count of the day is [s], not zero, the pages printed reported
    after such a sample are [- s], a negative number, until a later
    sample finds the device reachable again. *)
Theorem unreachable_sample_gives_negative_pages (d : History.DailyData) (a : Agent)
    (clk : Clock) (addr : string) (s : Z) :
  JS.truthy (snmpGet a oid_description) = false ->
  History.pageCountStart d !! addr = Some (JS.Int s) ->
  s <> 0 ->
  let d' := History.daily_step d (Poller.queryPrinter a clk addr) in
  History.pageCountEnd d' !! addr = Some (JS.Int 0) /\
  History.pagesPrinted d' addr = JS.Int (- s).
Proof.
  intros Ha Hs Hne. cbn zeta. rewrite queryPrinter_unreachable by done.
  set (p := Poller.set_offline (Poller.initial clk addr)).
  assert (Hip : ip p = addr) by done.
  assert (Hc : totalPages p = JS.Int 0) by done.
  unfold History.pagesPrinted, History.read, History.daily_step.
  cbn [History.pageCountStart History.pageCountEnd].
  rewrite Hip, Hc, Hs, lookup_insert_eq. cbn [History.falsy].
  destruct (Z.eqb_spec s 0); [done|]. rewrite Hs.
  split; [done|]. unfold History.or_zero. cbn. by destruct (Z.eqb_spec s 0).
Qed.

Lemma unreachable_sample_gives_negative_pages_witness :
  let d := History.daily_step History.empty_day
             (Poller.queryPrinter wordy_agent clock0 "10.0.0.8") in
  History.pagesPrinted
    (History.daily_step d (Poller.queryPrinter unreachable (at_minute 1) "10.0.0.8"))
    "10.0.0.8"
  = JS.Int (- 1234).
Proof.
  intros d.
  destruct (unreachable_sample_gives_negative_pages d unreachable (at_minute 1)
              "10.0.0.8" 1234) as [_ H]; [reflexivity|reflexivity|lia|exact H].
Defined.

(** X27. After a recording the daily table holds exactly the dates
    not before the cut-off date that were there before, and today's
    date if it is not before the cut-off; the data of the days kept,
    other than today's, are untouched. *)
Theorem old_days_are_purged (clk : Clock) (cutoffDate : string) (p : PrinterData)
    (ps : list PrinterData) (h : History.History) (date : string) :
  let h' := History.recordSnapshot clk cutoffDate (p :: ps) h in
  let today := History.date_of (iso clk) in
  (is_Some (History.daily h' !! date) <->
   History.str_ltb date cutoffDate = false /\
   (date = today \/ is_Some (History.daily h !! date))) /\
  (History.str_ltb date cutoffDate = true -> History.daily h' !! date = None) /\
  (date <> today -> History.str_ltb date cutoffDate = false ->
   History.daily h' !! date = History.daily h !! date).
Proof.
  cbn zeta. unfold History.recordSnapshot. cbn [History.daily].
  set (today := History.date_of (iso clk)).
  set (days := match History.daily h !! today with
               | Some _ => History.daily h
               | None => <[today := History.empty_day]> (History.daily h)
               end).
  assert (Hdays : forall k, k <> today -> days !! k = History.daily h !! k).
  { intros k Hk. subst days. destruct (History.daily h !! today); [done|].
    by rewrite lookup_insert_ne. }
  split; [|split].
  - unfold is_Some. split.
    + intros [x [Hx Hp]%map_lookup_filter_Some]. cbn in Hp. split; [done|].
      destruct (decide (date = today)) as [|Hne]; [by left|right].
      rewrite lookup_insert_ne in Hx by done. rewrite Hdays in Hx by done. by exists x.
    + intros [Hp [->|[x Hx]]].
      * eexists. apply map_lookup_filter_Some. split; [apply lookup_insert_eq|done].
      * destruct (decide (date = today)) as [->|Hne].
        { eexists. apply map_lookup_filter_Some. split; [apply lookup_insert_eq|done]. }
        exists x. apply map_lookup_filter_Some. split; [|done].
        rewrite lookup_insert_ne by done. by rewrite Hdays.
  - intros Hold. apply map_lookup_filter_None. right. intros x _. cbn. by rewrite Hold.
  - intros Hne Hkeep.
    destruct (History.daily h !! date) as [x|] eqn:E.
    + apply map_lookup_filter_Some. split; [|done].
      rewrite lookup_insert_ne by done. by rewrite Hdays.
    + apply map_lookup_filter_None. left.
      rewrite lookup_insert_ne by done. by rewrite Hdays.
Qed.

(** ** The registry and alert history routes *)

(** X28. Adding a printer by address stores the snapshot of a fresh
    poll under that address, so that it can be fetched at once, and
    leaves every other entry alone. A known address keeps its place in
    the registry; a new one is appended, and removing it again gives
    back the server state as it was. *)
Theorem add_then_remove_printer (net : Engine.Net) (clk : Clock) (addr : string)
    (st : Server) :
  JS.is_empty addr = false ->
  let r := Engine.post_printers net clk (Some addr) st in
  snd r = 201 /\
  Engine.get_printer addr (fst r) = (Some (Poller.queryPrinter (net addr) clk addr), 200) /\
  (forall k, k <> addr -> Engine.get_printer k (fst r) = Engine.get_printer k st) /\
  (addr ∈ map fst (printers st) -> map fst (printers (fst r)) = map fst (printers st)) /\
  (addr ∉ map fst (printers st) ->
   map fst (printers (fst r)) = map fst (printers st) ++ [addr] /\
   Engine.delete_printer addr (fst r) = (st, 200)).
Proof.
  intros Hne. cbn zeta. unfold Engine.post_printers. rewrite Hne. cbn [fst snd].
  split; [done|]. split.
  { unfold Engine.get_printer. cbn [printers with_printers]. by rewrite map_get_set_eq. }
  split.
  { intros k Hk. unfold Engine.get_printer. cbn [printers with_printers].
    by rewrite map_get_set_ne. }
  split.
  { intros Hin. cbn [printers with_printers]. by apply map_set_keys. }
  intros Hfresh. cbn [printers with_printers].
  destruct (map_set_fresh addr (Poller.queryPrinter (net addr) clk addr) (printers st) Hfresh)
    as [Hset Hdel].
  split.
  { rewrite Hset, map_app. done. }
  unfold Engine.delete_printer. cbn [printers with_printers].
  rewrite map_get_set_eq. unfold with_printers. cbn.
  rewrite Hset, Hdel. by destruct st.
Qed.

Lemma add_then_remove_printer_witness :
  let r := Engine.post_printers (fun _ => toner_agent 50) monday_morning
             (Some "10.0.0.9"%string) healthy_start in
  map fst (printers (fst r)) = ["10.0.0.7"; "10.0.0.9"]%string /\
  Engine.delete_printer "10.0.0.9" (fst r) = (healthy_start, 200).
Proof.
  intros r.
  destruct (add_then_remove_printer (fun _ => toner_agent 50) monday_morning "10.0.0.9"
              healthy_start) as (_ & _ & _ & _ & H); [reflexivity|].
  apply H. cbn. rewrite list_elem_of_singleton. discriminate.
Defined.

Lemma silenced_by_cooldown clk type addr pname supplyName details st last :
  alertCooldown st !! Alerts.cooldownKey addr type supplyName = Some last ->
  ms clk - last < Alerts.cooldownMs (config st) ->
  Alerts.triggerAlert clk type addr pname supplyName details st = (st, None).
Proof.
  intros Hl Hlt. apply triggerAlert_suppressed. unfold Alerts.isInCooldown. rewrite Hl.
  by apply Z.ltb_lt.
Qed.

Lemma find_index_some alertId alerts :
  alertId ∈ map a_id alerts -> is_Some (Storage.find_index alertId alerts).
Proof.
  induction alerts as [|a alerts IH]; cbn; [by intros ?%elem_of_nil|].
  intros [?|Hin]%elem_of_cons.
  - subst. by rewrite String.eqb_refl.
  - destruct (String.eqb (a_id a) alertId); [done|].
    destruct (IH Hin) as [i ->]. done.
Qed.

Lemma saved_alert_is_kept (file : list AlertEvent) (ev : AlertEvent) :
  ev ∈ Storage.saveAlertHistory (file ++ [ev]).
Proof.
  unfold Storage.saveAlertHistory, Storage.slice_last, Storage.max_alerts.
  rewrite length_app. cbn [length].
  rewrite drop_app_le by lia. apply elem_of_app. right. apply list_elem_of_here.
Qed.

(** X29. Deleting an alert, or clearing the whole history, does not
    re-arm it: the cooldown entry set when the alert was stored stays,
    so the same condition triggered again within the cooldown window
    stores nothing and the history stays as the deletion left it.
    (Acknowledging the alert is what clears the cooldown.) *)
Theorem deleted_alert_stays_silenced (clk clk' : Clock) (type : AlertType)
    (addr pname pname' : string) (supplyName : option string) (details details' : Details)
    (st : Server) :
  Alerts.isInCooldown (ms clk) (Alerts.cooldownKey addr type supplyName) st = false ->
  ms clk' - ms clk < Alerts.cooldownMs (config st) ->
  let st1 := fst (Alerts.triggerAlert clk type addr pname supplyName details st) in
  let cleared := fst (Engine.clear_alerts st1) in
  let deleted := fst (Engine.delete_alert (pretty (ms clk)) st1) in
  alertFile cleared = [] /\
  Alerts.triggerAlert clk' type addr pname' supplyName details' cleared = (cleared, None) /\
  snd (Engine.delete_alert (pretty (ms clk)) st1) = 200 /\
  Alerts.triggerAlert clk' type addr pname' supplyName details' deleted = (deleted, None).
Proof.
  intros Hc Hwin st1 cleared deleted.
  assert (E : st1 = fst (Alerts.triggerAlert clk type addr pname supplyName details st))
    by done.
  clearbody st1. rewrite triggerAlert_fires in E by done. cbn [fst] in E.
  assert (Hkey : alertCooldown st1 !! Alerts.cooldownKey addr type supplyName = Some (ms clk)).
  { rewrite E. cbn. apply lookup_insert_eq. }
  assert (Hcfg : config st1 = config st) by (by rewrite E).
  assert (Hfound : is_Some (Storage.find_index (pretty (ms clk)) (alertFile st1))).
  { apply find_index_some. rewrite E. cbn [alertFile].
    eapply (list_elem_of_fmap_2' a_id); [apply saved_alert_is_kept|done]. }
  destruct Hfound as [i Hi].
  assert (Hdel : Engine.delete_alert (pretty (ms clk)) st1
                 = (with_alertFile
                      (Storage.saveAlertHistory (delete i (alertFile st1))) st1, 200)).
  { unfold Engine.delete_alert, Storage.deleteAlert, Storage.loadAlertHistory.
    by rewrite Hi. }
  subst cleared deleted. rewrite Hdel. cbn [fst snd Engine.clear_alerts].
  split; [done|]. split; [|split; [done|]].
  - apply (silenced_by_cooldown _ _ _ _ _ _ _ (ms clk)); cbn; [done|by rewrite Hcfg].
  - apply (silenced_by_cooldown _ _ _ _ _ _ _ (ms clk)); cbn; [done|by rewrite Hcfg].
Qed.

Lemma deleted_alert_stays_silenced_witness :
  let st1 := fst (Alerts.triggerAlert monday_morning AOffline "10.0.0.7" "HP LaserJet 4250"
                    None
                    {| d_percentage := None; d_lastSeen := None; d_downtime := None |}
                    (boot DEFAULT_CONFIG [])) in
  let cleared := fst (Engine.clear_alerts st1) in
  Alerts.triggerAlert
    {| ms := 118860000; iso := "2024-03-04T09:01:00.000Z"; day := 1; hhmm := "09:01" |}
    AOffline "10.0.0.7" "HP LaserJet 4250" None
    {| d_percentage := None; d_lastSeen := None; d_downtime := None |} cleared
  = (cleared, None).
Proof.
  intros st1 cleared.
  destruct (deleted_alert_stays_silenced monday_morning
              {| ms := 118860000; iso := "2024-03-04T09:01:00.000Z"; day := 1;
                 hhmm := "09:01" |}
              AOffline "10.0.0.7" "HP LaserJet 4250" "HP LaserJet 4250" None
              {| d_percentage := None; d_lastSeen := None; d_downtime := None |}
              {| d_percentage := None; d_lastSeen := None; d_downtime := None |}
              (boot DEFAULT_CONFIG [])) as (_ & H & _); [reflexivity|reflexivity|exact H].
Defined.
